(** * Calendar -> Reminders synchronisation: a shallow embedding

    The development follows [calendar_sync.py] (the authenticated-API
    variant) and [calendar_sync_ical.py] (the feed variant) of
    [local-meeting-reminder].

    Conventions.
    - A Python [str] is a [string]; its characters are the bytes of the
      UTF-8 text, so that bytewise lexicographic comparison is Python's
      code-point comparison.  The whitespace class of [re] is modelled on
      the 7-bit range.
    - A Python [dict] is a [gmap].
    - A [datetime] is the record of its fields, compared field by field as
      [datetime.__lt__] does; arithmetic with a [timedelta] goes through the
      proleptic Gregorian ordinal as in [datetime.__add__].
    - The operating system (clock, state file, Reminders application, log)
      is an explicit world value threaded through the run.
    - The calls to the collaborators return: [subprocess.run] hands back
      what [osascript] printed, the state file is written whole, a log line
      is printed.  A run in which one of these calls raises is not followed;
      the exceptions that are followed are those of the event listing, of
      an event without id and of the date arithmetic.
    - The digits of [strptime] and the whitespace of [re] are those of the
      7-bit range. *)

From Stdlib Require Import ZArith Ascii String.
From stdpp Require Import gmap strings list fin_maps pretty.

Local Open Scope Z_scope.

(** ** Python string primitives *)

Module PyStr.

(** [pat in s] *)
Fixpoint contains (pat s : string) : bool :=
  String.prefix pat s ||
  match s with
  | EmptyString => false
  | String _ s' => contains pat s'
  end.

(** [s.replace(pat, rep)] for a non-empty [pat]: leftmost occurrences,
    not overlapping.  [skip] counts the characters of a match that are
    still to be dropped. *)
Fixpoint replace_go (pat rep : string) (skip : nat) (s : string) : string :=
  match s with
  | EmptyString => EmptyString
  | String c s' =>
      match skip with
      | S k => replace_go pat rep k s'
      | O =>
          if String.prefix pat s
          then rep +:+ replace_go pat rep (Nat.pred (String.length pat)) s'
          else String c (replace_go pat rep 0 s')
      end
  end.

Definition replace (pat rep s : string) : string := replace_go pat rep 0 s.

(** [s.split(sep)] for a non-empty [sep]; [cur] is the current piece,
    reversed. *)
Fixpoint split_go (sep : string) (skip : nat) (cur : string) (s : string)
  : list string :=
  match s with
  | EmptyString => [String.rev cur]
  | String c s' =>
      match skip with
      | S k => split_go sep k cur s'
      | O =>
          if String.prefix sep s
          then String.rev cur ::
                 split_go sep (Nat.pred (String.length sep)) EmptyString s'
          else split_go sep 0 (String c cur) s'
      end
  end.

Definition split (sep s : string) : list string :=
  split_go sep 0 EmptyString s.

(** [sep.join(parts)] *)
Fixpoint join (sep : string) (parts : list string) : string :=
  match parts with
  | [] => EmptyString
  | [p] => p
  | p :: ps => p +:+ sep +:+ join sep ps
  end.

(** [s[:n]] *)
Definition take (n : nat) (s : string) : string := String.substring 0 n s.

(** [a < b] and [a > b] on [str]. *)
Definition ltb (a b : string) : bool :=
  match String.compare a b with Lt => true | _ => false end.
Definition gtb (a b : string) : bool := ltb b a.

(** Truthiness of a [str]. *)
Definition truthy (s : string) : bool :=
  match s with EmptyString => false | _ => true end.

End PyStr.

(** ** [datetime] *)

Module Datetime.

(** A naive or aware [datetime]; [tzinfo] holds the UTC offset in minutes
    of an aware value. *)
Record datetime := mk {
  year : Z; month : Z; day : Z;
  hour : Z; minute : Z; second : Z; microsecond : Z;
  tzinfo : option Z
}.

Definition is_leap (y : Z) : bool :=
  (y mod 4 =? 0) && (negb (y mod 100 =? 0) || (y mod 400 =? 0)).

Definition DAYS_IN_MONTH (m : Z) : Z :=
  match m with
  | 1 => 31 | 2 => 28 | 3 => 31 | 4 => 30 | 5 => 31 | 6 => 30
  | 7 => 31 | 8 => 31 | 9 => 30 | 10 => 31 | 11 => 30 | 12 => 31
  | _ => -1
  end.

Definition DAYS_BEFORE_MONTH (m : Z) : Z :=
  match m with
  | 1 => 0 | 2 => 31 | 3 => 59 | 4 => 90 | 5 => 120 | 6 => 151
  | 7 => 181 | 8 => 212 | 9 => 243 | 10 => 273 | 11 => 304 | 12 => 334
  | _ => -1
  end.

Definition days_in_month (y m : Z) : Z :=
  if (m =? 2) && is_leap y then 29 else DAYS_IN_MONTH m.

Definition days_before_year (y : Z) : Z :=
  let y := y - 1 in y * 365 + y / 4 - y / 100 + y / 400.

Definition days_before_month (y m : Z) : Z :=
  DAYS_BEFORE_MONTH m + (if (2 <? m) && is_leap y then 1 else 0).

Definition ymd2ord (y m d : Z) : Z :=
  days_before_year y + days_before_month y m + d.

Definition DI400Y : Z := 146097.
Definition DI100Y : Z := 36524.
Definition DI4Y : Z := 1461.
Definition MAXORDINAL : Z := 3652059.

Definition ord2ymd (n : Z) : Z * Z * Z :=
  let n := n - 1 in
  let n400 := n / DI400Y in let n := n mod DI400Y in
  let y := n400 * 400 + 1 in
  let n100 := n / DI100Y in let n := n mod DI100Y in
  let n4 := n / DI4Y in let n := n mod DI4Y in
  let n1 := n / 365 in let n := n mod 365 in
  let y := y + n100 * 100 + n4 * 4 + n1 in
  if (n1 =? 4) || (n100 =? 4) then (y - 1, 12, 31)
  else
    let leapyear := (n1 =? 3) && (negb (n4 =? 24) || (n100 =? 3)) in
    let m := Z.shiftr (n + 50) 5 in
    let preceding :=
      DAYS_BEFORE_MONTH m + (if (2 <? m) && leapyear then 1 else 0) in
    if n <? preceding then
      let m := m - 1 in
      let preceding :=
        preceding -
        (DAYS_IN_MONTH m + (if (m =? 2) && leapyear then 1 else 0)) in
      (y, m, n - preceding + 1)
    else (y, m, n - preceding + 1).

(** The range checks of the [datetime] constructor. *)
Definition fields_ok (y m d H M S us : Z) : bool :=
  (1 <=? y) && (y <=? 9999) && (1 <=? m) && (m <=? 12) &&
  (1 <=? d) && (d <=? days_in_month y m) &&
  (0 <=? H) && (H <=? 23) && (0 <=? M) && (M <=? 59) &&
  (0 <=? S) && (S <=? 59) && (0 <=? us) && (us <=? 999999).

Definition ok (t : datetime) : bool :=
  fields_ok (year t) (month t) (day t) (hour t) (minute t) (second t)
            (microsecond t).

(** [datetime(y, m, d, H, M, S, us, tzinfo=tz)]; [None] is [ValueError]. *)
Definition make (y m d H M S us : Z) (tz : option Z) : option datetime :=
  if fields_ok y m d H M S us then Some (mk y m d H M S us tz) else None.

Definition US_PER_DAY : Z := 86400000000.

(** Microseconds since the start of ordinal day 0, in the value's own
    wall clock. *)
Definition to_us (t : datetime) : Z :=
  (ymd2ord (year t) (month t) (day t) * 86400
   + hour t * 3600 + minute t * 60 + second t) * 1000000 + microsecond t.

(** [t + timedelta(microseconds=delta)]; [None] is [OverflowError]. *)
Definition add_us (t : datetime) (delta : Z) : option datetime :=
  let total := to_us t + delta in
  let days := total / US_PER_DAY in
  let rest := total mod US_PER_DAY in
  let secs := rest / 1000000 in
  let us := rest mod 1000000 in
  let H := secs / 3600 in
  let rem := secs mod 3600 in
  if (0 <? days) && (days <=? MAXORDINAL) then
    let '(y, m, d) := ord2ymd days in
    make y m d H (rem / 60) (rem mod 60) us (tzinfo t)
  else None.

Definition minutes (n : Z) : Z := n * 60000000.
Definition hours (n : Z) : Z := n * 3600000000.
Definition days (n : Z) : Z := n * US_PER_DAY.

Definition sub_us (t : datetime) (delta : Z) : option datetime :=
  add_us t (- delta).

(** The field tuple in comparison order. *)
Definition key (t : datetime) : list Z :=
  [year t; month t; day t; hour t; minute t; second t; microsecond t].

Fixpoint lex (a b : list Z) : comparison :=
  match a, b with
  | [], [] => Eq
  | [], _ :: _ => Lt
  | _ :: _, [] => Gt
  | x :: a', y :: b' =>
      match x ?= y with Eq => lex a' b' | c => c end
  end.

(** Comparison of two naive values, or of two aware values that carry the
    same [tzinfo]: the fields are compared as a tuple. *)
Definition compare (a b : datetime) : comparison := lex (key a) (key b).
Definition ltb (a b : datetime) : bool :=
  match compare a b with Lt => true | _ => false end.
Definition gtb (a b : datetime) : bool := ltb b a.

(** Fixed-width decimal rendering: the [n] low digits of [z]. *)
Definition digit (z : Z) : ascii := ascii_of_N (48 + Z.to_N (z mod 10)).

Fixpoint pad_go (n : nat) (z : Z) (acc : string) : string :=
  match n with
  | O => acc
  | S k => pad_go k (z / 10) (String (digit z) acc)
  end.

Definition pad (n : nat) (z : Z) : string := pad_go n z EmptyString.

(** [t.strftime('%H:%M')] *)
Definition strftime_HM (t : datetime) : string :=
  pad 2 (hour t) +:+ ":" +:+ pad 2 (minute t).

Definition offset_str (off : Z) : string :=
  (if off <? 0 then "-" else "+") +:+
  pad 2 (Z.abs off / 60) +:+ ":" +:+ pad 2 (Z.abs off mod 60).

(** [t.isoformat()] *)
Definition isoformat (t : datetime) : string :=
  pad 4 (year t) +:+ "-" +:+ pad 2 (month t) +:+ "-" +:+ pad 2 (day t) +:+
  "T" +:+ pad 2 (hour t) +:+ ":" +:+ pad 2 (minute t) +:+ ":" +:+
  pad 2 (second t) +:+
  (if microsecond t =? 0 then EmptyString
   else "." +:+ pad 6 (microsecond t)) +:+
  match tzinfo t with
  | None => EmptyString
  | Some off => offset_str off
  end.

End Datetime.

Import Datetime (datetime).

(** ** [datetime.strptime(s, '%Y%m%dT%H%M%S')]

    The format is compiled by [_strptime] to the regular expression
    [(\d\d\d\d)(1[0-2]|0[1-9]|[1-9])(3[0-1]|[1-2]\d|0[1-9]|[1-9]| [1-9])T
     (2[0-3]|[0-1]\d|\d)([0-5]\d|\d)(6[0-1]|[0-5]\d|\d)], matched ignoring
    case at the start of the text; the first match in backtracking order
    must end at the end of the text.  Each group below lists its candidate
    readings in the order of its alternatives. *)

Module Strptime.

Definition code (c : ascii) : Z := Z.of_N (N_of_ascii c).
Definition between (lo hi : Z) (c : ascii) : bool :=
  (48 + lo <=? code c) && (code c <=? 48 + hi).
Definition is_digit : ascii -> bool := between 0 9.
Definition val (c : ascii) : Z := code c - 48.

Definition cand : Type := list (Z * string).

Definition two (p1 p2 : ascii -> bool) (s : string) : cand :=
  match s with
  | String a (String b r) =>
      if p1 a && p2 b then [(10 * val a + val b, r)] else []
  | _ => []
  end.

Definition one (p : ascii -> bool) (s : string) : cand :=
  match s with
  | String a r => if p a then [(val a, r)] else []
  | _ => []
  end.

Definition blank_one (p : ascii -> bool) (s : string) : cand :=
  match s with
  | String a (String b r) =>
      if (code a =? 32) && p b then [(val b, r)] else []
  | _ => []
  end.

Definition re_Y (s : string) : cand :=
  match s with
  | String a (String b (String c (String d r))) =>
      if is_digit a && is_digit b && is_digit c && is_digit d
      then [(1000 * val a + 100 * val b + 10 * val c + val d, r)] else []
  | _ => []
  end.

Definition re_m (s : string) : cand :=
  two (between 1 1) (between 0 2) s ++ two (between 0 0) (between 1 9) s ++
  one (between 1 9) s.

Definition re_d (s : string) : cand :=
  two (between 3 3) (between 0 1) s ++ two (between 1 2) is_digit s ++
  two (between 0 0) (between 1 9) s ++ one (between 1 9) s ++
  blank_one (between 1 9) s.

Definition re_T (s : string) : list string :=
  match s with
  | String a r => if (code a =? 84) || (code a =? 116) then [r] else []
  | _ => []
  end.

Definition re_H (s : string) : cand :=
  two (between 2 2) (between 0 3) s ++ two (between 0 1) is_digit s ++
  one is_digit s.

Definition re_M (s : string) : cand :=
  two (between 0 5) is_digit s ++ one is_digit s.

Definition re_S (s : string) : cand :=
  two (between 6 6) (between 0 1) s ++ two (between 0 5) is_digit s ++
  one is_digit s.

(** All matches of the expression at the start of [s], in backtracking
    order, each with the text left over. *)
Definition matches (s : string) : list (Z * Z * Z * Z * Z * Z * string) :=
  '(Y, s) ← re_Y s; '(mo, s) ← re_m s; '(d, s) ← re_d s; s ← re_T s;
  '(H, s) ← re_H s; '(mi, s) ← re_M s; '(se, s) ← re_S s;
  [(Y, mo, d, H, mi, se, s)].

(** [None] stands for [ValueError]: no match, unconverted data, or fields
    the [datetime] constructor refuses. *)
Definition strptime (s : string) : option datetime :=
  match matches s with
  | (Y, mo, d, H, mi, se, EmptyString) :: _ =>
      Datetime.make Y mo d H mi se 0 None
  | _ => None
  end.

End Strptime.

(** ** A fragment of [re]: sequences of literals and greedy character
    classes, matched leftmost with backtracking. *)

Module Re.

Inductive item :=
| Lit (s : string)
| Star (cls : ascii -> bool)
| Plus (cls : ascii -> bool).

Fixpoint drop (n : nat) (s : string) : string :=
  match n, s with
  | S k, String _ s' => drop k s'
  | _, _ => s
  end.

Fixpoint run (cls : ascii -> bool) (s : string) : nat :=
  match s with
  | String c s' => if cls c then S (run cls s') else O
  | EmptyString => O
  end.

(** Give [k] characters to the class, then fewer, down to [lo]. *)
Fixpoint greedy (rest : string -> option nat) (s : string) (lo k : nat)
  : option nat :=
  if (k <? lo)%nat then None
  else
    match rest (drop k s) with
    | Some n => Some (k + n)%nat
    | None =>
        match k with
        | O => None
        | S k' => greedy rest s lo k'
        end
    end.

(** Length of the match of [p] at the start of [s]. *)
Fixpoint match_here (p : list item) (s : string) : option nat :=
  match p with
  | [] => Some O
  | Lit l :: p' =>
      if String.prefix l s
      then (fun n => (String.length l + n)%nat) <$>
             match_here p' (drop (String.length l) s)
      else None
  | Star cls :: p' => greedy (match_here p') s 0 (run cls s)
  | Plus cls :: p' => greedy (match_here p') s 1 (run cls s)
  end.

(** [re.search(p, s)], as the matched text. *)
Fixpoint search (p : list item) (s : string) : option string :=
  match match_here p s with
  | Some n => Some (PyStr.take n s)
  | None =>
      match s with
      | EmptyString => None
      | String _ s' => search p s'
      end
  end.

(** [re.findall(p, s)] for a pattern without groups that matches no empty
    text. *)
Fixpoint findall_go (p : list item) (skip : nat) (s : string) : list string :=
  match s with
  | EmptyString => []
  | String _ s' =>
      match skip with
      | S k => findall_go p k s'
      | O =>
          match match_here p s with
          | Some n => PyStr.take n s :: findall_go p (Nat.pred n) s'
          | None => findall_go p 0 s'
          end
      end
  end.

Definition findall (p : list item) (s : string) : list string :=
  findall_go p 0 s.

(** The whitespace class. *)
Definition space (c : ascii) : bool :=
  let n := N_of_ascii c in
  ((9 <=? n) && (n <=? 13) || (28 <=? n) && (n <=? 32))%N.

Definition is_one_of (l : list N) (c : ascii) : bool :=
  existsb (N.eqb (N_of_ascii c)) l.

(** Not whitespace. *)
Definition not_space (c : ascii) : bool := negb (space c).
(** Neither whitespace nor one of [<], double quote, single quote. *)
Definition url_char (c : ascii) : bool :=
  negb (space c || is_one_of [60; 34; 39]%N c).
(** Neither whitespace nor one of [<], [>], double quote, single quote,
    backslash. *)
Definition url_char_strict (c : ascii) : bool :=
  negb (space c || is_one_of [60; 62; 34; 39; 92]%N c).

End Re.

(** ** The persisted ledger ([synced_events.json]) *)

Module Ledger.

(** One record of the document; a key that is absent is [None]. *)
Record entry := mk_entry {
  summary : option string;
  start_time : option string;
  synced_at : option string
}.

(** The state file as [load_synced_events] can find it.  [Unreadable]
    covers every exception inside its [try]: the file cannot be opened, is
    not JSON, or is not a map of records with textual [synced_at]. *)
Inductive file :=
| Missing
| Unreadable
| Stored (data : gmap string entry).

(** [v.get('synced_at', '') > cutoff] *)
Definition fresh (cutoff : string) (v : entry) : bool :=
  PyStr.gtb (default EmptyString (synced_at v)) cutoff.

(** [load_synced_events()], with [now] the reading of [datetime.now()] it
    makes.  An [OverflowError] of the subtraction is swallowed by the bare
    [except] like any other. *)
Definition load_synced_events (f : file) (now : datetime)
  : gmap string entry :=
  match f with
  | Missing => ∅
  | Unreadable => ∅
  | Stored data =>
      match Datetime.sub_us now (Datetime.days 2) with
      | Some cutoff =>
          filter (λ kv, fresh (Datetime.isoformat cutoff) kv.2 = true) data
      | None => ∅
      end
  end.

(** [save_synced_events(synced)]: the whole file is replaced. *)
Definition save_synced_events (synced : gmap string entry) : file :=
  Stored synced.

End Ledger.

(** ** The world around one run *)

Module Run.

(** The arguments of [create_macos_reminder]. *)
Record request := mk_request {
  event_id : string;
  title : string;
  body : string;
  remind_date : datetime
}.

(** What a run does to its surroundings, in order. *)
Inductive effect :=
| Log (message : string)
| EnsureList
| Load
| Create (r : request) (result : string)
| Save (synced : gmap string Ledger.entry).

(** The collaborators.  [clock k] is reading number [k] of
    [datetime.now()] whose value the sync code uses (the time stamps that
    [log] puts on its lines are not counted); [utcoffset] is the local zone's offset
    in minutes; [reminders earlier r] is the text [osascript] prints for
    request [r] after the requests [earlier] of the same run. *)
Record world := mk_world {
  clock : nat -> datetime;
  utcoffset : Z;
  reminders : list request -> request -> string;
  state_file : Ledger.file
}.

(** The variables of the loop in [sync_calendar], the clock readings used
    so far and the effects so far. *)
Record loop := mk_loop {
  synced_events : gmap string Ledger.entry;
  new_reminders : nat;
  ticks : nat;
  trace : list effect
}.

Definition emit (e : effect) (st : loop) : loop :=
  mk_loop (synced_events st) (new_reminders st) (ticks st) (trace st ++ [e]).

Definition log (message : string) : loop -> loop := emit (Log message).

Definition tick (st : loop) : loop :=
  mk_loop (synced_events st) (new_reminders st) (S (ticks st)) (trace st).

Definition count_reminder (st : loop) : loop :=
  mk_loop (synced_events st) (S (new_reminders st)) (ticks st) (trace st).

Definition record (id : string) (v : Ledger.entry) (st : loop) : loop :=
  mk_loop (<[id := v]> (synced_events st)) (new_reminders st) (ticks st)
          (trace st).

(** The requests made so far. *)
Definition calls (tr : list effect) : list request :=
  omap (λ e, match e with Create r _ => Some r | _ => None end) tr.

(** One iteration either falls through to the next event or raises an
    exception that nothing catches. *)
Inductive step_result :=
| Next (st : loop)
| Raise (st : loop).

Definition state_of (r : step_result) : loop :=
  match r with Next st | Raise st => st end.

Fixpoint for_each {E : Type} (body : loop -> E -> step_result)
  (st : loop) (events : list E) : step_result :=
  match events with
  | [] => Next st
  | e :: rest =>
      match body st e with
      | Next st' => for_each body st' rest
      | Raise st' => Raise st'
      end
  end.

(** How [sync_calendar] ended. *)
Inductive ending :=
| Completed
| Returned
| Exited
| Crashed.

Record result := mk_result {
  how : ending;
  effects : list effect;
  file_after : Ledger.file
}.

(** [synced_events[event_id] = {'summary': ..., 'start_time': ...,
    'synced_at': datetime.now().isoformat()}] *)
Definition mark_synced (w : world) (id summary : string) (start : datetime)
  (st : loop) : loop :=
  tick (record id
          (Ledger.mk_entry (Some summary) (Some (Datetime.isoformat start))
             (Some (Datetime.isoformat (clock w (ticks st)))))
          st).

(** [synced_events = load_synced_events()]: the clock is read only once the
    file has been opened and decoded. *)
Definition load (w : world) (st : loop) : loop :=
  let st := emit Load st in
  match state_file w with
  | Ledger.Stored _ =>
      tick (mk_loop
              (Ledger.load_synced_events (state_file w) (clock w (ticks st)))
              (new_reminders st) (ticks st) (trace st))
  | _ => mk_loop ∅ (new_reminders st) (ticks st) (trace st)
  end.

End Run.

(** ** [calendar_sync_ical.py] *)

Module Ical.
Import Run.

Definition LF : string := String (ascii_of_N 10) EmptyString.
Definition CRLF : string := String (ascii_of_N 13) LF.
Definition CRLF_SP : string := CRLF +:+ " ".
Definition CRLF_TAB : string := CRLF +:+ String (ascii_of_N 9) EmptyString.

Definition ICAL_URL : string :=
  "https://calendar.google.com/calendar/ical/boriss%40wix.com/public/basic.ics".
Definition REMINDER_MINUTES_BEFORE : Z := 3.
Definition SYNC_HOURS_AHEAD : Z := 24.

(** The body of the loop of [parse_ical]: [events] and [current_event]
    before and after one line. *)
Definition parse_line
  (st : list (gmap string string) * option (gmap string string))
  (line : string) : list (gmap string string) * option (gmap string string) :=
  let '(events, current_event) := st in
  if decide (line = "BEGIN:VEVENT") then (events, Some ∅)
  else if decide (line = "END:VEVENT") then
    match current_event with
    | Some ev => if decide (ev = ∅) then (events, None)
                 else (events ++ [ev], None)
    | None => (events, None)
    end
  else
    match current_event with
    | Some ev =>
        if PyStr.contains ":" line then
          let parts := PyStr.split ":" line in
          if PyStr.contains ";" (hd EmptyString parts) then
            let key_part := hd EmptyString parts in
            let key := hd EmptyString (PyStr.split ";" key_part) in
            let value := PyStr.join ":" (tl parts) in
            (events, Some (<[key := value]> ev))
          else
            (* [key, value = line.split(':', 1)]: the text before the first
               colon and all the text after it *)
            let key := hd EmptyString parts in
            let value := PyStr.join ":" (tl parts) in
            (events, Some (<[key := value]> ev))
        else st
    | None => st
    end.

Definition parse_ical (ical_content : string) : list (gmap string string) :=
  let lines :=
    PyStr.split CRLF
      (PyStr.replace CRLF_TAB EmptyString
         (PyStr.replace CRLF_SP EmptyString ical_content)) in
  fst (fold_left parse_line lines ([], None)).

Definition parse_ical_datetime (dt_str : string) : option datetime :=
  let dt_str := PyStr.replace "Z" EmptyString dt_str in
  if PyStr.contains "T" dt_str
  then Strptime.strptime (PyStr.take 15 dt_str)
  else None.

(** [summary.replace('\\,', ',').replace('\;', ';').replace('\\n', '\n')] *)
Definition decode (s : string) : string :=
  PyStr.replace "\n" LF (PyStr.replace "\;" ";" (PyStr.replace "\," "," s)).

Definition DOMAINS : list string :=
  ["zoom.us"; "meet.google.com"; "teams.microsoft.com"].

(** ['zoom.us' in t or 'meet.google.com' in t or 'teams.microsoft.com' in t],
    also [any(domain in t for domain in [...])] *)
Definition names_provider (t : string) : bool :=
  existsb (λ domain, PyStr.contains domain t) DOMAINS.

Definition URL : list Re.item := [Re.Lit "https://"; Re.Plus Re.url_char_strict].

(** The loop over [[description, location]]: the first text that names a
    provider is the only one searched. *)
Fixpoint add_join (body : string) (texts : list string) : string :=
  match texts with
  | [] => body
  | text :: rest =>
      if names_provider text then
        match List.find names_provider (Re.findall URL text) with
        | Some url => body +:+ LF +:+ "Join: " +:+ url
        | None => body
        end
      else add_join body rest
  end.

Definition get (event : gmap string string) (key dflt : string) : string :=
  default dflt (event !! key).

(** The body of the loop over [events]; [now] and [cutoff] are computed
    before it. *)
Definition step (w : world) (now cutoff : datetime) (st : loop)
  (event : gmap string string) : step_result :=
  let event_id := get event "UID" EmptyString in
  if negb (PyStr.truthy event_id) then Next st else
  let dtstart := get event "DTSTART" EmptyString in
  match parse_ical_datetime dtstart with
  | None => Next st
  | Some start_time =>
      if Datetime.ltb start_time now || Datetime.gtb start_time cutoff
      then Next st
      else if decide (is_Some (synced_events st !! event_id)) then Next st
      else
        match Datetime.sub_us start_time
                (Datetime.minutes REMINDER_MINUTES_BEFORE) with
        | None => Raise st
        | Some remind_time =>
            if Datetime.ltb remind_time now then Next st else
            let summary := decode (get event "SUMMARY" "Untitled Meeting") in
            let hm := Datetime.strftime_HM start_time in
            let title := "📅 " +:+ summary +:+ " - " +:+ hm in
            let body := "Starts at " +:+ hm in
            let description := get event "DESCRIPTION" EmptyString in
            let location := get event "LOCATION" EmptyString in
            let body := add_join body [description; location] in
            let r := mk_request event_id title body remind_time in
            let result := reminders w (calls (trace st)) r in
            let st := emit (Create r result) st in
            if decide (result = "created") then
              let st := log ("✅ Created reminder: " +:+ summary +:+
                             " at " +:+ hm) st in
              Next (mark_synced w event_id summary start_time
                      (count_reminder st))
            else if decide (result = "exists") then
              Next (mark_synced w event_id summary start_time st)
            else Next st
        end
  end.

(** What [urlopen(...).read().decode('utf-8')] gives. *)
Inductive fetched :=
| Content (ical_content : string)
| FetchError (e : string).

Definition start_loop : loop :=
  mk_loop ∅ 0 0 [Log "🔄 Starting calendar sync (iCal)..."].

Definition finish (how : ending) (f : Ledger.file) (st : loop) : result :=
  mk_result how (trace st) f.

Definition sync_calendar (w : world) (feed : fetched) : result :=
  let st := start_loop in
  if negb (PyStr.truthy ICAL_URL) then
    finish Returned (state_file w)
      (log "❌ ICAL_URL not configured! Edit calendar_sync_ical.py and paste your iCal URL." st)
  else
    let st := log "📥 Fetching calendar..." st in
    match feed with
    | FetchError e =>
        finish Returned (state_file w)
          (log ("❌ Failed to fetch calendar: " +:+ e) st)
    | Content ical_content =>
        let st := emit EnsureList st in
        let st := load w st in
        let events := parse_ical ical_content in
        let st := log ("📅 Found " +:+ pretty (length events) +:+
                       " events in calendar") st in
        let now := clock w (ticks st) in
        let st := tick st in
        match Datetime.add_us now (Datetime.hours SYNC_HOURS_AHEAD) with
        | None => finish Crashed (state_file w) st
        | Some cutoff =>
            match for_each (step w now cutoff) st events with
            | Raise st => finish Crashed (state_file w) st
            | Next st =>
                let st := emit (Save (synced_events st)) st in
                finish Completed
                  (Ledger.save_synced_events (synced_events st))
                  (log ("✅ Sync complete. Created " +:+
                        pretty (new_reminders st) +:+ " new reminders.") st)
            end
        end
    end.

End Ical.

(** ** [calendar_sync.py] *)

Module Api.
Import Run.

Definition REMINDER_MINUTES_BEFORE : Z := 3.
Definition SYNC_HOURS_AHEAD : Z := 24.
Definition LF : string := String (ascii_of_N 10) EmptyString.

(** The parts of an event resource of the calendar service that the code
    reads; a key that is absent is [None].  ([attendees] is read into a
    variable that is never used.) *)
Record entry_point := mk_entry_point {
  entryPointType : option string;
  uri : option string
}.

Record conference_data := mk_conference_data {
  entryPoints : option (list entry_point)
}.

Record start_field := mk_start {
  date : option string;
  dateTime : option string
}.

Record organizer_field := mk_organizer {
  email : option string
}.

Record event := mk_event {
  id : option string;
  start : option start_field;
  status : option string;
  summary : option string;
  description : option string;
  hangoutLink : option string;
  conferenceData : option conference_data;
  organizer : option organizer_field
}.

Definition ZOOM : list Re.item :=
  [Re.Lit "https://"; Re.Star Re.not_space; Re.Lit "zoom.us/";
   Re.Plus Re.url_char].
Definition MEET : list Re.item :=
  [Re.Lit "https://meet.google.com/"; Re.Plus Re.url_char].
Definition TEAMS : list Re.item :=
  [Re.Lit "https://teams.microsoft.com/"; Re.Plus Re.url_char].
Definition patterns : list (list Re.item) := [ZOOM; MEET; TEAMS].

(** The loop over [patterns]. *)
Fixpoint first_match (ps : list (list Re.item)) (text : string)
  : option string :=
  match ps with
  | [] => None
  | p :: rest =>
      match Re.search p text with
      | Some m => Some m
      | None => first_match rest text
      end
  end.

Definition is_video (ep : entry_point) : bool :=
  bool_decide (entryPointType ep = Some "video").

Definition extract_meeting_link (ev : event) : option string :=
  match hangoutLink ev with
  | Some link => Some link
  | None =>
      let entry_points :=
        match conferenceData ev with
        | Some cd => default [] (entryPoints cd)
        | None => []
        end in
      match List.find is_video entry_points with
      | Some ep => uri ep
      | None =>
          first_match patterns (default EmptyString (description ev))
      end
  end.

(** [event.get('organizer', {}).get('email', '')] *)
Definition organizer_email (ev : event) : string :=
  match organizer ev with
  | Some o => default EmptyString (email o)
  | None => EmptyString
  end.

(** [datetime.now(tz)]: the reading [local] of the local clock, moved to
    the zone at [off] minutes from UTC. *)
Definition now_in (w : world) (off : Z) (local : datetime)
  : option datetime :=
  match Datetime.add_us local (Datetime.minutes (off - utcoffset w)) with
  | Some t =>
      Some (Datetime.mk (Datetime.year t) (Datetime.month t) (Datetime.day t)
              (Datetime.hour t) (Datetime.minute t) (Datetime.second t)
              (Datetime.microsecond t) (Some off))
  | None => None
  end.

(** [datetime.now(start_time.tzinfo) if start_time.tzinfo else
    datetime.now()], from the reading of the local clock. *)
Definition now_for (w : world) (start_time reading : datetime)
  : option datetime :=
  match Datetime.tzinfo start_time with
  | Some off => now_in w off reading
  | None => Some reading
  end.

(** The lines of the reminder body. *)
Definition body_parts (hm : string) (meeting_link : option string)
  (organizer : string) : list string :=
  ["Starts at " +:+ hm] ++
  match meeting_link with
  | Some link => if PyStr.truthy link then ["Join: " +:+ link] else []
  | None => []
  end ++
  (if PyStr.truthy organizer && negb (bool_decide (organizer = "boriss@wix.com"))
   then ["Organizer: " +:+ organizer] else []).

Section WithParser.

(** [dateutil.parser.parse]; [None] when it raises. *)
Variable parse : string -> option datetime.

(** The body of the loop over [events]. *)
Definition step (w : world) (st : loop) (ev : event) : step_result :=
  match id ev with
  | None => Raise st
  | Some event_id =>
      let start := default (mk_start None None) (start ev) in
      if bool_decide (is_Some (date start)) &&
         negb (bool_decide (is_Some (dateTime start)))
      then Next st
      else if bool_decide (status ev = Some "cancelled") then Next st
      else
        let start_time_str := default EmptyString (dateTime start) in
        if negb (PyStr.truthy start_time_str) then Next st else
        match parse start_time_str with
        | None => Next st
        | Some start_time =>
            match Datetime.sub_us start_time
                    (Datetime.minutes REMINDER_MINUTES_BEFORE) with
            | None => Raise st
            | Some remind_time =>
                let reading := clock w (ticks st) in
                let st := tick st in
                match now_for w start_time reading with
                | None => Raise st
                | Some now =>
                    if Datetime.ltb remind_time now then Next st
                    else if decide (is_Some (synced_events st !! event_id))
                    then Next st
                    else
                      let summary :=
                        default "Untitled Meeting" (summary ev) in
                      let meeting_link := extract_meeting_link ev in
                      let hm := Datetime.strftime_HM start_time in
                      let title := "📅 " +:+ summary +:+ " - " +:+ hm in
                      let organizer := organizer_email ev in
                      let body :=
                        PyStr.join LF (body_parts hm meeting_link organizer) in
                      let r := mk_request event_id title body remind_time in
                      let result := reminders w (calls (trace st)) r in
                      let st := emit (Create r result) st in
                      if decide (result = "created") then
                        let st := log ("✅ Created reminder: " +:+ summary +:+
                                       " at " +:+ hm) st in
                        Next (mark_synced w event_id summary start_time
                                (count_reminder st))
                      else if decide (result = "exists") then
                        let st := log ("⏭️ Reminder already exists: " +:+
                                       summary) st in
                        Next (mark_synced w event_id summary start_time st)
                      else Next st
                end
            end
        end
  end.

(** How [get_calendar_service()] ends: with a service, with an exception,
    or in [sys.exit(1)] after its own log line. *)
Inductive connection :=
| Service
| ConnectError (e : string)
| NoCredentials.

(** How [get_upcoming_events(service)] ends. *)
Inductive listing :=
| Items (events : list event)
| ListError (e : string).

Definition start_loop : loop :=
  mk_loop ∅ 0 0 [Log "🔄 Starting calendar sync..."].

Definition finish (how : ending) (f : Ledger.file) (st : loop) : result :=
  mk_result how (trace st) f.

Definition sync_calendar (w : world) (conn : connection) (fetch : listing)
  : result :=
  let st := start_loop in
  match conn with
  | NoCredentials =>
      finish Exited (state_file w)
        (log "❌ credentials.json not found! Please set up Google Cloud OAuth." st)
  | ConnectError e =>
      finish Returned (state_file w)
        (log ("❌ Failed to connect to Google Calendar: " +:+ e) st)
  | Service =>
      let st := emit EnsureList st in
      let st := load w st in
      match fetch with
      | ListError _ => finish Crashed (state_file w) st
      | Items events =>
          match for_each (step w) st events with
          | Raise st => finish Crashed (state_file w) st
          | Next st =>
              let st := emit (Save (synced_events st)) st in
              finish Completed
                (Ledger.save_synced_events (synced_events st))
                (log ("✅ Sync complete. Created " +:+
                      pretty (new_reminders st) +:+ " new reminders.") st)
          end
      end
  end.

End WithParser.

End Api.

(** ** One iteration of either variant *)

Module Pass.
Import Run.

(** The event an iteration works on: an event resource in
    [calendar_sync.py]; a parsed block, with the [now] and [cutoff] computed
    before the loop, in [calendar_sync_ical.py]. *)
Inductive iteration :=
| OfApi (ev : Api.event)
| OfFeed (now cutoff : datetime) (event : gmap string string).

Section WithParser.
Variable parse : string -> option datetime.

Definition step (w : world) (it : iteration) (st : loop) : step_result :=
  match it with
  | OfApi ev => Api.step parse w st ev
  | OfFeed now cutoff event => Ical.step w now cutoff st event
  end.

(** The event id the iteration reads. *)
Definition id_of (it : iteration) : option string :=
  match it with
  | OfApi ev => Api.id ev
  | OfFeed _ _ event => event !! "UID"
  end.

(** The start time the iteration parses. *)
Definition start_of (it : iteration) : option datetime :=
  match it with
  | OfApi ev =>
      parse (default EmptyString
               (Api.dateTime
                  (default (Api.mk_start None None) (Api.start ev))))
  | OfFeed _ _ event =>
      Ical.parse_ical_datetime (Ical.get event "DTSTART" EmptyString)
  end.

(** The lead time of the variant, in minutes. *)
Definition lead (it : iteration) : Z :=
  match it with
  | OfApi _ => Api.REMINDER_MINUTES_BEFORE
  | OfFeed _ _ _ => Ical.REMINDER_MINUTES_BEFORE
  end.

(** The [now] against which the iteration compares the reminder time of an
    event starting at [start_time]. *)
Definition now_of (w : world) (it : iteration) (st : loop)
  (start_time : datetime) : option datetime :=
  match it with
  | OfApi _ => Api.now_for w start_time (clock w (ticks st))
  | OfFeed now _ _ => Some now
  end.

End WithParser.

End Pass.

(** ** Worlds and inputs used in the examples *)

Module Scenario.
Import Run.

(** A Reminders list that behaves as the AppleScript in
    [create_macos_reminder] expects: it holds the bodies of its reminders,
    looks the event id up in them and adds a reminder when none has it. *)
Definition holds (bodies : list string) (id : string) : bool :=
  existsb (PyStr.contains id) bodies.

Definition add_reminder (bodies : list string) (r : request) : list string :=
  if holds bodies (event_id r) then bodies
  else bodies ++ [body r +:+ Api.LF +:+ Api.LF +:+ "Event ID: " +:+ event_id r].

Definition reminders_app (existing : list string)
  (earlier : list request) (r : request) : string :=
  if holds (fold_left add_reminder earlier existing) (event_id r)
  then "exists" else "created".

(** [osascript] fails (no automation permission): nothing is printed. *)
Definition reminders_down (earlier : list request) (r : request) : string :=
  EmptyString.

Definition at_time (y mo d H mi : Z) : datetime :=
  Datetime.mk y mo d H mi 0 0 None.

(** Noon of 1 January 2025, local time, in a zone two hours ahead of UTC. *)
Definition noon : datetime := at_time 2025 1 1 12 0.

Definition world_at (now : datetime)
  (app : list request -> request -> string) (f : Ledger.file) : world :=
  mk_world (λ _, now) 120 app f.

(** A stand-in for [dateutil.parser.parse] on the start strings of the
    examples. *)
Definition parse_start (s : string) : option datetime :=
  if decide (s = "2025-01-01T14:00:00+02:00")
  then Some (Datetime.mk 2025 1 1 14 0 0 0 (Some 120))
  else if decide (s = "2025-01-01T12:02:00+02:00")
  then Some (Datetime.mk 2025 1 1 12 2 0 0 (Some 120))
  else if decide (s = "2025-01-01T14:00:00")
  then Some (Datetime.mk 2025 1 1 14 0 0 0 None)
  else if decide (s = "2025-01-01T11:00:00Z")
  then Some (Datetime.mk 2025 1 1 11 0 0 0 (Some 0))
  else None.

Definition api_event (id start : string) : Api.event :=
  Api.mk_event (Some id) (Some (Api.mk_start None (Some start)))
    None (Some "Weekly sync") None None None None.

Definition with_organizer (ev : Api.event) (email : string) : Api.event :=
  Api.mk_event (Api.id ev) (Api.start ev) (Api.status ev) (Api.summary ev)
    (Api.description ev) (Api.hangoutLink ev) (Api.conferenceData ev)
    (Some (Api.mk_organizer (Some email))).

Definition with_description (ev : Api.event) (text : string) : Api.event :=
  Api.mk_event (Api.id ev) (Api.start ev) (Api.status ev) (Api.summary ev)
    (Some text) (Api.hangoutLink ev) (Api.conferenceData ev)
    (Api.organizer ev).

(** A feed with one event block made of the given content lines. *)
Definition feed_of (lines : list string) : string :=
  PyStr.join Ical.CRLF
    (["BEGIN:VCALENDAR"; "VERSION:2.0"; "BEGIN:VEVENT"] ++ lines ++
     ["END:VEVENT"; "END:VCALENDAR"]) +:+ Ical.CRLF.

Definition empty_loop : loop := mk_loop ∅ 0 0 [].

(** No reminders yet, no state file, the clock at noon. *)
Definition fresh_world : world :=
  world_at noon (reminders_app []) Ledger.Missing.

(** The event of the examples in the feed variant: it starts two minutes
    after noon. *)
Definition soon_block : gmap string string :=
  {[ "UID" := "e1"; "DTSTART" := "20250101T120200"; "SUMMARY" := "Stand-up" ]}.

Definition soon_iteration : Pass.iteration :=
  Pass.OfFeed noon (at_time 2025 1 2 12 0) soon_block.

(** An event of the authenticated-API variant starting at 14:00, with an
    organizer. *)
Definition afternoon_event : Api.event :=
  with_organizer (api_event "e2" "2025-01-01T14:00:00+02:00")
    "alice@example.com".

Definition afternoon_request : request :=
  mk_request "e2" "📅 Weekly sync - 14:00"
    ("Starts at 14:00" +:+ Api.LF +:+ "Organizer: alice@example.com")
    (Datetime.mk 2025 1 1 13 57 0 0 (Some 120)).

(** A cancelled meeting at 14:00 in the feed. *)
Definition cancelled_feed : string :=
  feed_of ["UID:e3"; "DTSTART:20250101T140000"; "SUMMARY:Offsite";
           "STATUS:CANCELLED"].

Definition cancelled_request : request :=
  mk_request "e3" "📅 Offsite - 14:00" "Starts at 14:00"
    (at_time 2025 1 1 13 57).

(** A meeting at 11:00 UTC, which is 13:00 on the local clock, written in
    the feed with the UTC suffix and with the local wall time. *)
Definition utc_feed : string :=
  feed_of ["UID:e4"; "DTSTART:20250101T110000Z"; "SUMMARY:Review"].
Definition local_feed : string :=
  feed_of ["UID:e4"; "DTSTART:20250101T130000"; "SUMMARY:Review"].

Definition review_request : request :=
  mk_request "e4" "📅 Review - 13:00" "Starts at 13:00"
    (at_time 2025 1 1 12 57).

(** The same meeting as the calendar service reports it. *)
Definition utc_event : Api.event :=
  Api.mk_event (Some "e4")
    (Some (Api.mk_start None (Some "2025-01-01T11:00:00Z")))
    None (Some "Review") None None None None.

(** A state file with one entry written an hour before noon. *)
Definition stored_file : Ledger.file :=
  Ledger.Stored
    {[ "e0" := Ledger.mk_entry (Some "Kick-off") (Some "2025-01-01T11:30:00")
                 (Some "2025-01-01T11:00:00") ]}.

Definition stored_world : world :=
  world_at noon (reminders_app []) stored_file.

(** Texts that name a provider's domain inside a link to another host. *)
Definition foreign_link : string := "https://evil.example/zoom.us/j/1".
Definition lookalike_link : string := "https://notzoom.us/j/1".
Definition foreign_query_link : string :=
  "https://evil.example/?next=meet.google.com".

(** The host of an [https] link: the text between the scheme and the next
    [/], [?] or [#]. *)
Fixpoint until_delim (s : string) : string :=
  match s with
  | EmptyString => EmptyString
  | String c s' =>
      if Re.is_one_of [47; 63; 35]%N c then EmptyString
      else String c (until_delim s')
  end.

Definition host (url : string) : string :=
  until_delim (Re.drop 8 url).

Definition recent_entry : Ledger.entry :=
  Ledger.mk_entry (Some "Kick-off") (Some "2025-01-01T11:30:00")
    (Some "2025-01-01T11:00:00").

Definition aged_entry : Ledger.entry :=
  Ledger.mk_entry (Some "Retro") (Some "2024-12-29T12:30:00")
    (Some "2024-12-29T12:00:00").

(** A state file with an entry written an hour before noon and one written
    three days before. *)
Definition aged_file : Ledger.file :=
  Ledger.Stored {[ "e0" := recent_entry; "old" := aged_entry ]}.

(** A block of the feed for a meeting at 14:00 with the given summary and
    description, as the feed carries them. *)
Definition block_with (summary description : string) : gmap string string :=
  {[ "UID" := "e5"; "DTSTART" := "20250101T140000";
     "SUMMARY" := summary; "DESCRIPTION" := description ]}.

(** A block whose summary and description carry escaped commas. *)
Definition escaped_block : gmap string string :=
  block_with "Plan\, review\; Q1" "Join https://zoom.us/j/1?names=ann\,bob".

(** The feed that carries [escaped_block]. *)
Definition escaped_feed : string :=
  feed_of ["UID:e5"; "DTSTART:20250101T140000";
           "SUMMARY:Plan\, review\; Q1";
           "DESCRIPTION:Join https://zoom.us/j/1?names=ann\,bob"].

(** The iteration of the feed loop for [event], at noon, with an empty
    ledger. *)
Definition feed_step_at_noon (event : gmap string string) : loop :=
  state_of (Ical.step fresh_world noon (at_time 2025 1 2 12 0) empty_loop
              event).

Definition escaped_request : request :=
  mk_request "e5" "📅 Plan, review; Q1 - 14:00"
    ("Starts at 14:00" +:+ Ical.LF +:+ "Join: https://zoom.us/j/1?names=ann")
    (at_time 2025 1 1 13 57).

(** The second run of the examples takes place five minutes after the
    first, from the state file that the first run left, with a sink that
    finds every reminder in place. *)
Definition five_past : datetime := at_time 2025 1 1 12 5.

Definition second_world (first : result) : world :=
  world_at five_past (λ _ _, "exists") (file_after first).

(** A meeting at 12:03 on the next day: three minutes beyond the cutoff of a
    run at noon, inside the cutoff of a run at 12:05. *)
Definition tomorrow_feed : string :=
  feed_of ["UID:e6"; "DTSTART:20250102T120300"; "SUMMARY:Planning"].

(** A meeting at 14:00 today. *)
Definition today_feed : string :=
  feed_of ["UID:e7"; "DTSTART:20250101T140000"; "SUMMARY:Demo"].

(** The first run over [today_feed] with [osascript] failing. *)
Definition down_world : world := world_at noon reminders_down Ledger.Missing.

(** The request of a run at noon over [today_feed]. *)
Definition today_request : request :=
  mk_request "e7" "📅 Demo - 14:00" "Starts at 14:00" (at_time 2025 1 1 13 57).

End Scenario.

(** Lexicographic combination of two comparisons. *)
Definition then_cmp (c d : comparison) : comparison :=
  match c with Eq => d | _ => c end.

(** ** Escaped text in the feed *)

Module Escaping.

Definition BACKSLASH : ascii := ascii_of_N 92.
Definition NEWLINE : ascii := ascii_of_N 10.

(** How a feed writes one character of a text value when commas,
    semicolons and newlines are escaped according to [comma], [semi] and
    [newline]. *)
Definition piece (comma semi newline : bool) (c : ascii) : string :=
  if comma && bool_decide (c = ","%char) then "\,"
  else if semi && bool_decide (c = ";"%char) then "\;"
  else if newline && bool_decide (c = NEWLINE) then "\n"
  else String c EmptyString.

(** A text written piece by piece. *)
Fixpoint pieces (h : ascii -> string) (text : string) : string :=
  match text with
  | EmptyString => EmptyString
  | String c rest => h c +:+ pieces h rest
  end.

Definition escape_with (comma semi newline : bool) : string -> string :=
  pieces (piece comma semi newline).

(** The value a feed carries for [text]. *)
Definition escape (text : string) : string := escape_with true true true text.

(** [text] holds no backslash. *)
Fixpoint plain (text : string) : bool :=
  match text with
  | EmptyString => true
  | String c rest => negb (bool_decide (c = BACKSLASH)) && plain rest
  end.

End Escaping.

(** ** Two runs in succession *)

Module Twice.
Import Run.

(** The calendar data of a run whose fetch succeeds. *)
Inductive source :=
| Feed (ical_content : string)
| Calendar (events : list Api.event).

(** The reading of the clock that the feed variant takes as [now]: the
    one after the reading of [load_synced_events], when that made one. *)
Definition feed_now (w : world) : datetime :=
  clock w (match state_file w with Ledger.Stored _ => 1 | _ => 0 end)%nat.

(** The sink answers every request with [created] or [exists]. *)
Definition sink_answers (w : world) : Prop :=
  forall earlier r,
    reminders w earlier r = "created" \/ reminders w earlier r = "exists".

(** No entry of the state file is past the retention window when the run
    loads it. *)
Definition nothing_expired (w : world) : Prop :=
  forall data,
    state_file w = Ledger.Stored data ->
    Ledger.load_synced_events (Ledger.Stored data) (clock w 0) = data.

(** What a run of the feed variant with the given [now] and [cutoff] leaves
    settled about an event inside its window: the event is in the ledger,
    or its reminder time had passed. *)
Definition feed_settled (now cutoff : datetime)
  (ledger : gmap string Ledger.entry) (event : gmap string string) : Prop :=
  forall start_time,
    PyStr.truthy (Ical.get event "UID" EmptyString) = true ->
    Ical.parse_ical_datetime (Ical.get event "DTSTART" EmptyString)
      = Some start_time ->
    Datetime.ltb start_time now = false ->
    Datetime.gtb start_time cutoff = false ->
    is_Some (ledger !! Ical.get event "UID" EmptyString) \/
    exists remind_time,
      Datetime.sub_us start_time
        (Datetime.minutes Ical.REMINDER_MINUTES_BEFORE) = Some remind_time /\
      Datetime.ltb remind_time now = true.

Section WithParser.
Variable parse : string -> option datetime.

(** What a run of the authenticated-API variant in [w] leaves settled about
    an event: it has an id and, when it is timed, not cancelled and its
    start parses, its reminder time exists, the clock was read for it, and
    either the event is in the ledger or the reminder time had passed. *)
Definition api_settled (w : world) (ledger : gmap string Ledger.entry)
  (ev : Api.event) : Prop :=
  exists event_id,
    Api.id ev = Some event_id /\
    forall start_time,
      let start := default (Api.mk_start None None) (Api.start ev) in
      bool_decide (is_Some (Api.date start)) &&
        negb (bool_decide (is_Some (Api.dateTime start))) = false ->
      bool_decide (Api.status ev = Some "cancelled") = false ->
      PyStr.truthy (default EmptyString (Api.dateTime start)) = true ->
      parse (default EmptyString (Api.dateTime start)) = Some start_time ->
      exists remind_time j now,
        Datetime.sub_us start_time
          (Datetime.minutes Api.REMINDER_MINUTES_BEFORE) = Some remind_time /\
        Api.now_for w start_time (clock w j) = Some now /\
        (is_Some (ledger !! event_id) \/ Datetime.ltb remind_time now = true).

Definition sync_calendar (w : world) (src : source) : result :=
  match src with
  | Feed ical_content => Ical.sync_calendar w (Ical.Content ical_content)
  | Calendar events =>
      Api.sync_calendar parse w Api.Service (Api.Items events)
  end.

(** The second run, in [w2], does not see time go backwards with respect
    to the first, in [w1], and no event comes into reach between them.
    - Feed variant: the [now] of the second run is not before the [now] of
      the first, its cutoff exists, and every event that starts after the
      cutoff of the first run starts after the cutoff of the second.
    - Authenticated-API variant: for every start time of the events, a
      [now] of the second run, read in the zone of that start time, exists
      and is not before such a [now] of the first run. *)
Definition not_earlier (w1 w2 : world) (src : source) : Prop :=
  match src with
  | Feed ical_content =>
      Datetime.ltb (feed_now w2) (feed_now w1) = false /\
      exists cutoff2,
        Datetime.add_us (feed_now w2) (Datetime.hours Ical.SYNC_HOURS_AHEAD)
          = Some cutoff2 /\
        forall cutoff1 event start_time,
          Datetime.add_us (feed_now w1) (Datetime.hours Ical.SYNC_HOURS_AHEAD)
            = Some cutoff1 ->
          In event (Ical.parse_ical ical_content) ->
          Ical.parse_ical_datetime (Ical.get event "DTSTART" EmptyString)
            = Some start_time ->
          Datetime.gtb start_time cutoff1 = true ->
          Datetime.gtb start_time cutoff2 = true
  | Calendar events =>
      forall ev start_time j k now1,
        In ev events ->
        Pass.start_of parse (Pass.OfApi ev) = Some start_time ->
        Api.now_for w1 start_time (clock w1 j) = Some now1 ->
        exists now2,
          Api.now_for w2 start_time (clock w2 k) = Some now2 /\
          Datetime.ltb now2 now1 = false
  end.

(** The idempotence of two runs as the specification words it: the second
    run starts from the state file of the first, inside the retention
    window, over the same data, with a sink that answers [exists]; it then
    saves the ledger that the first run saved. *)
Definition stated_idempotence (w1 w2 : world) (src : source) : Prop :=
  how (sync_calendar w1 src) = Completed ->
  state_file w2 = file_after (sync_calendar w1 src) ->
  nothing_expired w2 ->
  (forall earlier r, reminders w2 earlier r = "exists") ->
  file_after (sync_calendar w2 src) = file_after (sync_calendar w1 src).

End WithParser.

End Twice.

(** ** Reading a trace *)

Module Audit.
Import Run.

(** The ledgers written by [save_synced_events]. *)
Definition saves (tr : list effect) : list (gmap string Ledger.entry) :=
  omap (λ e, match e with Save m => Some m | _ => None end) tr.

(** The sink answered [created] or [exists]. *)
Definition confirms (result : string) : bool :=
  bool_decide (result = "created") || bool_decide (result = "exists").

(** The event ids of the requests that the sink confirmed. *)
Definition confirmed (tr : list effect) : list string :=
  omap (λ e, match e with
             | Create r result =>
                 if confirms result then Some (event_id r) else None
             | _ => None
             end) tr.

(** The number of requests answered [created]. *)
Definition created_count (tr : list effect) : nat :=
  length (omap (λ e, match e with
                     | Create r result =>
                         if bool_decide (result = "created") then Some r
                         else None
                     | _ => None
                     end) tr).

(** What the loop over the events keeps true, [loaded] being the ledger it
    started from. *)
Definition loop_inv (loaded : gmap string Ledger.entry) (st : loop) : Prop :=
  saves (trace st) = [] /\
  new_reminders st = created_count (trace st) /\
  (forall k v, loaded !! k = Some v -> synced_events st !! k = Some v) /\
  (forall k, is_Some (synced_events st !! k) <->
             is_Some (loaded !! k) \/ In k (confirmed (trace st))) /\
  NoDup (confirmed (trace st)) /\
  (forall k, In k (confirmed (trace st)) -> loaded !! k = None).

(** The ledger a run in [w] starts from: what [load_synced_events] returns
    at the first reading of the clock (empty without a readable file). *)
Definition loaded (w : world) : gmap string Ledger.entry :=
  Ledger.load_synced_events (state_file w) (clock w 0).

(** The state file is written at the end only: a run that completes has
    one call of [save_synced_events], after which only the closing log
    line follows; a run that ended in any other way has none. *)
Definition saved_last (r : result) : Prop :=
  match how r with
  | Completed =>
      exists before m message,
        effects r = before ++ [Save m; Log message] /\ saves before = []
  | _ => saves (effects r) = []
  end.

(** The events a run with the given calendar data loops over. *)
Definition events_count (src : Twice.source) : nat :=
  match src with
  | Twice.Feed ical_content => length (Ical.parse_ical ical_content)
  | Twice.Calendar events => length events
  end.

End Audit.

(** ** What a pattern of the [re] fragment matches *)

Module ReSpec.

(** Every character of [s] is in the class. *)
Fixpoint every (cls : ascii -> bool) (s : string) : bool :=
  match s with
  | EmptyString => true
  | String c s' => cls c && every cls s'
  end.

(** The text [m] is matched, whole, by the pattern [p]. *)
Fixpoint denotes (p : list Re.item) (m : string) : Prop :=
  match p with
  | [] => m = EmptyString
  | Re.Lit l :: p' => exists m', m = l +:+ m' /\ denotes p' m'
  | Re.Star cls :: p' =>
      exists a m', m = a +:+ m' /\ every cls a = true /\ denotes p' m'
  | Re.Plus cls :: p' =>
      exists a m', m = a +:+ m' /\ a <> EmptyString /\
                   every cls a = true /\ denotes p' m'
  end.

(** [m] occurs in [s]. *)
Definition occurs_in (m s : string) : Prop :=
  exists before after, s = before +:+ m +:+ after.

End ReSpec.

(** ** The events behind the requests and the entries of a run *)

Module Origin.
Import Run.

(** The iterations of the loop of a run in [w] over fetched calendar data:
    one for each event, in the feed variant with the [now] and the cutoff
    computed before the loop. *)
Definition iterations (w : world) (src : Twice.source)
  : list Pass.iteration :=
  match src with
  | Twice.Feed ical_content =>
      match Datetime.add_us (Twice.feed_now w)
              (Datetime.hours Ical.SYNC_HOURS_AHEAD) with
      | Some cutoff =>
          map (Pass.OfFeed (Twice.feed_now w) cutoff)
              (Ical.parse_ical ical_content)
      | None => []
      end
  | Twice.Calendar events => map Pass.OfApi events
  end.

(** The summary an iteration uses for the title and the ledger entry. *)
Definition summary_of (it : Pass.iteration) : string :=
  match it with
  | Pass.OfApi ev => default "Untitled Meeting" (Api.summary ev)
  | Pass.OfFeed _ _ event =>
      Ical.decode (Ical.get event "SUMMARY" "Untitled Meeting")
  end.

(** The body an iteration hands to the sink for an event that starts at
    the time of day [hm]. *)
Definition body_of (it : Pass.iteration) (hm : string) : string :=
  match it with
  | Pass.OfApi ev =>
      PyStr.join Api.LF
        (Api.body_parts hm (Api.extract_meeting_link ev)
           (Api.organizer_email ev))
  | Pass.OfFeed _ _ event =>
      Ical.add_join ("Starts at " +:+ hm)
        [Ical.get event "DESCRIPTION" EmptyString;
         Ical.get event "LOCATION" EmptyString]
  end.

(** The loop variables of [calendar_sync.py] when its loop over the events
    starts: the Reminders list is set up and the ledger is loaded. *)
Definition api_loop (w : world) : loop :=
  load w (emit EnsureList Api.start_loop).

(** The request [r] is the one that the iteration builds for its event,
    [parse] being the parser of the start time in [calendar_sync.py]. *)
Definition built_for (parse : string -> option datetime)
  (it : Pass.iteration) (r : request) : Prop :=
  exists start_time,
    Pass.id_of it = Some (event_id r) /\
    Pass.start_of parse it = Some start_time /\
    title r = "📅 " +:+ summary_of it +:+ " - " +:+
              Datetime.strftime_HM start_time /\
    body r = body_of it (Datetime.strftime_HM start_time) /\
    Datetime.sub_us start_time (Datetime.minutes (Pass.lead it))
      = Some (remind_date r).

End Origin.

(** ** What the loop of [parse_ical] keeps true *)

Module Lines.

(** No property name of the event holds a colon or a semicolon. *)
Definition names_clean (ev : gmap string string) : Prop :=
  forall key, is_Some (ev !! key) ->
    PyStr.contains ":" key = false /\ PyStr.contains ";" key = false.

End Lines.

(** ** Times as a feed writes them *)

Module Compact.

(** The text of a date with time in a feed: four digits of year, two each
    of month and day, the letter T, two digits each of hour, minute and
    second; [t.strftime('%Y%m%dT%H%M%S')]. *)
Definition compact (t : datetime) : string :=
  Datetime.pad 4 (Datetime.year t) +:+ Datetime.pad 2 (Datetime.month t) +:+
  Datetime.pad 2 (Datetime.day t) +:+ "T" +:+
  Datetime.pad 2 (Datetime.hour t) +:+ Datetime.pad 2 (Datetime.minute t) +:+
  Datetime.pad 2 (Datetime.second t).

End Compact.

(** ** The text handed to the script of the sink *)

Module Script.

Definition QUOTE : ascii := ascii_of_N 34.
Definition APOSTROPHE : ascii := ascii_of_N 39.

(** The two [replace] calls that [create_macos_reminder] makes on the
    title and on the body: a backslash is put before every double quote,
    then before every apostrophe. *)
Definition escape (text : string) : string :=
  PyStr.replace (String APOSTROPHE EmptyString)
    (String Escaping.BACKSLASH (String APOSTROPHE EmptyString))
    (PyStr.replace (String QUOTE EmptyString)
       (String Escaping.BACKSLASH (String QUOTE EmptyString)) text).

(** Read from the left, a backslash taking the character behind it with
    it: no double quote and no apostrophe stands on its own, and no
    backslash stands last. *)
Fixpoint guarded (text : string) : bool :=
  match text with
  | EmptyString => true
  | String c rest =>
      if bool_decide (c = Escaping.BACKSLASH) then
        match rest with
        | EmptyString => false
        | String _ rest' => guarded rest'
        end
      else if bool_decide (c = QUOTE) || bool_decide (c = APOSTROPHE)
      then false
      else guarded rest
  end.

End Script.

(** ** The time within the day *)

Module Daytime.

(** The microseconds of a value since its midnight. *)
Definition time_of_day (t : datetime) : Z :=
  (Datetime.hour t * 3600 + Datetime.minute t * 60 + Datetime.second t)
    * 1000000 + Datetime.microsecond t.

End Daytime.

(** * Properties *)

(** ** Sanity checks of the primitives *)

Example replace_ex :
  PyStr.replace "\," "," "a\,b\,\,c" = "a,b,,c".
Proof. reflexivity. Qed.

Example split_ex :
  PyStr.split ":" "DTSTART;TZID=Europe/Rome:20250101T100000" =
  ["DTSTART;TZID=Europe/Rome"; "20250101T100000"].
Proof. reflexivity. Qed.

Example split_trailing : PyStr.split ":" "a:" = ["a"; EmptyString].
Proof. reflexivity. Qed.

Example ord_roundtrip :
  Datetime.ord2ymd (Datetime.ymd2ord 2024 2 29) = (2024, 2, 29) /\
  Datetime.ord2ymd (Datetime.ymd2ord 2025 12 31) = (2025, 12, 31) /\
  Datetime.ymd2ord 1 1 1 = 1 /\ Datetime.ymd2ord 9999 12 31 = Datetime.MAXORDINAL.
Proof. repeat split; reflexivity. Qed.

Example sub_three_minutes :
  Datetime.sub_us (Datetime.mk 2025 3 1 0 1 30 0 None) (Datetime.minutes 3) =
  Some (Datetime.mk 2025 2 28 23 58 30 0 None).
Proof. vm_compute. reflexivity. Qed.

Example isoformat_ex :
  Datetime.isoformat (Datetime.mk 2025 3 1 9 5 0 250 None) =
  "2025-03-01T09:05:00.000250" /\
  Datetime.isoformat (Datetime.mk 2025 3 1 9 5 0 0 (Some (-330))) =
  "2025-03-01T09:05:00-05:30".
Proof. split; vm_compute; reflexivity. Qed.

Example strptime_ex :
  Strptime.strptime "20250301T093000" = Some (Datetime.mk 2025 3 1 9 30 0 0 None) /\
  Strptime.strptime "20250230T093000" = None /\
  Strptime.strptime "20250301T0930001" = None /\
  Strptime.strptime "2025115T120000" = Some (Datetime.mk 2025 11 5 12 0 0 0 None) /\
  Strptime.strptime "20250301" = None.
Proof. repeat split; vm_compute; reflexivity. Qed.

Example search_ex :
  Re.search [Re.Lit "https://"; Re.Star Re.not_space; Re.Lit "zoom.us/"; Re.Plus Re.url_char]
    "Join <https://us02web.zoom.us/j/123?pwd=abc> now" =
  Some "https://us02web.zoom.us/j/123?pwd=abc>".
Proof. vm_compute. reflexivity. Qed.

(** ** The loop state and its trace *)

Section TraceFacts.
Import Run.

Lemma trace_emit e st : trace (emit e st) = trace st ++ [e].
Proof. reflexivity. Qed.

Lemma trace_mark_synced w i s t st :
  trace (mark_synced w i s t st) = trace st.
Proof. reflexivity. Qed.

Lemma synced_mark_synced w i s t st :
  synced_events (mark_synced w i s t st) =
  <[i := Ledger.mk_entry (Some s) (Some (Datetime.isoformat t))
           (Some (Datetime.isoformat (clock w (ticks st))))]>
    (synced_events st).
Proof. reflexivity. Qed.

(** A list is not its own proper extension. *)
Lemma app_cons_not_self {A} (l : list A) x r : l = l ++ x :: r -> False.
Proof.
  intros H. apply (f_equal length) in H. rewrite length_app in H.
  simpl in H. lia.
Qed.

Lemma app_inv_first {A} (l : list A) x r y r' :
  l ++ x :: r = l ++ y :: r' -> x = y /\ r = r'.
Proof. intros H. apply app_inv_head in H. by inversion H. Qed.

End TraceFacts.
(** ** One iteration of the loop over the events *)

Section StepFacts.
Import Run.
Variable parse : string -> option datetime.

Ltac loop_simpl H :=
  cbn [state_of trace tick emit log count_reminder record mark_synced
       synced_events ticks new_reminders Pass.step] in H.

(** Case analysis on the tests of a loop body that stands in [H]. *)
Ltac split_tests H :=
  repeat match type of H with
  | context [match ?x with _ => _ end] => destruct x eqn:?
  end.

Ltac loop_simpl_goal :=
  cbn [state_of trace tick emit log count_reminder record mark_synced
       synced_events ticks new_reminders Pass.step].

(** What an iteration of [calendar_sync.py] that calls
    [create_macos_reminder] passed to it, and what it did next. *)
Lemma api_step_request w st ev r result rest :
  trace (state_of (Api.step parse w st ev))
    = trace st ++ Create r result :: rest ->
  exists event_id start_time remind_time now,
    Api.id ev = Some event_id /\
    Api.status ev <> Some "cancelled" /\
    Pass.start_of parse (Pass.OfApi ev) = Some start_time /\
    Datetime.sub_us start_time (Datetime.minutes Api.REMINDER_MINUTES_BEFORE)
      = Some remind_time /\
    Pass.now_of w (Pass.OfApi ev) st start_time = Some now /\
    Datetime.ltb remind_time now = false /\
    synced_events st !! event_id = None /\
    result = reminders w (calls (trace st)) r /\
    r = mk_request event_id
          ("📅 " +:+ default "Untitled Meeting" (Api.summary ev) +:+ " - " +:+
           Datetime.strftime_HM start_time)
          (PyStr.join Api.LF
             (Api.body_parts (Datetime.strftime_HM start_time)
                (Api.extract_meeting_link ev) (Api.organizer_email ev)))
          remind_time /\
    synced_events (state_of (Api.step parse w st ev)) =
      if bool_decide (result = "created" \/ result = "exists")
      then <[event_id :=
               Ledger.mk_entry
                 (Some (default "Untitled Meeting" (Api.summary ev)))
                 (Some (Datetime.isoformat start_time))
                 (Some (Datetime.isoformat (clock w (S (ticks st)))))]>
             (synced_events st)
      else synced_events st.
Proof.
  unfold Api.step, Pass.start_of, Pass.now_of. intros H.
  split_tests H; loop_simpl H; loop_simpl_goal;
    try (destruct (app_cons_not_self _ _ _ H)).
  all: rewrite <- ?app_assoc in H; apply app_inv_first in H as [H _];
    injection H as <- <-; cbn [trace tick synced_events] in *.
  all: match goal with
       | E : bool_decide (_ = Some "cancelled") = false |- _ =>
           apply bool_decide_eq_false in E
       end.
  all: eexists _, _, _, _; repeat apply conj; eauto.
  all: try (apply eq_None_not_Some; assumption).
  all: match goal with
       | |- _ = if bool_decide ?P then _ else _ =>
           destruct (bool_decide_reflect P) as [Hp|Hp]
       end; try reflexivity; exfalso;
       first [ apply Hp; left; assumption | apply Hp; right; assumption
             | destruct Hp; contradiction ].
Qed.

Lemma feed_uid (event : gmap string string) :
  negb (PyStr.truthy (Ical.get event "UID" EmptyString)) = false ->
  event !! "UID" = Some (Ical.get event "UID" EmptyString).
Proof.
  unfold Ical.get. destruct (event !! "UID"); [reflexivity | discriminate].
Qed.

(** The same for an iteration of [calendar_sync_ical.py]. *)
Lemma feed_step_request w now cutoff st event r result rest :
  trace (state_of (Ical.step w now cutoff st event))
    = trace st ++ Create r result :: rest ->
  exists event_id start_time remind_time,
    event !! "UID" = Some event_id /\
    Ical.parse_ical_datetime (Ical.get event "DTSTART" EmptyString)
      = Some start_time /\
    Datetime.ltb start_time now = false /\
    Datetime.gtb start_time cutoff = false /\
    Datetime.sub_us start_time (Datetime.minutes Ical.REMINDER_MINUTES_BEFORE)
      = Some remind_time /\
    Datetime.ltb remind_time now = false /\
    synced_events st !! event_id = None /\
    result = reminders w (calls (trace st)) r /\
    r = mk_request event_id
          ("📅 " +:+ Ical.decode (Ical.get event "SUMMARY" "Untitled Meeting")
           +:+ " - " +:+ Datetime.strftime_HM start_time)
          (Ical.add_join ("Starts at " +:+ Datetime.strftime_HM start_time)
             [Ical.get event "DESCRIPTION" EmptyString;
              Ical.get event "LOCATION" EmptyString])
          remind_time /\
    synced_events (state_of (Ical.step w now cutoff st event)) =
      if bool_decide (result = "created" \/ result = "exists")
      then <[event_id :=
               Ledger.mk_entry
                 (Some (Ical.decode (Ical.get event "SUMMARY" "Untitled Meeting")))
                 (Some (Datetime.isoformat start_time))
                 (Some (Datetime.isoformat (clock w (ticks st))))]>
             (synced_events st)
      else synced_events st.
Proof.
  unfold Ical.step. intros H.
  split_tests H; loop_simpl H; loop_simpl_goal;
    try (destruct (app_cons_not_self _ _ _ H)).
  all: rewrite <- ?app_assoc in H; apply app_inv_first in H as [H _];
    injection H as <- <-; cbn [trace tick synced_events] in *.
  all: match goal with
       | E : negb (PyStr.truthy (Ical.get _ "UID" EmptyString)) = false |- _ =>
           apply feed_uid in E
       end.
  all: match goal with
       | E : _ || _ = false |- _ => apply orb_false_elim in E as [? ?]
       end.
  all: eexists _, _, _; repeat apply conj; eauto.
  all: try (apply eq_None_not_Some; assumption).
  all: match goal with
       | |- _ = if bool_decide ?P then _ else _ =>
           destruct (bool_decide_reflect P) as [Hp|Hp]
       end; try reflexivity; exfalso;
       first [ apply Hp; left; assumption | apply Hp; right; assumption
             | destruct Hp; contradiction ].
Qed.

(** An iteration either makes no request and leaves the ledger alone, or
    makes exactly one request. *)
Lemma step_quiet_or_request w it st :
  (trace (state_of (Pass.step parse w it st)) = trace st /\
   synced_events (state_of (Pass.step parse w it st)) = synced_events st /\
   new_reminders (state_of (Pass.step parse w it st)) = new_reminders st)
  \/ exists r result rest,
       trace (state_of (Pass.step parse w it st))
         = trace st ++ Create r result :: rest.
Proof.
  destruct it as [ev|now cutoff event]; cbn [Pass.step];
    [unfold Api.step | unfold Ical.step];
    repeat case_match; loop_simpl_goal;
    first [ left; repeat apply conj; reflexivity
          | right; rewrite <- ?app_assoc; eexists _, _, _; reflexivity ].
Qed.

End StepFacts.

(** ** Claims about one iteration *)

Section IterationClaims.
Import Run.
Variable parse : string -> option datetime.

(** C4.  In both variants, an event whose reminder time (start minus the
    lead minutes) is before the [now] it is compared with gets no reminder:
    the iteration makes no request and leaves the ledger as it was.  The
    start itself may still lie ahead of [now]. *)
Theorem C4_past_fire_time_skipped w it st start_time remind_time now :
  Pass.start_of parse it = Some start_time ->
  Datetime.sub_us start_time (Datetime.minutes (Pass.lead it))
    = Some remind_time ->
  Pass.now_of w it st start_time = Some now ->
  Datetime.ltb remind_time now = true ->
  trace (state_of (Pass.step parse w it st)) = trace st /\
  synced_events (state_of (Pass.step parse w it st)) = synced_events st.
Proof.
  intros Hs Hr Hn Hlt.
  destruct (step_quiet_or_request parse w it st)
    as [(? & ? & _)|(r & result & rest & H)]; [by split|exfalso].
  destruct it as [ev|now' cutoff event]; cbn [Pass.step Pass.lead] in *.
  - apply api_step_request in H
      as (? & s' & r' & n' & _ & _ & Hs' & Hr' & Hn' & Hlt' & _).
    cbn [Pass.start_of Pass.now_of] in *.
    rewrite Hs in Hs'. injection Hs' as <-.
    rewrite Hr in Hr'. injection Hr' as <-.
    rewrite Hn in Hn'. injection Hn' as <-. congruence.
  - apply feed_step_request in H
      as (? & s' & r' & _ & Hs' & _ & _ & Hr' & Hlt' & _).
    cbn [Pass.start_of Pass.now_of] in *.
    rewrite Hs in Hs'. injection Hs' as <-.
    rewrite Hr in Hr'. injection Hr' as <-. injection Hn as <-. congruence.
Qed.

(** C3.  In both variants, when an iteration has asked the sink for a
    reminder, the answer decides the ledger write: on [created] or [exists]
    an entry is stored under the event's id, on any other answer the ledger
    is left as it was, so the id is still absent from it. *)
Theorem C3_sink_outcome_decides_ledger_write w it st r result rest :
  trace (state_of (Pass.step parse w it st))
    = trace st ++ Create r result :: rest ->
  Pass.id_of it = Some (event_id r) /\
  synced_events st !! event_id r = None /\
  (result = "created" \/ result = "exists" ->
   exists entry,
     synced_events (state_of (Pass.step parse w it st))
       = <[event_id r := entry]> (synced_events st) /\
     synced_events (state_of (Pass.step parse w it st)) !! event_id r
       = Some entry) /\
  (result <> "created" -> result <> "exists" ->
   synced_events (state_of (Pass.step parse w it st)) = synced_events st /\
   synced_events (state_of (Pass.step parse w it st)) !! event_id r = None).
Proof.
  intros H.
  destruct it as [ev|now cutoff event]; cbn [Pass.step Pass.id_of] in *.
  - apply api_step_request in H
      as (i & s & t & n & Hi & _ & _ & _ & _ & _ & Hnone & _ & -> & Hl).
    cbn [event_id]. repeat apply conj; [done..| |].
    + intros Hok. rewrite Hl, bool_decide_eq_true_2 by done.
      eexists. split; [reflexivity|]. apply lookup_insert_eq.
    + intros H1 H2. rewrite Hl, bool_decide_eq_false_2 by tauto. done.
  - apply feed_step_request in H
      as (i & s & t & Hi & _ & _ & _ & _ & _ & Hnone & _ & -> & Hl).
    cbn [event_id]. repeat apply conj; [done..| |].
    + intros Hok. rewrite Hl, bool_decide_eq_true_2 by done.
      eexists. split; [reflexivity|]. apply lookup_insert_eq.
    + intros H1 H2. rewrite Hl, bool_decide_eq_false_2 by tauto. done.
Qed.

End IterationClaims.

(** ** The organizer line (authenticated-API variant) *)

Section OrganizerLine.
Import Run.
Variable parse : string -> option datetime.

Lemma truthy_nonempty s : PyStr.truthy s = true <-> s <> EmptyString.
Proof. destruct s; simpl; split; congruence. Qed.

(** Among the lines of a body, only the organizer line starts with
    [Organizer:]. *)
Lemma organizer_part hm link org :
  (exists line, In line (Api.body_parts hm link org) /\
                String.prefix "Organizer:" line = true) <->
  org <> EmptyString /\ org <> "boriss@wix.com".
Proof.
  unfold Api.body_parts. split.
  - intros (line & Hin & Hp).
    assert (Hnot : forall t, String.prefix "Organizer:" ("Starts at " +:+ t) = false
                          /\ String.prefix "Organizer:" ("Join: " +:+ t) = false)
      by (intros t; split; reflexivity).
    apply in_app_or in Hin as [[<-|[]]|Hin];
      [rewrite (proj1 (Hnot hm)) in Hp; discriminate|].
    apply in_app_or in Hin as [Hin|Hin].
    + destruct link as [l|]; [destruct (PyStr.truthy l)|]; simpl in Hin;
        try tauto.
      destruct Hin as [<-|[]]. rewrite (proj2 (Hnot l)) in Hp. discriminate.
    + destruct (PyStr.truthy org) eqn:Ht; [|destruct Hin].
      case_bool_decide as Hfix; [destruct Hin|].
      split; [by apply truthy_nonempty | done].
  - intros [Hne Hfix]. exists ("Organizer: " +:+ org). split; [|reflexivity].
    apply in_or_app. right. apply in_or_app. right.
    apply truthy_nonempty in Hne. rewrite Hne.
    rewrite bool_decide_eq_false_2 by done. simpl. by left.
Qed.

(** C10.  In the authenticated-API variant the body handed to the sink is
    the join of its lines, and a line starting with [Organizer:] is among
    them exactly when the organizer's email is not empty and is not
    [boriss@wix.com]; the line then reads [Organizer: <email>]. *)
Theorem C10_organizer_line w st ev r result rest :
  trace (state_of (Api.step parse w st ev))
    = trace st ++ Create r result :: rest ->
  exists hm : string,
    let lines :=
      Api.body_parts hm (Api.extract_meeting_link ev) (Api.organizer_email ev)
    in
    body r = PyStr.join Api.LF lines /\
    ((exists line, In line lines /\ String.prefix "Organizer:" line = true)
     <-> Api.organizer_email ev <> EmptyString /\
         Api.organizer_email ev <> "boriss@wix.com") /\
    (forall line, In line lines -> String.prefix "Organizer:" line = true ->
       line = "Organizer: " +:+ Api.organizer_email ev).
Proof.
  intros H.
  apply api_step_request in H
    as (i & s & t & n & _ & _ & _ & _ & _ & _ & _ & _ & -> & _).
  exists (Datetime.strftime_HM s). cbv zeta. cbn [body].
  split; [|split].
  - reflexivity.
  - apply organizer_part.
  - intros line Hin Hp. unfold Api.body_parts in Hin.
    apply in_app_or in Hin as [[<-|[]]|Hin]; [discriminate Hp|].
    apply in_app_or in Hin as [Hin|Hin].
    + destruct (Api.extract_meeting_link ev) as [l|];
        [destruct (PyStr.truthy l)|]; simpl in Hin; try tauto.
      destruct Hin as [<-|[]]. discriminate Hp.
    + destruct (_ && _); [|destruct Hin]. by destruct Hin as [<-|[]].
Qed.

End OrganizerLine.

(** ** The iteration claims at concrete events *)

(** C4 at an event that starts two minutes after [now]: its reminder time,
    one minute before [now], has passed. *)
Lemma C4_witness :
  Datetime.ltb Scenario.noon (Scenario.at_time 2025 1 1 12 2) = true /\
  Run.trace (Run.state_of
     (Pass.step Scenario.parse_start Scenario.fresh_world
        Scenario.soon_iteration Scenario.empty_loop)) = [] /\
  Run.synced_events (Run.state_of
     (Pass.step Scenario.parse_start Scenario.fresh_world
        Scenario.soon_iteration Scenario.empty_loop)) = ∅.
Proof.
  split; [reflexivity|].
  apply (C4_past_fire_time_skipped Scenario.parse_start Scenario.fresh_world
           Scenario.soon_iteration Scenario.empty_loop
           (Scenario.at_time 2025 1 1 12 2) (Scenario.at_time 2025 1 1 11 59)
           Scenario.noon);
    vm_compute; reflexivity.
Defined.

(** C3 at an event for which the Reminders list answers [created]. *)
Lemma C3_witness :
  exists entry,
    Run.synced_events (Run.state_of
       (Pass.step Scenario.parse_start Scenario.fresh_world
          (Pass.OfApi Scenario.afternoon_event) Scenario.empty_loop)) !! "e2"
    = Some entry.
Proof.
  destruct (C3_sink_outcome_decides_ledger_write Scenario.parse_start
              Scenario.fresh_world (Pass.OfApi Scenario.afternoon_event)
              Scenario.empty_loop Scenario.afternoon_request "created"
              [Run.Log "✅ Created reminder: Weekly sync at 14:00"])
    as (_ & _ & Hwritten & _).
  - vm_compute. reflexivity.
  - destruct (Hwritten (or_introl eq_refl)) as (entry & _ & Hentry).
    exists entry. exact Hentry.
Defined.

(** C10 at an event organised by [alice@example.com]. *)
Lemma C10_witness :
  exists hm : string,
    Run.body Scenario.afternoon_request =
      PyStr.join Api.LF
        (Api.body_parts hm None "alice@example.com") /\
    In ("Organizer: alice@example.com")
       (Api.body_parts hm None "alice@example.com").
Proof.
  destruct (C10_organizer_line Scenario.parse_start Scenario.fresh_world
              Scenario.empty_loop Scenario.afternoon_event
              Scenario.afternoon_request "created"
              [Run.Log "✅ Created reminder: Weekly sync at 14:00"])
    as (hm & Hbody & Hiff & Hline).
  - vm_compute. reflexivity.
  - exists hm. split; [exact Hbody|].
    destruct (proj2 Hiff) as (line & Hin & Hp).
    + split; discriminate.
    + rewrite (Hline line Hin Hp) in Hin. exact Hin.
Defined.

(** ** Events without a start time, cancelled events *)

Section Untimed.
Import Run.
Variable parse : string -> option datetime.

(** In [calendar_sync.py] an event without [dateTime] (an all-day event
    has only [date]) and a cancelled event make no request. *)
Lemma api_skips_untimed_or_cancelled w st ev :
  Api.dateTime (default (Api.mk_start None None) (Api.start ev)) = None \/
  Api.status ev = Some "cancelled" ->
  trace (state_of (Api.step parse w st ev)) = trace st /\
  synced_events (state_of (Api.step parse w st ev)) = synced_events st.
Proof.
  intros Hskip. unfold Api.step.
  destruct (Api.id ev) as [event_id|]; [|done].
  destruct (_ && _); [done|].
  destruct Hskip as [Hno|Hc].
  - destruct (bool_decide _); [done|]. by rewrite Hno.
  - by rewrite bool_decide_eq_true_2.
Qed.

(** In [calendar_sync_ical.py] an event whose [DTSTART] does not parse to a
    time makes no request. *)
Lemma feed_skips_untimed w now cutoff st event :
  Ical.parse_ical_datetime (Ical.get event "DTSTART" EmptyString) = None ->
  trace (state_of (Ical.step w now cutoff st event)) = trace st /\
  synced_events (state_of (Ical.step w now cutoff st event))
    = synced_events st.
Proof.
  intros Hno. unfold Ical.step.
  destruct (negb _); [done|]. by rewrite Hno.
Qed.

(** A date without the time part, as all-day events carry it, does not
    parse to a time. *)
Lemma date_only_is_untimed s :
  PyStr.contains "T" (PyStr.replace "Z" EmptyString s) = false ->
  Ical.parse_ical_datetime s = None.
Proof. unfold Ical.parse_ical_datetime. by intros ->. Qed.

End Untimed.

(** C1.  The feed variant never reads [STATUS]: for a feed whose only event
    is cancelled, the run asks for a reminder and records the event, where
    the claim has no reminder created for a cancelled event. *)
Theorem C1_feed_reminds_cancelled_event :
  (exists event,
     Ical.parse_ical Scenario.cancelled_feed = [event] /\
     event !! "STATUS" = Some "CANCELLED") /\
  Run.calls (Run.effects
     (Ical.sync_calendar Scenario.fresh_world
        (Ical.Content Scenario.cancelled_feed)))
    = [Scenario.cancelled_request] /\
  exists data,
    Run.file_after
      (Ical.sync_calendar Scenario.fresh_world
         (Ical.Content Scenario.cancelled_feed)) = Ledger.Stored data /\
    is_Some (data !! "e3").
Proof.
  split; [|split].
  - eexists. split; [vm_compute; reflexivity|]. vm_compute. reflexivity.
  - vm_compute. reflexivity.
  - eexists. split; [vm_compute; reflexivity|]. eexists. vm_compute. reflexivity.
Qed.

(** C2.  [parse_ical_datetime] deletes the UTC suffix and returns the same
    naive value as without it; the loop compares that value with the local
    clock.  In a zone two hours ahead of UTC, at local noon, a meeting at
    11:00 UTC (13:00 local) is skipped as already past, while the same
    meeting written in local time, and the same meeting in the
    authenticated-API variant, get their reminder. *)
Theorem C2_utc_suffix_read_as_local :
  Ical.parse_ical_datetime "20250101T110000Z"
    = Some (Scenario.at_time 2025 1 1 11 0) /\
  Ical.parse_ical_datetime "20250101T110000Z"
    = Ical.parse_ical_datetime "20250101T110000" /\
  Run.calls (Run.effects
     (Ical.sync_calendar Scenario.fresh_world
        (Ical.Content Scenario.utc_feed))) = [] /\
  Run.calls (Run.effects
     (Ical.sync_calendar Scenario.fresh_world
        (Ical.Content Scenario.local_feed))) = [Scenario.review_request] /\
  exists r,
    Run.calls (Run.effects
       (Api.sync_calendar Scenario.parse_start Scenario.fresh_world
          Api.Service (Api.Items [Scenario.utc_event]))) = [r] /\
    Run.remind_date r = Datetime.mk 2025 1 1 10 57 0 0 (Some 0).
Proof.
  repeat apply conj; try (vm_compute; reflexivity).
  eexists. split; vm_compute; reflexivity.
Qed.

(** The UTC suffix never reaches the parsed value: any text and the same
    text with a [Z] appended parse alike. *)
Lemma prefix_cons a p b s :
  String.prefix (String a p) (String b s) =
  if ascii_dec a b then String.prefix p s else false.
Proof. reflexivity. Qed.

Lemma prefix_empty s : String.prefix EmptyString s = true.
Proof. by destruct s. Qed.

Lemma replace_app_Z s :
  PyStr.replace "Z" EmptyString (s +:+ "Z") = PyStr.replace "Z" EmptyString s.
Proof.
  unfold PyStr.replace. induction s as [|c s IH]; [reflexivity|].
  change (String c s +:+ "Z") with (String c (s +:+ "Z")).
  cbn [PyStr.replace_go]. rewrite !prefix_cons.
  destruct (ascii_dec "Z" c); rewrite ?prefix_empty;
    cbn [String.length Nat.pred].
  - change (EmptyString +:+ ?x) with x. exact IH.
  - by rewrite IH.
Qed.

Lemma suffix_Z_ignored s :
  Ical.parse_ical_datetime (s +:+ "Z") = Ical.parse_ical_datetime s.
Proof. unfold Ical.parse_ical_datetime. by rewrite replace_app_Z. Qed.

(** ** Failures of the calendar source *)

Section SourceFailure.
Import Run.
Variable parse : string -> option datetime.

(** C5.  When the fetch of the feed fails, and when connecting to the
    calendar service fails, the run logs the failure and returns; the state
    file is neither loaded nor saved.  When the listing of the events
    fails in the authenticated-API variant, nothing catches the error: the
    run ends without a failure line in the log, after the Reminders list
    was set up and the state file was loaded; the file is not saved. *)
Theorem C5_listing_failure_uncaught w e fetch :
  Ical.sync_calendar w (Ical.FetchError e) =
    mk_result Returned
      [Log "🔄 Starting calendar sync (iCal)..."; Log "📥 Fetching calendar...";
       Log ("❌ Failed to fetch calendar: " +:+ e)]
      (state_file w) /\
  Api.sync_calendar parse w (Api.ConnectError e) fetch =
    mk_result Returned
      [Log "🔄 Starting calendar sync...";
       Log ("❌ Failed to connect to Google Calendar: " +:+ e)]
      (state_file w) /\
  Api.sync_calendar parse w Api.Service (Api.ListError e) =
    mk_result Crashed
      [Log "🔄 Starting calendar sync..."; EnsureList; Load]
      (state_file w).
Proof.
  repeat apply conj; try reflexivity.
  unfold Api.sync_calendar, load. by destruct (state_file w).
Qed.

End SourceFailure.

(** C6.  The scan returns links whose host is not a provider's: the
    pattern for the first provider accepts any text between the scheme and
    the domain, and the feed variant tests the domain by containment. *)
Theorem C6_link_on_foreign_host :
  Api.extract_meeting_link
    (Scenario.with_description Scenario.afternoon_event
       ("Agenda: " +:+ Scenario.foreign_link))
    = Some Scenario.foreign_link /\
  Scenario.host Scenario.foreign_link = "evil.example" /\
  Api.extract_meeting_link
    (Scenario.with_description Scenario.afternoon_event
       Scenario.lookalike_link)
    = Some Scenario.lookalike_link /\
  Scenario.host Scenario.lookalike_link = "notzoom.us" /\
  Ical.add_join "Starts at 14:00" [Scenario.foreign_query_link; EmptyString]
    = "Starts at 14:00" +:+ Ical.LF +:+ "Join: " +:+
      Scenario.foreign_query_link /\
  Scenario.host Scenario.foreign_query_link = "evil.example".
Proof. repeat apply conj; vm_compute; reflexivity. Qed.

(** ** Time stamps in ISO format keep the order of the times *)

Section IsoOrder.

Lemma digit_compare p q :
  0 <= p < 10 -> 0 <= q < 10 ->
  Ascii.compare (ascii_of_N (48 + Z.to_N p)) (ascii_of_N (48 + Z.to_N q))
    = (p ?= q).
Proof.
  intros Hp Hq.
  assert (Hcases : forall z, 0 <= z < 10 ->
            z = 0 \/ z = 1 \/ z = 2 \/ z = 3 \/ z = 4 \/ z = 5 \/ z = 6 \/
            z = 7 \/ z = 8 \/ z = 9) by (intros; lia).
  destruct (Hcases p Hp) as [->|[->|[->|[->|[->|[->|[->|[->|[->| ->]]]]]]]]];
  destruct (Hcases q Hq) as [->|[->|[->|[->|[->|[->|[->|[->|[->| ->]]]]]]]]];
  reflexivity.
Qed.

(** Two-digit numbers compare as their digit pairs do. *)
Lemma div_mod_compare x y :
  then_cmp (x / 10 ?= y / 10) (x mod 10 ?= y mod 10) = (x ?= y).
Proof.
  pose proof (Z.div_mod x 10 ltac:(lia)).
  pose proof (Z.div_mod y 10 ltac:(lia)).
  pose proof (Z.mod_pos_bound x 10 ltac:(lia)).
  pose proof (Z.mod_pos_bound y 10 ltac:(lia)).
  unfold then_cmp.
  destruct (Z.compare_spec (x / 10) (y / 10));
    destruct (Z.compare_spec (x mod 10) (y mod 10));
    destruct (Z.compare_spec x y); try reflexivity; lia.
Qed.

Lemma pad_go_compare n : forall x y a b,
  0 <= x < 10 ^ Z.of_nat n -> 0 <= y < 10 ^ Z.of_nat n ->
  String.compare (Datetime.pad_go n x a) (Datetime.pad_go n y b)
    = then_cmp (x ?= y) (String.compare a b).
Proof.
  induction n as [|n IH]; intros x y a b Hx Hy.
  - simpl in Hx, Hy. assert (x = 0) as -> by lia. assert (y = 0) as -> by lia.
    reflexivity.
  - rewrite Nat2Z.inj_succ, Z.pow_succ_r in Hx, Hy by lia.
    cbn [Datetime.pad_go].
    rewrite IH by (split; [apply Z.div_pos; lia
                          | apply Z.div_lt_upper_bound; lia]).
    cbn [String.compare]. unfold Datetime.digit.
    rewrite digit_compare by (apply Z.mod_pos_bound; lia).
    rewrite <- (div_mod_compare x y). unfold then_cmp.
    destruct (x / 10 ?= y / 10); [|reflexivity..].
    by destruct (x mod 10 ?= y mod 10).
Qed.

Lemma append_empty_r s : s +:+ EmptyString = s.
Proof.
  induction s as [|c s IH]; [reflexivity|].
  change (String c s +:+ EmptyString) with (String c (s +:+ EmptyString)).
  by rewrite IH.
Qed.

Lemma append_assoc_r a b c : (a +:+ b) +:+ c = a +:+ (b +:+ c).
Proof.
  induction a as [|x a IH]; [reflexivity|].
  change ((String x a +:+ b) +:+ c) with (String x ((a +:+ b) +:+ c)).
  by rewrite IH.
Qed.

Lemma pad_go_append n : forall z acc,
  Datetime.pad_go n z acc = Datetime.pad n z +:+ acc.
Proof.
  unfold Datetime.pad.
  induction n as [|n IH]; intros z acc; [reflexivity|].
  cbn [Datetime.pad_go].
  rewrite IH, (IH (z / 10) (String _ EmptyString)), append_assoc_r.
  reflexivity.
Qed.

Lemma pad_compare n x y s t :
  0 <= x < 10 ^ Z.of_nat n -> 0 <= y < 10 ^ Z.of_nat n ->
  String.compare (Datetime.pad n x +:+ s) (Datetime.pad n y +:+ t)
    = then_cmp (x ?= y) (String.compare s t).
Proof.
  intros Hx Hy. rewrite <- !pad_go_append. by apply pad_go_compare.
Qed.

Lemma sep_compare c s t :
  String.compare (String c s) (String c t) = String.compare s t.
Proof.
  cbn [String.compare]. unfold Ascii.compare. by rewrite N.compare_refl.
Qed.

Lemma lit_compare c s t :
  String.compare (String c EmptyString +:+ s) (String c EmptyString +:+ t)
    = String.compare s t.
Proof. apply sep_compare. Qed.

Lemma days_in_month_le y m : Datetime.days_in_month y m <= 31.
Proof.
  unfold Datetime.days_in_month, Datetime.DAYS_IN_MONTH.
  destruct (_ && _); [lia|].
  destruct m as [|p|p]; try lia.
  do 4 (destruct p as [p|p|]; try lia).
Qed.

Lemma ok_bounds t :
  Datetime.ok t = true ->
  (1 <= Datetime.year t <= 9999) /\ (1 <= Datetime.month t <= 12) /\
  (1 <= Datetime.day t <= 31) /\ (0 <= Datetime.hour t <= 23) /\
  (0 <= Datetime.minute t <= 59) /\ (0 <= Datetime.second t <= 59) /\
  (0 <= Datetime.microsecond t <= 999999).
Proof.
  unfold Datetime.ok, Datetime.fields_ok. intros H.
  repeat (apply andb_prop in H as [H ?]).
  pose proof (days_in_month_le (Datetime.year t) (Datetime.month t)). lia.
Qed.

(** The fractional part: absent for a whole second. *)
Lemma fraction_compare x y :
  0 <= x <= 999999 -> 0 <= y <= 999999 ->
  String.compare
    (if x =? 0 then EmptyString else "." +:+ Datetime.pad 6 x)
    (if y =? 0 then EmptyString else "." +:+ Datetime.pad 6 y)
    = (x ?= y).
Proof.
  intros Hx Hy.
  destruct (Z.eqb_spec x 0) as [->|Hx0]; destruct (Z.eqb_spec y 0) as [->|Hy0].
  - reflexivity.
  - symmetry. apply Z.compare_lt_iff. lia.
  - symmetry. apply Z.compare_gt_iff. lia.
  - rewrite lit_compare.
    rewrite <- (append_empty_r (Datetime.pad 6 x)),
            <- (append_empty_r (Datetime.pad 6 y)).
    rewrite pad_compare by (simpl; lia).
    by destruct (x ?= y).
Qed.

(** [isoformat] of naive values orders them as [datetime] comparison does. *)
Lemma isoformat_compare a b :
  Datetime.ok a = true -> Datetime.ok b = true ->
  Datetime.tzinfo a = None -> Datetime.tzinfo b = None ->
  String.compare (Datetime.isoformat a) (Datetime.isoformat b)
    = Datetime.compare a b.
Proof.
  intros Ha Hb Hza Hzb.
  apply ok_bounds in Ha as (? & ? & ? & ? & ? & ? & ?).
  apply ok_bounds in Hb as (? & ? & ? & ? & ? & ? & ?).
  unfold Datetime.isoformat, Datetime.compare, Datetime.key.
  rewrite Hza, Hzb, !append_empty_r.
  repeat (rewrite pad_compare by (simpl; lia); rewrite ?lit_compare).
  rewrite fraction_compare by lia.
  cbn [Datetime.lex]. unfold then_cmp.
  repeat match goal with
         | |- context [?x ?= ?y] => destruct (x ?= y); try reflexivity
         end.
Qed.

Lemma lex_antisym a : forall b, Datetime.lex b a = CompOpp (Datetime.lex a b).
Proof.
  induction a as [|x a IH]; intros [|y b]; try reflexivity.
  cbn [Datetime.lex]. rewrite (Z.compare_antisym x y).
  destruct (x ?= y); cbn; auto.
Qed.

Lemma ltb_asym a b : Datetime.ltb a b = true -> Datetime.ltb b a = false.
Proof.
  unfold Datetime.ltb, Datetime.compare.
  rewrite (lex_antisym (Datetime.key a) (Datetime.key b)).
  by destruct (Datetime.lex _ _).
Qed.

End IsoOrder.

(** ** Retention of the ledger *)

Section Retention.

Lemma add_us_ok t delta r :
  Datetime.add_us t delta = Some r ->
  Datetime.ok r = true /\ Datetime.tzinfo r = Datetime.tzinfo t.
Proof.
  unfold Datetime.add_us, Datetime.make.
  destruct (_ && _); [|discriminate].
  destruct (Datetime.ord2ymd _) as [[y m] d].
  destruct (Datetime.fields_ok _ _ _ _ _ _ _) eqn:Hok; [|discriminate].
  intros [= <-]. by split.
Qed.

(** An entry stamped by [datetime.now().isoformat()] at time [t] passes the
    test of [load_synced_events] exactly when [t] is after the cutoff. *)
Lemma fresh_iff_after cutoff t v :
  Datetime.ok cutoff = true -> Datetime.tzinfo cutoff = None ->
  Datetime.ok t = true -> Datetime.tzinfo t = None ->
  Ledger.synced_at v = Some (Datetime.isoformat t) ->
  Ledger.fresh (Datetime.isoformat cutoff) v = Datetime.ltb cutoff t.
Proof.
  intros Hc Hzc Ht Hzt Hv.
  unfold Ledger.fresh, PyStr.gtb, PyStr.ltb, Datetime.ltb.
  rewrite Hv. unfold default. cbn [from_option id].
  by rewrite isoformat_compare.
Qed.

(** C8.  [load_synced_events] keeps exactly the entries whose [synced_at]
    is after the cutoff, two days before the reading of the clock: an entry
    stamped at a time before the cutoff is dropped, one stamped after it is
    kept unchanged, and whatever is loaded comes from the file and carries
    a stamp after the cutoff.  [save_synced_events] stores the ledger it is
    given, whole. *)
Theorem C8_load_retention (data : gmap string Ledger.entry)
  (now cutoff : datetime) :
  Datetime.tzinfo now = None ->
  Datetime.sub_us now (Datetime.days 2) = Some cutoff ->
  (forall k v t,
     data !! k = Some v ->
     Ledger.synced_at v = Some (Datetime.isoformat t) ->
     Datetime.ok t = true -> Datetime.tzinfo t = None ->
     (Datetime.ltb t cutoff = true ->
      Ledger.load_synced_events (Ledger.Stored data) now !! k = None) /\
     (Datetime.ltb cutoff t = true ->
      Ledger.load_synced_events (Ledger.Stored data) now !! k = Some v) /\
     (Ledger.load_synced_events (Ledger.Stored data) now !! k = Some v <->
      Datetime.ltb cutoff t = true)) /\
  (forall k v,
     Ledger.load_synced_events (Ledger.Stored data) now !! k = Some v ->
     data !! k = Some v /\
     exists stamp, Ledger.synced_at v = Some stamp /\
                   PyStr.gtb stamp (Datetime.isoformat cutoff) = true) /\
  (forall synced, Ledger.save_synced_events synced = Ledger.Stored synced).
Proof.
  intros Hnaive Hcut.
  destruct (add_us_ok _ _ _ Hcut) as [Hok Hz]. rewrite Hnaive in Hz.
  unfold Ledger.load_synced_events. rewrite Hcut.
  split; [|split].
  - intros k v t Hk Hv Ht Hzt.
    pose proof (fresh_iff_after cutoff t v Hok Hz Ht Hzt Hv) as Hfresh.
    assert (Hiff : filter (λ kv, Ledger.fresh (Datetime.isoformat cutoff) kv.2 = true)
                     data !! k = Some v <-> Datetime.ltb cutoff t = true).
    { rewrite map_lookup_filter_Some. cbn. rewrite Hfresh. tauto. }
    split; [|split]; [| apply Hiff | exact Hiff].
    intros Hold. apply ltb_asym in Hold.
    apply map_lookup_filter_None. right. intros v' Hk'. cbn.
    rewrite Hk in Hk'. injection Hk' as <-. rewrite Hfresh. congruence.
  - intros k v [Hk Hf]%map_lookup_filter_Some. cbn in Hf.
    split; [exact Hk|]. unfold Ledger.fresh in Hf.
    destruct (Ledger.synced_at v) as [stamp|]; cbn in Hf.
    + by exists stamp.
    + unfold PyStr.gtb, PyStr.ltb in Hf.
      by destruct (Datetime.isoformat cutoff).
  - reflexivity.
Qed.

End Retention.

(** C8 at a file holding an entry stamped an hour before noon and one
    stamped three days before. *)
Lemma C8_witness :
  Ledger.load_synced_events Scenario.aged_file Scenario.noon !! "e0"
    = Some Scenario.recent_entry /\
  Ledger.load_synced_events Scenario.aged_file Scenario.noon !! "old" = None.
Proof.
  destruct (C8_load_retention
              {[ "e0" := Scenario.recent_entry; "old" := Scenario.aged_entry ]}
              Scenario.noon (Scenario.at_time 2024 12 30 12 0))
    as (Hstamped & _ & _); [reflexivity | vm_compute; reflexivity |].
  split.
  - apply (Hstamped "e0" Scenario.recent_entry (Scenario.at_time 2025 1 1 11 0));
      vm_compute; reflexivity.
  - apply (Hstamped "old" Scenario.aged_entry (Scenario.at_time 2024 12 29 12 0));
      vm_compute; reflexivity.
Defined.

(** ** Decoding of escaped text *)

Section Decoding.
Import Escaping.

(** One pass of [replace] over escaped text: the pass for the escape of [x]
    turns the pieces written as backslash-[x] into [y] and leaves the other
    pieces alone. *)
Lemma replace_pass (x : ascii) (y : string) (f g : ascii -> string) text :
  (forall c, c <> BACKSLASH ->
     (f c = String BACKSLASH (String x EmptyString) /\ g c = y) \/
     (f c = String c EmptyString /\ g c = f c) \/
     (exists e, e <> x /\ e <> BACKSLASH /\
                f c = String BACKSLASH (String e EmptyString) /\ g c = f c)) ->
  plain text = true ->
  PyStr.replace (String BACKSLASH (String x EmptyString)) y (pieces f text)
    = pieces g text.
Proof.
  intros Hpieces Hplain. unfold PyStr.replace.
  induction text as [|c text IH]; [reflexivity|].
  cbn [plain] in Hplain. apply andb_prop in Hplain as [Hc Hplain].
  apply negb_true_iff, bool_decide_eq_false in Hc.
  specialize (IH Hplain). cbn [pieces].
  destruct (Hpieces c Hc) as [[-> ->]|[[Hf ->]|(e & Hex & Heb & Hf & ->)]].
  - change (String BACKSLASH (String x EmptyString) +:+ ?s)
      with (String BACKSLASH (String x s)).
    cbn [PyStr.replace_go]. rewrite !prefix_cons.
    destruct (ascii_dec BACKSLASH BACKSLASH); [|done].
    destruct (ascii_dec x x); [|done]. rewrite prefix_empty.
    cbn [String.length Nat.pred PyStr.replace_go]. by rewrite IH.
  - rewrite Hf. change (String c EmptyString +:+ ?s) with (String c s).
    cbn [PyStr.replace_go]. rewrite prefix_cons.
    destruct (ascii_dec BACKSLASH c) as [<-|_]; [done|]. by rewrite IH.
  - rewrite Hf.
    change (String BACKSLASH (String e EmptyString) +:+ ?s)
      with (String BACKSLASH (String e s)).
    cbn [PyStr.replace_go]. rewrite !prefix_cons.
    destruct (ascii_dec BACKSLASH BACKSLASH); [|done].
    destruct (ascii_dec x e) as [->|_]; [done|].
    destruct (ascii_dec BACKSLASH e) as [<-|_]; [done|]. by rewrite IH.
Qed.

Lemma pieces_id text : pieces (λ c, String c EmptyString) text = text.
Proof.
  induction text as [|c text IH]; [reflexivity|]. cbn [pieces].
  change (String c EmptyString +:+ ?s) with (String c s). by rewrite IH.
Qed.

(** [decode] undoes the escaping of commas, semicolons and newlines in a
    text without backslashes. *)
Lemma decode_escape text :
  plain text = true -> Ical.decode (escape text) = text.
Proof.
  intros Hplain. unfold Ical.decode, escape, escape_with.
  rewrite (replace_pass ","%char "," _ (piece false true true)); [|
    intros c Hc; unfold piece; cbn [andb];
    destruct (bool_decide_reflect (c = ","%char)) as [->|?];
    [left; done|];
    destruct (bool_decide_reflect (c = ";"%char)) as [->|?];
    [right; right; exists ";"%char; done|];
    destruct (bool_decide_reflect (c = NEWLINE)) as [->|?];
    [right; right; exists "n"%char; done | right; left; done] | done].
  rewrite (replace_pass ";"%char ";" _ (piece false false true)); [|
    intros c Hc; unfold piece; cbn [andb];
    destruct (bool_decide_reflect (c = ";"%char)) as [->|?];
    [left; done|];
    destruct (bool_decide_reflect (c = NEWLINE)) as [->|?];
    [right; right; exists "n"%char; done | right; left; done] | done].
  rewrite (replace_pass "n"%char Ical.LF _ (piece false false false)); [|
    intros c Hc; unfold piece; cbn [andb];
    destruct (bool_decide_reflect (c = NEWLINE)) as [->|?];
    [left; done | right; left; done] | done].
  apply pieces_id.
Qed.

End Decoding.

(** ** Text fields of a feed event *)

(** When an iteration of the feed variant asks for a reminder for an event
    whose summary is the escaped form of a text without backslashes, the
    title carries that text, decoded; the body is built from the
    description and the location as the feed has them. *)
Lemma summary_decoded_in_title w now cutoff st event r result rest text :
  Run.trace (Run.state_of (Ical.step w now cutoff st event))
    = Run.trace st ++ Run.Create r result :: rest ->
  event !! "SUMMARY" = Some (Escaping.escape text) ->
  Escaping.plain text = true ->
  exists hm : string,
    Run.title r = "📅 " +:+ text +:+ " - " +:+ hm /\
    Run.body r =
      Ical.add_join ("Starts at " +:+ hm)
        [Ical.get event "DESCRIPTION" EmptyString;
         Ical.get event "LOCATION" EmptyString].
Proof.
  intros H Hsum Hplain.
  apply feed_step_request in H
    as (i & s & t & _ & _ & _ & _ & _ & _ & _ & _ & -> & _).
  exists (Datetime.strftime_HM s). cbn [Run.title Run.body].
  unfold Ical.get at 1. rewrite Hsum. cbn [default from_option id].
  by rewrite decode_escape.
Qed.

(** C7.  Only the summary goes through the three [replace] calls.  A run
    over a feed whose summary and description both carry escaped commas
    decodes the summary for the title and scans the description as the
    feed has it: the link in the body stops at the backslash of the
    escaped comma, where the decoded description holds the whole link.
    The location is scanned undecoded in the same way.  In the summary
    itself the upper-case form of the newline escape is left as it is, and
    an escaped backslash that stands before the letter n loses its second
    backslash and the n to a newline. *)
Theorem C7_description_scanned_undecoded :
  Ical.parse_ical Scenario.escaped_feed = [Scenario.escaped_block] /\
  Run.calls (Run.effects
     (Ical.sync_calendar Scenario.fresh_world
        (Ical.Content Scenario.escaped_feed)))
    = [Scenario.escaped_request] /\
  Run.title Scenario.escaped_request = "📅 Plan, review; Q1 - 14:00" /\
  Run.body Scenario.escaped_request
    = "Starts at 14:00" +:+ Ical.LF +:+
      "Join: https://zoom.us/j/1?names=ann" /\
  Ical.add_join "Starts at 14:00"
    [Ical.decode "Join https://zoom.us/j/1?names=ann\,bob"; EmptyString]
    = "Starts at 14:00" +:+ Ical.LF +:+
      "Join: https://zoom.us/j/1?names=ann,bob" /\
  Ical.add_join "Starts at 14:00"
    [EmptyString; "Room 4\; https://zoom.us/j/1?names=ann\,bob"]
    = "Starts at 14:00" +:+ Ical.LF +:+
      "Join: https://zoom.us/j/1?names=ann" /\
  Ical.decode "Agenda\NNotes" = "Agenda\NNotes" /\
  Ical.decode "C:\\new" = "C:\" +:+ Ical.LF +:+ "ew".
Proof. repeat apply conj; vm_compute; reflexivity. Qed.

(** ** The order of [datetime] values *)

Section DatetimeOrder.

Lemma lex_eq a : forall b, Datetime.lex a b = Eq -> a = b.
Proof.
  induction a as [|x a IH]; intros [|y b]; cbn [Datetime.lex]; try done.
  destruct (Z.compare_spec x y) as [->| |]; try done.
  by intros ->%IH.
Qed.

Lemma lex_trans a : forall b c,
  Datetime.lex a b = Lt -> Datetime.lex b c = Lt -> Datetime.lex a c = Lt.
Proof.
  induction a as [|x a IH]; intros [|y b] [|z c]; cbn [Datetime.lex];
    try done.
  destruct (Z.compare_spec x y) as [->|Hxy|]; try done.
  - destruct (Z.compare_spec y z); try done. apply IH.
  - destruct (Z.compare_spec y z) as [->|Hyz|]; try done; intros _ _.
    + by apply Z.compare_lt_iff in Hxy as ->.
    + assert (x < z) as ->%Z.compare_lt_iff by lia. done.
Qed.

(** [a < b] and [b <= c] give [a < c]. *)
Lemma ltb_le_trans a b c :
  Datetime.ltb a b = true -> Datetime.ltb c b = false ->
  Datetime.ltb a c = true.
Proof.
  unfold Datetime.ltb, Datetime.compare. intros Hab Hcb.
  destruct (Datetime.lex (Datetime.key a) (Datetime.key b)) eqn:Eab; try done.
  rewrite (lex_antisym (Datetime.key b) (Datetime.key c)) in Hcb.
  destruct (Datetime.lex (Datetime.key b) (Datetime.key c)) eqn:Ebc; try done.
  - apply lex_eq in Ebc. rewrite <- Ebc. by rewrite Eab.
  - by rewrite (lex_trans _ _ _ Eab Ebc).
Qed.

(** [a <= b] and [b < c] give [a < c]. *)
Lemma le_ltb_trans a b c :
  Datetime.ltb b a = false -> Datetime.ltb b c = true ->
  Datetime.ltb a c = true.
Proof.
  unfold Datetime.ltb, Datetime.compare. intros Hba Hbc.
  destruct (Datetime.lex (Datetime.key b) (Datetime.key c)) eqn:Ebc; try done.
  rewrite (lex_antisym (Datetime.key a) (Datetime.key b)) in Hba.
  destruct (Datetime.lex (Datetime.key a) (Datetime.key b)) eqn:Eab; try done.
  - apply lex_eq in Eab. rewrite Eab. by rewrite Ebc.
  - by rewrite (lex_trans _ _ _ Eab Ebc).
Qed.

(** [a <= b] and [b <= c] give [a <= c]. *)
Lemma le_le_trans a b c :
  Datetime.ltb b a = false -> Datetime.ltb c b = false ->
  Datetime.ltb c a = false.
Proof.
  intros Hba Hcb. destruct (Datetime.ltb c a) eqn:Hca; [|done].
  by rewrite (ltb_le_trans c a b Hca Hba) in Hcb.
Qed.

End DatetimeOrder.

(** ** Entries of the ledger during a run *)

Section LedgerGrowth.
Import Run.
Variable parse : string -> option datetime.

(** An invariant of the loop state that every iteration keeps holds after
    the loop. *)
Lemma for_each_invariant {E} (body : loop -> E -> step_result)
  (P : loop -> Prop) :
  (forall st e, P st -> P (state_of (body st e))) ->
  forall events st, P st -> P (state_of (for_each body st events)).
Proof.
  intros Hbody events. induction events as [|e events IH]; intros st HP;
    cbn [for_each]; [done|].
  specialize (Hbody st e HP). destruct (body st e) as [st'|st']; [|done].
  by apply IH.
Qed.

(** An iteration removes no entry and changes none. *)
Lemma feed_step_keeps_entries w now cutoff event st k v :
  synced_events st !! k = Some v ->
  synced_events (state_of (Ical.step w now cutoff st event)) !! k = Some v.
Proof.
  intros Hk.
  pose proof (step_quiet_or_request (λ _, None) w
                (Pass.OfFeed now cutoff event) st) as Hq.
  cbn [Pass.step] in Hq.
  destruct Hq as [(_ & -> & _)|(r & result & rest & H)]; [done|].
  apply feed_step_request in H
    as (i & s & t & _ & _ & _ & _ & _ & _ & Hnone & _ & _ & ->).
  destruct (bool_decide _); [|done].
  rewrite lookup_insert_ne; [done|congruence].
Qed.

Lemma api_step_keeps_entries w ev st k v :
  synced_events st !! k = Some v ->
  synced_events (state_of (Api.step parse w st ev)) !! k = Some v.
Proof.
  intros Hk.
  pose proof (step_quiet_or_request parse w (Pass.OfApi ev) st) as Hq.
  cbn [Pass.step] in Hq.
  destruct Hq as [(_ & -> & _)|(r & result & rest & H)]; [done|].
  apply api_step_request in H
    as (i & s & t & n & _ & _ & _ & _ & _ & _ & Hnone & _ & _ & ->).
  destruct (bool_decide _); [|done].
  rewrite lookup_insert_ne; [done|congruence].
Qed.

Lemma feed_loop_keeps_entries w now cutoff events st k :
  is_Some (synced_events st !! k) ->
  is_Some (synced_events
             (state_of (for_each (Ical.step w now cutoff) st events)) !! k).
Proof.
  apply (for_each_invariant (Ical.step w now cutoff)
           (λ st, is_Some (synced_events st !! k))).
  intros st' e [v Hv]. exists v. by apply feed_step_keeps_entries.
Qed.

Lemma api_loop_keeps_entries w events st k :
  is_Some (synced_events st !! k) ->
  is_Some (synced_events
             (state_of (for_each (Api.step parse w) st events)) !! k).
Proof.
  apply (for_each_invariant (Api.step parse w)
           (λ st, is_Some (synced_events st !! k))).
  intros st' e [v Hv]. exists v. by apply api_step_keeps_entries.
Qed.

(** An event whose id is in the ledger is passed over before the sink is
    asked. *)
Lemma recorded_event_skipped w it st i :
  Pass.id_of it = Some i -> is_Some (synced_events st !! i) ->
  trace (state_of (Pass.step parse w it st)) = trace st /\
  synced_events (state_of (Pass.step parse w it st)) = synced_events st.
Proof.
  intros Hi [v Hv].
  destruct (step_quiet_or_request parse w it st)
    as [(? & ? & _)|(r & result & rest & H)]; [done|exfalso].
  destruct it as [ev|now cutoff event]; cbn [Pass.step Pass.id_of] in *.
  - apply api_step_request in H
      as (i' & s & t & n & Hi' & _ & _ & _ & _ & _ & Hnone & _).
    congruence.
  - apply feed_step_request in H
      as (i' & s & t & Hi' & _ & _ & _ & _ & _ & Hnone & _).
    congruence.
Qed.

End LedgerGrowth.

(** ** The feed variant, run twice *)

Section FeedTwice.
Import Run.

Lemma feed_first_run_settles w now cutoff :
  Twice.sink_answers w ->
  forall events st st',
    for_each (Ical.step w now cutoff) st events = Next st' ->
    forall event, In event events ->
      Twice.feed_settled now cutoff (synced_events st') event.
Proof.
  intros Hsink events.
  induction events as [|e events IH]; intros st st' Hloop event Hin;
    [destruct Hin|].
  cbn [for_each] in Hloop.
  destruct (Ical.step w now cutoff st e) as [st1|st1] eqn:Hstep;
    [|discriminate].
  destruct Hin as [->|Hin]; [|by eapply IH].
  intros start_time Hid Hstart Hnow Hcut.
  assert (Hkeep : forall k, is_Some (synced_events st1 !! k) ->
                            is_Some (synced_events st' !! k)).
  { intros k Hk.
    pose proof (feed_loop_keeps_entries w now cutoff events st1 k Hk) as H.
    by rewrite Hloop in H. }
  unfold Ical.step in Hstep. rewrite Hid, Hstart, Hnow, Hcut in Hstep.
  cbn [negb orb] in Hstep.
  destruct (decide (is_Some (synced_events st !! _))) as [Hin|Hout].
  { injection Hstep as <-. left. by apply Hkeep. }
  destruct (Datetime.sub_us start_time _) as [remind_time|]; [|discriminate].
  destruct (Datetime.ltb remind_time now) eqn:Hpast.
  { right. by exists remind_time. }
  left. apply Hkeep.
  match type of Hstep with
  | context [reminders w ?c ?r] =>
      destruct (Hsink c r) as [Hr|Hr]; rewrite Hr in Hstep
  end.
  - rewrite decide_True in Hstep by done. injection Hstep as <-.
    rewrite synced_mark_synced. rewrite lookup_insert_eq. by eexists.
  - rewrite decide_False, decide_True in Hstep by done.
    injection Hstep as <-.
    rewrite synced_mark_synced. rewrite lookup_insert_eq. by eexists.
Qed.


(** With the ledger the first run left, and time not going backwards, no
    iteration of the second run changes the loop state. *)
Lemma feed_second_run_quiet w now1 cutoff1 now2 cutoff2 :
  Datetime.ltb now2 now1 = false ->
  forall events st,
    (forall event, In event events ->
       Twice.feed_settled now1 cutoff1 (synced_events st) event) ->
    (forall event start_time, In event events ->
       Ical.parse_ical_datetime (Ical.get event "DTSTART" EmptyString)
         = Some start_time ->
       Datetime.gtb start_time cutoff1 = true ->
       Datetime.gtb start_time cutoff2 = true) ->
    for_each (Ical.step w now2 cutoff2) st events = Next st.
Proof.
  intros Hclock events.
  induction events as [|e events IH]; intros st Hsettled Hreach; [done|].
  cbn [for_each].
  assert (Ical.step w now2 cutoff2 st e = Next st) as ->;
    [|apply IH; intros; [apply Hsettled | eapply Hreach]; by try right].
  specialize (Hsettled e (or_introl eq_refl)).
  specialize (Hreach e).
  unfold Ical.step.
  destruct (PyStr.truthy (Ical.get e "UID" EmptyString)) eqn:Hid; [|done].
  cbn [negb].
  destruct (Ical.parse_ical_datetime _) as [start_time|] eqn:Hstart; [|done].
  destruct (Datetime.ltb start_time now2) eqn:Hnow2; [done|].
  destruct (Datetime.gtb start_time cutoff2) eqn:Hcut2; [done|]. cbn [orb].
  destruct (decide (is_Some _)) as [|Hout]; [done|].
  destruct (Hsettled start_time Hid Hstart) as [?|(remind_time & -> & Hpast)];
    [| |done|].
  - exact (le_le_trans now1 now2 start_time Hclock Hnow2).
  - destruct (Datetime.gtb start_time cutoff1) eqn:Hcut1; [|done].
    specialize (Hreach start_time (or_introl eq_refl) eq_refl Hcut1).
    congruence.
  - by rewrite (ltb_le_trans remind_time now1 now2 Hpast Hclock).
Qed.

Lemma feed_sync_unfold w ical_content :
  Ical.sync_calendar w (Ical.Content ical_content) =
  let st := load w (emit EnsureList
                      (log "📥 Fetching calendar..." Ical.start_loop)) in
  let events := Ical.parse_ical ical_content in
  let st := log ("📅 Found " +:+ pretty (length events) +:+
                 " events in calendar") st in
  match Datetime.add_us (Twice.feed_now w)
          (Datetime.hours Ical.SYNC_HOURS_AHEAD) with
  | None => Ical.finish Crashed (state_file w) (tick st)
  | Some cutoff =>
      match for_each (Ical.step w (Twice.feed_now w) cutoff) (tick st)
              events with
      | Raise st => Ical.finish Crashed (state_file w) st
      | Next st =>
          mk_result Completed
            (trace st ++
             [Save (synced_events st);
              Log ("✅ Sync complete. Created " +:+
                   pretty (new_reminders st) +:+ " new reminders.")])
            (Ledger.Stored (synced_events st))
      end
  end.
Proof.
  unfold Ical.sync_calendar, Twice.feed_now, load.
  cbn [negb PyStr.truthy Ical.ICAL_URL].
  destruct (state_file w); cbn [ticks tick emit log trace];
    (destruct (Datetime.add_us _ _); [|reflexivity]);
    (destruct (for_each _ _ _); [|reflexivity]);
    unfold Ical.finish, Ledger.save_synced_events;
    cbn [trace log emit synced_events new_reminders];
    by rewrite <- app_assoc.
Qed.

Lemma feed_rerun parse w1 w2 ical_content :
  how (Ical.sync_calendar w1 (Ical.Content ical_content)) = Completed ->
  Twice.sink_answers w1 ->
  state_file w2
    = file_after (Ical.sync_calendar w1 (Ical.Content ical_content)) ->
  Twice.nothing_expired w2 ->
  Twice.not_earlier parse w1 w2 (Twice.Feed ical_content) ->
  how (Ical.sync_calendar w2 (Ical.Content ical_content)) = Completed /\
  file_after (Ical.sync_calendar w2 (Ical.Content ical_content))
    = file_after (Ical.sync_calendar w1 (Ical.Content ical_content)) /\
  calls (effects (Ical.sync_calendar w2 (Ical.Content ical_content))) = [].
Proof.
  intros Hdone Hsink Hfile Hkept (Hclock & cutoff2 & Hcut2 & Hreach).
  rewrite feed_sync_unfold in Hdone, Hfile. cbv zeta in Hdone, Hfile.
  destruct (Datetime.add_us (Twice.feed_now w1) _) as [cutoff1|] eqn:Hcut1;
    [|discriminate].
  destruct (for_each (Ical.step w1 _ _) _ _) as [st1|] eqn:Hloop1;
    [|discriminate].
  cbn [file_after] in Hfile.
  pose proof (feed_first_run_settles w1 _ _ Hsink _ _ _ Hloop1) as Hsettled.
  rewrite !feed_sync_unfold. cbv zeta. rewrite Hcut1, Hloop1, Hcut2.
  cbn [file_after].
  assert (Hload : synced_events
            (load w2 (emit EnsureList
                        (log "📥 Fetching calendar..." Ical.start_loop)))
          = synced_events st1).
  { unfold load. rewrite Hfile. cbn [synced_events tick].
    exact (Hkept _ Hfile). }
  rewrite feed_second_run_quiet with (now1 := Twice.feed_now w1)
                                     (cutoff1 := cutoff1).
  - cbn [how file_after effects synced_events tick log emit].
    rewrite Hload. repeat apply conj; try reflexivity.
    unfold load. rewrite Hfile. reflexivity.
  - exact Hclock.
  - cbn [synced_events tick log emit]. rewrite Hload. exact Hsettled.
  - intros event start_time Hin. by apply Hreach.
Qed.

End FeedTwice.

(** ** The authenticated-API variant, run twice *)

Section ApiTwice.
Import Run.
Variable parse : string -> option datetime.

Lemma api_first_run_settles w :
  Twice.sink_answers w ->
  forall events st st',
    for_each (Api.step parse w) st events = Next st' ->
    forall ev, In ev events ->
      Twice.api_settled parse w (synced_events st') ev.
Proof.
  intros Hsink events.
  induction events as [|e events IH]; intros st st' Hloop ev Hin;
    [destruct Hin|].
  cbn [for_each] in Hloop.
  destruct (Api.step parse w st e) as [st1|st1] eqn:Hstep; [|discriminate].
  destruct Hin as [->|Hin]; [|by eapply IH].
  assert (Hkeep : forall k, is_Some (synced_events st1 !! k) ->
                            is_Some (synced_events st' !! k)).
  { intros k Hk.
    pose proof (api_loop_keeps_entries parse w events st1 k Hk) as H.
    by rewrite Hloop in H. }
  unfold Api.step in Hstep. unfold Twice.api_settled.
  destruct (Api.id ev) as [event_id|]; [|discriminate].
  exists event_id. split; [done|].
  cbv zeta. intros start_time Hday Hcancel Htimed Hstart.
  rewrite Hday, Hcancel, Htimed, Hstart in Hstep. cbn [negb] in Hstep.
  destruct (Datetime.sub_us start_time _) as [remind_time|]; [|discriminate].
  destruct (Api.now_for w start_time _) as [now|] eqn:Hnow; [|discriminate].
  exists remind_time, (ticks st), now. do 2 (split; [done|]).
  destruct (Datetime.ltb remind_time now) eqn:Hpast; [by right|].
  left. apply Hkeep.
  destruct (decide (is_Some _)) as [Hin|Hout].
  { by injection Hstep as <-. }
  match type of Hstep with
  | context [reminders w ?c ?r] =>
      destruct (Hsink c r) as [Hr|Hr]; rewrite Hr in Hstep
  end.
  - rewrite decide_True in Hstep by done. injection Hstep as <-.
    rewrite synced_mark_synced. rewrite lookup_insert_eq. by eexists.
  - rewrite decide_False, decide_True in Hstep by done.
    injection Hstep as <-.
    rewrite synced_mark_synced. rewrite lookup_insert_eq. by eexists.
Qed.

(** With the ledger the first run left, and time not going backwards, no
    iteration of the second run asks the sink or touches the ledger. *)
Lemma api_second_run_quiet w1 w2 :
  forall events st,
    (forall ev, In ev events ->
       Twice.api_settled parse w1 (synced_events st) ev) ->
    Twice.not_earlier parse w1 w2 (Twice.Calendar events) ->
    exists st',
      for_each (Api.step parse w2) st events = Next st' /\
      synced_events st' = synced_events st /\ trace st' = trace st /\
      new_reminders st' = new_reminders st.
Proof.
  induction events as [|e events IH]; intros st Hsettled Hclock;
    [by exists st|].
  cbn [for_each].
  assert (exists st1, Api.step parse w2 st e = Next st1 /\
            synced_events st1 = synced_events st /\ trace st1 = trace st /\
            new_reminders st1 = new_reminders st)
    as (st1 & -> & Hs1 & Ht1 & Hn1).
  { pose proof (Hsettled e (or_introl eq_refl)) as Hev.
    pose proof (Hclock e) as Hnow.
    clear Hsettled Hclock IH. unfold Api.step.
    destruct (Api.id e) as [event_id|] eqn:Hid;
      [|destruct Hev as (? & ? & _); congruence].
    destruct (_ && _) eqn:Hday; [by exists st|].
    destruct (bool_decide (Api.status e = _)) eqn:Hcancel; [by exists st|].
    destruct (PyStr.truthy _) eqn:Htimed; [|by exists st]. cbn [negb].
    destruct (parse _) as [start_time|] eqn:Hstart; [|by exists st].
    destruct Hev as (event_id' & Hid' & Hev).
    assert (event_id' = event_id) as -> by congruence.
    destruct (Hev start_time Hday Hcancel Htimed Hstart)
      as (remind_time & j & now1 & -> & Hnow1 & Hwhy).
    destruct (Hnow start_time j (ticks st) now1 (or_introl eq_refl)
                Hstart Hnow1) as (now2 & -> & Hle).
    destruct Hwhy as [Hin|Hpast].
    - destruct (Datetime.ltb remind_time now2); [by exists (tick st)|].
      rewrite decide_True by done. by exists (tick st).
    - rewrite (ltb_le_trans remind_time now1 now2 Hpast Hle).
      by exists (tick st). }
  destruct (IH st1) as (st' & -> & Hs & Ht & Hn).
  - rewrite Hs1. intros ev Hin. apply Hsettled. by right.
  - intros ev start_time j k now1 Hin. apply Hclock. by right.
  - exists st'. repeat apply conj; congruence.
Qed.

Lemma api_sync_unfold w events :
  Api.sync_calendar parse w Api.Service (Api.Items events) =
  match for_each (Api.step parse w)
          (load w (emit EnsureList Api.start_loop)) events with
  | Raise st => Api.finish Crashed (state_file w) st
  | Next st =>
      mk_result Completed
        (trace st ++
         [Save (synced_events st);
          Log ("✅ Sync complete. Created " +:+
               pretty (new_reminders st) +:+ " new reminders.")])
        (Ledger.Stored (synced_events st))
  end.
Proof.
  unfold Api.sync_calendar.
  destruct (for_each _ _ _); [|reflexivity].
  unfold Api.finish, Ledger.save_synced_events.
  cbn [trace log emit synced_events new_reminders].
  by rewrite <- app_assoc.
Qed.

Lemma api_rerun w1 w2 events :
  how (Api.sync_calendar parse w1 Api.Service (Api.Items events))
    = Completed ->
  Twice.sink_answers w1 ->
  state_file w2
    = file_after (Api.sync_calendar parse w1 Api.Service (Api.Items events)) ->
  Twice.nothing_expired w2 ->
  Twice.not_earlier parse w1 w2 (Twice.Calendar events) ->
  how (Api.sync_calendar parse w2 Api.Service (Api.Items events))
    = Completed /\
  file_after (Api.sync_calendar parse w2 Api.Service (Api.Items events))
    = file_after (Api.sync_calendar parse w1 Api.Service (Api.Items events)) /\
  calls (effects
           (Api.sync_calendar parse w2 Api.Service (Api.Items events))) = [].
Proof.
  intros Hdone Hsink Hfile Hkept Hclock.
  rewrite api_sync_unfold in Hdone, Hfile.
  destruct (for_each (Api.step parse w1) _ _) as [st1|] eqn:Hloop1;
    [|discriminate].
  cbn [file_after] in Hfile.
  pose proof (api_first_run_settles w1 Hsink _ _ _ Hloop1) as Hsettled.
  rewrite !api_sync_unfold. rewrite Hloop1. cbn [file_after].
  assert (Hload : synced_events (load w2 (emit EnsureList Api.start_loop))
                  = synced_events st1).
  { unfold load. rewrite Hfile. cbn [synced_events tick].
    exact (Hkept _ Hfile). }
  destruct (api_second_run_quiet w1 w2 events
              (load w2 (emit EnsureList Api.start_loop)))
    as (st2 & -> & Hs & Ht & _); [by rewrite Hload | done |].
  cbn [how file_after effects]. rewrite Hs, Ht, Hload.
  repeat apply conj; try reflexivity.
  unfold load. rewrite Hfile. reflexivity.
Qed.

End ApiTwice.

(** ** Two runs in succession *)

Section Rerun.
Import Run.
Variable parse : string -> option datetime.

(** C9, as amended.  Two runs in succession over the same calendar data,
    in either variant: when the first run completes and its sink answered
    every request with [created] or [exists], the second run starts from
    the state file the first one saved with no entry past the retention
    window, time does not go backwards and no event comes into reach
    between the runs, then the second run completes without asking the
    sink for anything and saves the same ledger as the first. *)
Theorem C9_rerun_keeps_ledger w1 w2 src :
  how (Twice.sync_calendar parse w1 src) = Completed ->
  Twice.sink_answers w1 ->
  state_file w2 = file_after (Twice.sync_calendar parse w1 src) ->
  Twice.nothing_expired w2 ->
  Twice.not_earlier parse w1 w2 src ->
  how (Twice.sync_calendar parse w2 src) = Completed /\
  file_after (Twice.sync_calendar parse w2 src)
    = file_after (Twice.sync_calendar parse w1 src) /\
  calls (effects (Twice.sync_calendar parse w2 src)) = [].
Proof.
  destruct src as [ical_content|events]; cbn [Twice.sync_calendar].
  - apply feed_rerun.
  - apply api_rerun.
Qed.

End Rerun.

(** The idempotence as stated fails in two ways.  An event beyond the
    24-hour cutoff of the first run is inside the cutoff of the second,
    five minutes later, and is recorded then.  An event whose request
    failed in the first run is asked for again in the second and recorded
    then. *)
Lemma C9_second_run_extends_ledger :
  ~ Twice.stated_idempotence Scenario.parse_start Scenario.fresh_world
      (Scenario.second_world
         (Ical.sync_calendar Scenario.fresh_world
            (Ical.Content Scenario.tomorrow_feed)))
      (Twice.Feed Scenario.tomorrow_feed) /\
  ~ Twice.stated_idempotence Scenario.parse_start Scenario.down_world
      (Scenario.second_world
         (Ical.sync_calendar Scenario.down_world
            (Ical.Content Scenario.today_feed)))
      (Twice.Feed Scenario.today_feed).
Proof.
  split; intros Hclaim; unfold Twice.stated_idempotence in Hclaim.
  - assert (Hsame : Run.file_after
              (Twice.sync_calendar Scenario.parse_start
                 (Scenario.second_world
                    (Ical.sync_calendar Scenario.fresh_world
                       (Ical.Content Scenario.tomorrow_feed)))
                 (Twice.Feed Scenario.tomorrow_feed))
            = Run.file_after
                (Twice.sync_calendar Scenario.parse_start Scenario.fresh_world
                   (Twice.Feed Scenario.tomorrow_feed))).
    { apply Hclaim;
        [vm_compute; reflexivity | vm_compute; reflexivity |
        | intros earlier r; reflexivity].
      intros data Hdata. vm_compute in Hdata. injection Hdata as <-.
      vm_compute. reflexivity. }
    vm_compute in Hsame. discriminate Hsame.
  - assert (Hsame : Run.file_after
              (Twice.sync_calendar Scenario.parse_start
                 (Scenario.second_world
                    (Ical.sync_calendar Scenario.down_world
                       (Ical.Content Scenario.today_feed)))
                 (Twice.Feed Scenario.today_feed))
            = Run.file_after
                (Twice.sync_calendar Scenario.parse_start Scenario.down_world
                   (Twice.Feed Scenario.today_feed))).
    { apply Hclaim;
        [vm_compute; reflexivity | vm_compute; reflexivity |
        | intros earlier r; reflexivity].
      intros data Hdata. vm_compute in Hdata. injection Hdata as <-.
      vm_compute. reflexivity. }
    vm_compute in Hsame. discriminate Hsame.
Qed.

(** C9 at a feed with a meeting at 14:00: the first run, at noon, creates
    the reminder; the second, five minutes later, leaves the ledger as it
    is. *)
Lemma C9_witness :
  Run.how (Twice.sync_calendar Scenario.parse_start
             (Scenario.second_world
                (Twice.sync_calendar Scenario.parse_start Scenario.fresh_world
                   (Twice.Feed Scenario.today_feed)))
             (Twice.Feed Scenario.today_feed)) = Run.Completed /\
  Run.file_after (Twice.sync_calendar Scenario.parse_start
             (Scenario.second_world
                (Twice.sync_calendar Scenario.parse_start Scenario.fresh_world
                   (Twice.Feed Scenario.today_feed)))
             (Twice.Feed Scenario.today_feed))
    = Run.file_after
        (Twice.sync_calendar Scenario.parse_start Scenario.fresh_world
           (Twice.Feed Scenario.today_feed)) /\
  Run.calls (Run.effects (Twice.sync_calendar Scenario.parse_start
             (Scenario.second_world
                (Twice.sync_calendar Scenario.parse_start Scenario.fresh_world
                   (Twice.Feed Scenario.today_feed)))
             (Twice.Feed Scenario.today_feed))) = [].
Proof.
  apply (C9_rerun_keeps_ledger Scenario.parse_start Scenario.fresh_world
           (Scenario.second_world
              (Twice.sync_calendar Scenario.parse_start Scenario.fresh_world
                 (Twice.Feed Scenario.today_feed)))
           (Twice.Feed Scenario.today_feed)).
  - vm_compute. reflexivity.
  - intros earlier r. cbn. unfold Scenario.reminders_app.
    destruct (Scenario.holds _ _); [by right | by left].
  - vm_compute. reflexivity.
  - intros data Hdata. vm_compute in Hdata. injection Hdata as <-.
    vm_compute. reflexivity.
  - split; [vm_compute; reflexivity|].
    exists (Scenario.at_time 2025 1 2 12 5). split; [vm_compute; reflexivity|].
    intros cutoff1 event start_time Hcut Hin Hstart Hbeyond.
    vm_compute in Hcut. injection Hcut as <-.
    vm_compute in Hin. destruct Hin as [<-|[]].
    vm_compute in Hstart. injection Hstart as <-.
    vm_compute in Hbeyond. discriminate Hbeyond.
Defined.

(** ** What one iteration does *)

Section StepOutcome.
Import Run.
Variable parse : string -> option datetime.

Ltac loop_simpl_goal :=
  cbn [state_of trace tick emit log count_reminder record mark_synced
       synced_events ticks new_reminders Pass.step].

Ltac settle_answer :=
  repeat match goal with
  | H : ?x = "created" |- context [bool_decide (?x = "created")] =>
      rewrite (bool_decide_eq_true_2 (x = "created") H)
  | H : ?x <> "created" |- context [bool_decide (?x = "created")] =>
      rewrite (bool_decide_eq_false_2 (x = "created") H)
  | H : ?x = "exists" |- context [bool_decide (?x = "exists")] =>
      rewrite (bool_decide_eq_true_2 (x = "exists") H)
  | H : ?x <> "exists" |- context [bool_decide (?x = "exists")] =>
      rewrite (bool_decide_eq_false_2 (x = "exists") H)
  end.

(** An iteration makes no request and leaves the loop variables alone, or
    makes one request for its event, whose id is not in the ledger, and
    then logs and records according to the answer. *)
Lemma step_outcome w it st :
  (trace (state_of (Pass.step parse w it st)) = trace st /\
   synced_events (state_of (Pass.step parse w it st)) = synced_events st /\
   new_reminders (state_of (Pass.step parse w it st)) = new_reminders st) \/
  exists r result logs,
    trace (state_of (Pass.step parse w it st))
      = trace st ++ Create r result :: logs /\
    Pass.id_of it = Some (event_id r) /\
    synced_events st !! event_id r = None /\
    result = reminders w (calls (trace st)) r /\
    (forall e, In e logs -> exists m, e = Log m) /\
    new_reminders (state_of (Pass.step parse w it st)) =
      (if bool_decide (result = "created") then S (new_reminders st)
       else new_reminders st) /\
    (if Audit.confirms result
     then exists entry,
            synced_events (state_of (Pass.step parse w it st))
              = <[event_id r := entry]> (synced_events st)
     else synced_events (state_of (Pass.step parse w it st))
            = synced_events st).
Proof.
  destruct it as [ev|now cutoff event]; cbn [Pass.step Pass.id_of];
    [unfold Api.step | unfold Ical.step];
    repeat case_match; loop_simpl_goal;
    try (left; repeat apply conj; reflexivity); right.
  all: try match goal with
       | E : negb (PyStr.truthy (Ical.get _ "UID" EmptyString)) = false |- _ =>
           apply feed_uid in E
       end.
  all: eexists _, _, _; cbn [event_id]; unfold Audit.confirms.
  all: repeat apply conj;
    [ rewrite <- ?app_assoc; reflexivity
    | first [reflexivity | eassumption]
    | apply eq_None_not_Some; eassumption
    | reflexivity
    | intros e' Hin; repeat (destruct Hin as [<-|Hin]; [by eexists|]);
      destruct Hin
    | cbn [tick trace] in *; settle_answer; reflexivity
    | cbn [tick trace] in *; settle_answer; cbn [orb];
      first [reflexivity | by eexists] ].
Qed.

End StepOutcome.

(** ** Invariants of the loop over the events *)

Section LoopInvariant.
Import Run.
Variable parse : string -> option datetime.

Lemma saves_app a b : Audit.saves (a ++ b) = Audit.saves a ++ Audit.saves b.
Proof. apply omap_app. Qed.

Lemma confirmed_app a b :
  Audit.confirmed (a ++ b) = Audit.confirmed a ++ Audit.confirmed b.
Proof. apply omap_app. Qed.

Lemma created_count_app a b :
  Audit.created_count (a ++ b)
    = (Audit.created_count a + Audit.created_count b)%nat.
Proof. unfold Audit.created_count. by rewrite omap_app, length_app. Qed.

Lemma calls_app a b : calls (a ++ b) = calls a ++ calls b.
Proof. apply omap_app. Qed.

(** Log lines count for nothing in a trace. *)
Lemma logs_silent logs :
  (forall e, In e logs -> exists m, e = Log m) ->
  Audit.saves logs = [] /\ Audit.confirmed logs = [] /\
  Audit.created_count logs = 0%nat /\ calls logs = [].
Proof.
  induction logs as [|e logs IH]; intros Hlogs; [done|].
  destruct (Hlogs e (or_introl eq_refl)) as [m ->].
  destruct IH as (? & ? & ? & ?); [intros; apply Hlogs; by right|].
  by repeat apply conj.
Qed.

Lemma confirmed_create r result :
  Audit.confirmed [Create r result]
    = if Audit.confirms result then [event_id r] else [].
Proof. unfold Audit.confirmed. cbn. by destruct (Audit.confirms result). Qed.

Lemma created_count_create r result :
  Audit.created_count [Create r result]
    = if bool_decide (result = "created") then 1%nat else 0%nat.
Proof.
  unfold Audit.created_count. cbn. by destruct (bool_decide _).
Qed.

Lemma step_keeps_loop_inv w it loaded st :
  Audit.loop_inv loaded st ->
  Audit.loop_inv loaded (state_of (Pass.step parse w it st)).
Proof.
  intros (Hsave & Hcount & Hkeep & Hdom & Hnodup & Hfresh).
  destruct (step_outcome parse w it st)
    as [(Ht & Hs & Hn)|(r & result & logs & Ht & _ & Hnone & _ & Hlogs & Hn & Hs)].
  { unfold Audit.loop_inv. rewrite Ht, Hs, Hn. by repeat apply conj. }
  destruct (logs_silent logs Hlogs) as (Hl1 & Hl2 & Hl3 & _).
  assert (Hnew : ~ In (event_id r) (Audit.confirmed (trace st))).
  { intros Hin. assert (is_Some (synced_events st !! event_id r)) as [? ?]
      by (apply Hdom; by right). congruence. }
  assert (Hload : loaded !! event_id r = None).
  { destruct (loaded !! event_id r) as [v|] eqn:E; [|done].
    apply Hkeep in E. congruence. }
  unfold Audit.loop_inv.
  rewrite Ht, saves_app, confirmed_app, created_count_app, Hsave, Hn, Hcount.
  change (Create r result :: logs) with ([Create r result] ++ logs).
  rewrite saves_app, confirmed_app, created_count_app, Hl1, Hl2, Hl3.
  rewrite confirmed_create, created_count_create.
  change (Audit.saves [Create r result]) with (@nil (gmap string Ledger.entry)).
  cbn [app]. rewrite !app_nil_r.
  repeat apply conj.
  - done.
  - destruct (bool_decide (result = "created")); lia.
  - intros k v Hk. specialize (Hkeep k v Hk).
    destruct (Audit.confirms result); [|by rewrite Hs].
    destruct Hs as [entry ->]. rewrite lookup_insert_ne; [done|congruence].
  - intros k. destruct (Audit.confirms result).
    + destruct Hs as [entry ->]. rewrite in_app_iff. cbn [In].
      destruct (decide (event_id r = k)) as [<-|Hne].
      * rewrite lookup_insert_eq. split; [intros _; right; right; by left|].
        by eexists.
      * rewrite lookup_insert_ne by done. rewrite Hdom. tauto.
    + rewrite Hs, app_nil_r. apply Hdom.
  - destruct (Audit.confirms result); [|by rewrite app_nil_r].
    apply NoDup_app. repeat split; [done| |apply NoDup_singleton].
    intros k Hk ->%list_elem_of_singleton. by apply Hnew, list_elem_of_In.
  - intros k. destruct (Audit.confirms result);
      [|rewrite app_nil_r; apply Hfresh].
    rewrite in_app_iff. intros [Hin|[<-|[]]]; [by apply Hfresh|done].
Qed.

Lemma feed_loop_inv w now cutoff loaded events st :
  Audit.loop_inv loaded st ->
  Audit.loop_inv loaded
    (state_of (for_each (Ical.step w now cutoff) st events)).
Proof.
  apply (for_each_invariant (Ical.step w now cutoff) (Audit.loop_inv loaded)).
  intros st' e. apply (step_keeps_loop_inv w (Pass.OfFeed now cutoff e)).
Qed.

Lemma api_loop_inv w loaded events st :
  Audit.loop_inv loaded st ->
  Audit.loop_inv loaded (state_of (for_each (Api.step parse w) st events)).
Proof.
  apply (for_each_invariant (Api.step parse w) (Audit.loop_inv loaded)).
  intros st' e. apply (step_keeps_loop_inv w (Pass.OfApi e)).
Qed.

End LoopInvariant.

(** ** Invariants of a whole run *)

Section RunInvariants.
Import Run.
Variable parse : string -> option datetime.

(** The loop state when the loop over the events starts. *)
Lemma feed_loop_start w n :
  Audit.loop_inv (Audit.loaded w)
    (tick (log n (load w (emit EnsureList
                            (log "📥 Fetching calendar..." Ical.start_loop))))).
Proof.
  unfold Audit.loop_inv, Audit.loaded, load.
  destruct (state_file w); cbn [trace synced_events new_reminders tick log
                                emit ticks Ical.start_loop];
    change (Audit.confirmed _) with (@nil string);
    (repeat apply conj;
       [reflexivity | reflexivity | done | | apply NoDup_nil
       | intros k []]);
    first [exact I | intros k; cbn [In]; tauto].
Qed.

Lemma api_loop_start w :
  Audit.loop_inv (Audit.loaded w) (load w (emit EnsureList Api.start_loop)).
Proof.
  unfold Audit.loop_inv, Audit.loaded, load.
  destruct (state_file w); cbn [trace synced_events new_reminders tick log
                                emit ticks Api.start_loop];
    change (Audit.confirmed _) with (@nil string);
    (repeat apply conj;
       [reflexivity | reflexivity | done | | apply NoDup_nil
       | intros k []]);
    first [exact I | intros k; cbn [In]; tauto].
Qed.

(** The invariant at the end of the loop of either variant, for calendar
    data that was fetched. *)
Lemma run_loop_inv w src :
  exists st,
    Audit.loop_inv (Audit.loaded w) st /\
    match how (Twice.sync_calendar parse w src) with
    | Completed =>
        Twice.sync_calendar parse w src =
          mk_result Completed
            (trace st ++
             [Save (synced_events st);
              Log ("✅ Sync complete. Created " +:+
                   pretty (new_reminders st) +:+ " new reminders.")])
            (Ledger.Stored (synced_events st))
    | _ =>
        effects (Twice.sync_calendar parse w src) = trace st /\
        file_after (Twice.sync_calendar parse w src) = state_file w
    end.
Proof.
  destruct src as [ical_content|events]; cbn [Twice.sync_calendar].
  - rewrite feed_sync_unfold. cbv zeta.
    destruct (Datetime.add_us _ _) as [cutoff|].
    + match goal with
      | |- context [for_each _ ?s ?e] =>
          pose proof (feed_loop_inv parse w (Twice.feed_now w) cutoff
                        (Audit.loaded w) e s (feed_loop_start w _)) as Hinv
      end.
      destruct (for_each _ _ _) as [st|st]; exists st; by split.
    + eexists. split; [apply feed_loop_start|]. by split.
  - rewrite api_sync_unfold.
    pose proof (api_loop_inv parse w (Audit.loaded w) events _
                  (api_loop_start w)) as Hinv.
    destruct (for_each _ _ _) as [st|st]; exists st; by split.
Qed.

End RunInvariants.

(** ** Properties of a whole run *)

Section RunProperties.
Import Run.
Variable parse : string -> option datetime.

Lemma trace_tail_silent (tr : list effect) m message :
  Audit.confirmed (tr ++ [Save m; Log message]) = Audit.confirmed tr /\
  Audit.created_count (tr ++ [Save m; Log message]) = Audit.created_count tr /\
  calls (tr ++ [Save m; Log message]) = calls tr.
Proof.
  rewrite confirmed_app, created_count_app, calls_app.
  change (Audit.confirmed [Save m; Log message]) with (@nil string).
  change (Audit.created_count [Save m; Log message]) with 0%nat.
  change (calls [Save m; Log message]) with (@nil request).
  rewrite !app_nil_r. repeat split. lia.
Qed.

Lemma fetched_saved_last w src :
  Audit.saved_last (Twice.sync_calendar parse w src).
Proof.
  unfold Audit.saved_last.
  destruct (run_loop_inv parse w src) as (st & (Hsave & _) & Hrun).
  destruct (how (Twice.sync_calendar parse w src)).
  2-4: destruct Hrun as [He Hf]; by rewrite He.
  rewrite Hrun. cbn [effects]. by eexists _, _, _.
Qed.

(** A run of the feed variant over fetched content, as a run over
    calendar data. *)
Lemma twice_feed w ical_content :
  Twice.sync_calendar parse w (Twice.Feed ical_content) =
  Ical.sync_calendar w (Ical.Content ical_content).
Proof. reflexivity. Qed.

(** X1.  The ledger is saved at the end of a run only, never while the
    loop over the events is under way.  In both variants and however the
    calendar source answers: a run that completes has called
    [save_synced_events] once, and only its closing log line follows that
    call; a run that ended earlier (it returned after a failed fetch or a
    failed connection, it exited for want of credentials, or an exception
    of the listing, of a missing event id or of the date arithmetic ended
    it) has not called it, whatever reminders it had created. *)
Theorem X1_ledger_saved_only_at_end :
  (forall w feed, Audit.saved_last (Ical.sync_calendar w feed)) /\
  (forall w conn fetch,
     Audit.saved_last (Api.sync_calendar parse w conn fetch)).
Proof.
  split.
  - intros w [ical_content|e].
    + rewrite <- twice_feed.
      apply (fetched_saved_last w (Twice.Feed ical_content)).
    + reflexivity.
  - intros w [|e|] fetch; try reflexivity.
    destruct fetch as [events|e].
    + apply (fetched_saved_last w (Twice.Calendar events)).
    + unfold Audit.saved_last, Api.sync_calendar, load.
      by destruct (state_file w).
Qed.

(** X2.  When a run over fetched calendar data completes, the ledger it
    saves holds every entry it loaded, unchanged, and its keys are exactly
    the loaded keys and the ids of the requests that the sink confirmed in
    this run. *)
Theorem X2_saved_ledger_accounted w src :
  how (Twice.sync_calendar parse w src) = Completed ->
  exists saved,
    file_after (Twice.sync_calendar parse w src) = Ledger.Stored saved /\
    (forall k v, Audit.loaded w !! k = Some v -> saved !! k = Some v) /\
    (forall k, is_Some (saved !! k) <->
               is_Some (Audit.loaded w !! k) \/
               In k (Audit.confirmed
                       (effects (Twice.sync_calendar parse w src)))).
Proof.
  intros Hdone.
  destruct (run_loop_inv parse w src) as (st & (_ & _ & Hkeep & Hdom & _) & Hrun).
  rewrite Hdone in Hrun. rewrite Hrun. cbn [effects file_after].
  exists (synced_events st). split; [done|]. split; [done|].
  intros k. destruct (trace_tail_silent (trace st) (synced_events st)
    ("✅ Sync complete. Created " +:+ pretty (new_reminders st) +:+
     " new reminders.")) as (-> & _). apply Hdom.
Qed.

(** X3.  In a run over fetched calendar data no event id is confirmed by
    the sink twice, and no confirmed id was in the ledger that the run
    loaded. *)
Theorem X3_confirmed_once_and_new w src :
  NoDup (Audit.confirmed (effects (Twice.sync_calendar parse w src))) /\
  (forall k,
     In k (Audit.confirmed (effects (Twice.sync_calendar parse w src))) ->
     Audit.loaded w !! k = None).
Proof.
  destruct (run_loop_inv parse w src)
    as (st & (_ & _ & _ & _ & Hnodup & Hfresh) & Hrun).
  destruct (how (Twice.sync_calendar parse w src)).
  2-4: destruct Hrun as [He _]; rewrite He; by split.
  rewrite Hrun. cbn [effects].
  destruct (trace_tail_silent (trace st) (synced_events st)
    ("✅ Sync complete. Created " +:+ pretty (new_reminders st) +:+
     " new reminders.")) as (-> & _). by split.
Qed.

(** X4.  The closing log line of a completed run reports the number of
    requests that the sink answered with [created] in that run. *)
Theorem X4_closing_line_counts_created w src :
  how (Twice.sync_calendar parse w src) = Completed ->
  last (effects (Twice.sync_calendar parse w src)) =
    Some (Log ("✅ Sync complete. Created " +:+
               pretty (Audit.created_count
                         (effects (Twice.sync_calendar parse w src))) +:+
               " new reminders.")).
Proof.
  intros Hdone.
  destruct (run_loop_inv parse w src) as (st & (_ & Hcount & _) & Hrun).
  rewrite Hdone in Hrun. rewrite Hrun. cbn [effects].
  destruct (trace_tail_silent (trace st) (synced_events st)
    ("✅ Sync complete. Created " +:+ pretty (new_reminders st) +:+
     " new reminders.")) as (_ & -> & _).
  rewrite <- Hcount.
  change (?a ++ [?x; ?y]) with (a ++ [x] ++ [y]).
  by rewrite !app_assoc, last_snoc.
Qed.

(** The requests of a loop come from its events. *)
Lemma for_each_calls_origin {E} (body : loop -> E -> step_result)
  (P : E -> request -> Prop) :
  (forall st e r,
     In r (calls (trace (state_of (body st e)))) ->
     In r (calls (trace st)) \/ P e r) ->
  forall events st r,
    In r (calls (trace (state_of (for_each body st events)))) ->
    In r (calls (trace st)) \/ exists e, In e events /\ P e r.
Proof.
  intros Hbody events. induction events as [|e events IH]; intros st r Hr;
    cbn [for_each state_of] in Hr; [by left|].
  specialize (Hbody st e r).
  destruct (body st e) as [st'|st']; cbn [state_of] in *.
  - destruct (IH st' r Hr) as [Hin|(e' & Hin & HP)].
    + destruct (Hbody Hin) as [?|?]; [by left|]. right. exists e.
      split; [by left|done].
    + right. exists e'. split; [by right|done].
  - destruct (Hbody Hr) as [?|?]; [by left|]. right. exists e.
    split; [by left|done].
Qed.

(** The requests after an iteration are those before it and, at most, the
    one it made. *)
Lemma step_calls w it st :
  calls (trace (state_of (Pass.step parse w it st))) = calls (trace st) \/
  exists r result rest,
    trace (state_of (Pass.step parse w it st))
      = trace st ++ Create r result :: rest /\
    calls (trace (state_of (Pass.step parse w it st)))
      = calls (trace st) ++ [r].
Proof.
  destruct (step_outcome parse w it st)
    as [(-> & _)|(r & result & logs & Ht & _ & _ & _ & Hlogs & _)];
    [by left|right].
  exists r, result, logs. split; [done|].
  destruct (logs_silent logs Hlogs) as (_ & _ & _ & Hl).
  rewrite Ht, calls_app. change (Create r result :: logs)
    with ([Create r result] ++ logs). by rewrite calls_app, Hl.
Qed.

Lemma feed_start_calls w n :
  calls (trace (tick (log n (load w (emit EnsureList
           (log "📥 Fetching calendar..." Ical.start_loop)))))) = [].
Proof. unfold load. by destruct (state_file w). Qed.

Lemma api_start_calls w :
  calls (trace (load w (emit EnsureList Api.start_loop))) = [].
Proof. unfold load. by destruct (state_file w). Qed.

(** X6.  Every request of a run of the feed variant belongs to an event of
    the feed: the event's [UID] is the request's id, its start lies between
    the run's [now] and the cutoff 24 hours later, and the reminder date is
    the start minus the lead minutes and is not before [now]. *)
Theorem X6_feed_requests_in_window w ical_content r :
  In r (calls (effects (Ical.sync_calendar w (Ical.Content ical_content)))) ->
  exists cutoff event start_time,
    Datetime.add_us (Twice.feed_now w) (Datetime.hours Ical.SYNC_HOURS_AHEAD)
      = Some cutoff /\
    In event (Ical.parse_ical ical_content) /\
    event !! "UID" = Some (event_id r) /\
    Ical.parse_ical_datetime (Ical.get event "DTSTART" EmptyString)
      = Some start_time /\
    Datetime.ltb start_time (Twice.feed_now w) = false /\
    Datetime.gtb start_time cutoff = false /\
    Datetime.sub_us start_time (Datetime.minutes Ical.REMINDER_MINUTES_BEFORE)
      = Some (remind_date r) /\
    Datetime.ltb (remind_date r) (Twice.feed_now w) = false.
Proof.
  rewrite feed_sync_unfold. cbv zeta.
  destruct (Datetime.add_us _ _) as [cutoff|] eqn:Hcut;
    [|cbn [effects Ical.finish]; by rewrite feed_start_calls].
  intros Hr.
  assert (Hloop : In r (calls (trace (state_of
            (for_each (Ical.step w (Twice.feed_now w) cutoff)
               (tick (log ("📅 Found " +:+
                           pretty (length (Ical.parse_ical ical_content)) +:+
                           " events in calendar")
                        (load w (emit EnsureList
                           (log "📥 Fetching calendar..." Ical.start_loop)))))
               (Ical.parse_ical ical_content)))))).
  { destruct (for_each _ _ _) as [st|st];
      cbn [state_of effects Ical.finish] in *;
      rewrite ?(proj2 (proj2 (trace_tail_silent _ _ _))) in Hr; exact Hr. }
  clear Hr.
  apply (for_each_calls_origin _
           (λ event r,
              exists start_time,
                event !! "UID" = Some (event_id r) /\
                Ical.parse_ical_datetime (Ical.get event "DTSTART" EmptyString)
                  = Some start_time /\
                Datetime.ltb start_time (Twice.feed_now w) = false /\
                Datetime.gtb start_time cutoff = false /\
                Datetime.sub_us start_time
                  (Datetime.minutes Ical.REMINDER_MINUTES_BEFORE)
                  = Some (remind_date r) /\
                Datetime.ltb (remind_date r) (Twice.feed_now w) = false))
    in Hloop.
  - destruct Hloop as [Hin|(event & Hin & start_time & H)];
      [by rewrite feed_start_calls in Hin|].
    exists cutoff, event, start_time. by repeat split; try apply H.
  - intros st event r0 Hin.
    destruct (step_calls w (Pass.OfFeed (Twice.feed_now w) cutoff event) st)
      as [Hsame|(r1 & result & rest & Ht & Hc)]; cbn [Pass.step] in *.
    { left. by rewrite <- Hsame. }
    rewrite Hc, in_app_iff in Hin. destruct Hin as [?|[<-|[]]]; [by left|].
    right. apply feed_step_request in Ht
      as (i & s & t & Hi & Hs & Hn & Hcu & Hsub & Hp & _ & _ & -> & _).
    exists s. by repeat split.
Qed.

End RunProperties.

(** ** The run properties at concrete runs *)

(** X2 at the run at noon over a feed with one meeting at 14:00. *)
Lemma X2_witness :
  exists saved,
    Run.file_after
      (Twice.sync_calendar Scenario.parse_start Scenario.fresh_world
         (Twice.Feed Scenario.today_feed)) = Ledger.Stored saved /\
    is_Some (saved !! "e7").
Proof.
  destruct (X2_saved_ledger_accounted Scenario.parse_start
              Scenario.fresh_world (Twice.Feed Scenario.today_feed))
    as (saved & Hfile & _ & Hkeys); [vm_compute; reflexivity|].
  exists saved. split; [exact Hfile|].
  apply Hkeys. right. vm_compute. left. reflexivity.
Defined.

(** X4 at the same run. *)
Lemma X4_witness :
  last (Run.effects
          (Twice.sync_calendar Scenario.parse_start Scenario.fresh_world
             (Twice.Feed Scenario.today_feed))) =
    Some (Run.Log ("✅ Sync complete. Created " +:+
                   pretty (Audit.created_count
                             (Run.effects
                                (Twice.sync_calendar Scenario.parse_start
                                   Scenario.fresh_world
                                   (Twice.Feed Scenario.today_feed)))) +:+
                   " new reminders.")).
Proof.
  apply (X4_closing_line_counts_created Scenario.parse_start
           Scenario.fresh_world (Twice.Feed Scenario.today_feed)).
  vm_compute. reflexivity.
Defined.

(** X6 at the request of the same run. *)
Lemma X6_witness :
  exists cutoff event start_time,
    Datetime.add_us (Twice.feed_now Scenario.fresh_world)
      (Datetime.hours Ical.SYNC_HOURS_AHEAD) = Some cutoff /\
    In event (Ical.parse_ical Scenario.today_feed) /\
    event !! "UID" = Some "e7" /\
    Ical.parse_ical_datetime (Ical.get event "DTSTART" EmptyString)
      = Some start_time /\
    Datetime.ltb start_time (Twice.feed_now Scenario.fresh_world) = false /\
    Datetime.gtb start_time cutoff = false /\
    Datetime.sub_us start_time (Datetime.minutes Ical.REMINDER_MINUTES_BEFORE)
      = Some (Scenario.at_time 2025 1 1 13 57) /\
    Datetime.ltb (Scenario.at_time 2025 1 1 13 57)
      (Twice.feed_now Scenario.fresh_world) = false.
Proof.
  apply (X6_feed_requests_in_window Scenario.parse_start
           Scenario.fresh_world Scenario.today_feed
           Scenario.today_request).
  vm_compute. left. reflexivity.
Defined.


(** ** Soundness of the pattern matcher *)

Section Matcher.

Lemma take_nil n : PyStr.take n EmptyString = EmptyString.
Proof. by destruct n. Qed.

Lemma take_cons n c s :
  PyStr.take (S n) (String c s) = String c (PyStr.take n s).
Proof. reflexivity. Qed.

Lemma take_zero s : PyStr.take 0 s = EmptyString.
Proof. by destruct s. Qed.

(** [s[:j+n] = s[:j] + s[j:][:n]] when [s] has [j] characters. *)
Lemma take_add j : forall n s,
  (j <= String.length s)%nat ->
  PyStr.take (j + n) s = PyStr.take j s +:+ PyStr.take n (Re.drop j s).
Proof.
  induction j as [|j IH]; intros n s Hj.
  - rewrite take_zero. reflexivity.
  - destruct s as [|c s]; [cbn in Hj; lia|].
    cbn [Nat.add Re.drop]. rewrite !take_cons, IH by (cbn in Hj; lia).
    reflexivity.
Qed.

Lemma take_drop j : forall s, s = PyStr.take j s +:+ Re.drop j s.
Proof.
  induction j as [|j IH]; intros s.
  - rewrite take_zero. by destruct s.
  - destruct s as [|c s]; [reflexivity|].
    rewrite take_cons. cbn [Re.drop].
    change (String c ?a +:+ ?b) with (String c (a +:+ b)). by rewrite <- IH.
Qed.

Lemma length_drop j : forall s,
  String.length (Re.drop j s) = (String.length s - j)%nat.
Proof.
  induction j as [|j IH]; intros [|c s]; cbn [Re.drop String.length];
    try lia. rewrite IH. lia.
Qed.

Lemma prefix_take l : forall s,
  String.prefix l s = true ->
  PyStr.take (String.length l) s = l /\
  (String.length l <= String.length s)%nat.
Proof.
  induction l as [|a l IH]; intros s Hp.
  - rewrite take_zero. split; [done|cbn; lia].
  - destruct s as [|b s]; [discriminate|].
    rewrite prefix_cons in Hp. destruct (ascii_dec a b) as [->|]; [|done].
    destruct (IH s Hp) as [Ht Hl]. cbn [String.length].
    rewrite take_cons, Ht. split; [done|lia].
Qed.

Lemma run_every cls : forall s j,
  (j <= Re.run cls s)%nat ->
  ReSpec.every cls (PyStr.take j s) = true /\ (j <= String.length s)%nat.
Proof.
  induction s as [|c s IH]; intros j Hj.
  - cbn in Hj. assert (j = 0%nat) as -> by lia. by split.
  - destruct j as [|j]; [split; [done|lia]|].
    cbn [Re.run] in Hj. destruct (cls c) eqn:Hc; [|lia].
    destruct (IH j ltac:(lia)) as [He Hl].
    rewrite take_cons. cbn [ReSpec.every String.length].
    rewrite Hc, He. split; [done|lia].
Qed.

(** What [greedy] returns: some number [j] of characters for the class,
    between its bounds, and the match of the rest after them. *)
Lemma greedy_inv rest s lo k n :
  Re.greedy rest s lo k = Some n ->
  exists j n', (lo <= j <= k)%nat /\ rest (Re.drop j s) = Some n' /\
               n = (j + n')%nat.
Proof.
  induction k as [|k IH]; cbn [Re.greedy].
  - destruct (0 <? lo)%nat eqn:Hlo; [done|]. apply Nat.ltb_ge in Hlo.
    destruct (rest _) as [n'|] eqn:Hr; [|done].
    intros [= <-]. exists 0%nat, n'. repeat split; (lia || done).
  - destruct (S k <? lo)%nat eqn:Hlo; [done|]. apply Nat.ltb_ge in Hlo.
    destruct (rest (Re.drop (S k) s)) as [n'|] eqn:Hr.
    + intros [= <-]. exists (S k), n'. repeat split; (lia || done).
    + intros H. destruct (IH H) as (j & n' & Hj & Hr' & ->).
      exists j, n'. repeat split; (lia || done).
Qed.

Lemma take_empty_iff j s :
  (0 < j <= String.length s)%nat -> PyStr.take j s <> EmptyString.
Proof. destruct j, s; cbn; intros; (lia || done). Qed.

(** A match found at the start of [s] is matched by the pattern and is the
    start of [s]. *)
Lemma match_here_sound p : forall s n,
  Re.match_here p s = Some n ->
  ReSpec.denotes p (PyStr.take n s) /\ (n <= String.length s)%nat.
Proof.
  induction p as [|[l|cls|cls] p IH]; intros s n; cbn [Re.match_here].
  - intros [= <-]. rewrite take_zero. split; [done|lia].
  - destruct (String.prefix l s) eqn:Hp; [|done].
    destruct (Re.match_here p _) as [n'|] eqn:Hm; [|done].
    cbn. intros [= <-].
    destruct (prefix_take l s Hp) as [Ht Hl].
    destruct (IH _ _ Hm) as [Hd Hn]. rewrite length_drop in Hn.
    rewrite take_add, Ht by done. split; [|lia].
    cbn [ReSpec.denotes]. by eexists.
  - intros (j & n' & Hj & Hm & ->)%greedy_inv.
    destruct (run_every cls s j ltac:(lia)) as [He Hl].
    destruct (IH _ _ Hm) as [Hd Hn]. rewrite length_drop in Hn.
    rewrite take_add by done. split; [|lia].
    cbn [ReSpec.denotes]. by eexists _, _.
  - intros (j & n' & Hj & Hm & ->)%greedy_inv.
    destruct (run_every cls s j ltac:(lia)) as [He Hl].
    destruct (IH _ _ Hm) as [Hd Hn]. rewrite length_drop in Hn.
    rewrite take_add by done. split; [|lia].
    cbn [ReSpec.denotes]. eexists _, _. repeat split; try done.
    apply take_empty_iff. lia.
Qed.

Lemma occurs_in_cons m s c :
  ReSpec.occurs_in m s -> ReSpec.occurs_in m (String c s).
Proof. intros (b & a & ->). by exists (String c b), a. Qed.

Lemma occurs_in_take n s : ReSpec.occurs_in (PyStr.take n s) s.
Proof. exists EmptyString, (Re.drop n s). apply take_drop. Qed.

(** [re.search] returns a text that the pattern matches and that occurs in
    the searched text. *)
Lemma search_sound p : forall s m,
  Re.search p s = Some m -> ReSpec.denotes p m /\ ReSpec.occurs_in m s.
Proof.
  induction s as [|c s IH]; intros m; cbn [Re.search].
  - destruct (Re.match_here p _) as [n|] eqn:Hm; [|done].
    intros [= <-]. split; [by apply match_here_sound|apply occurs_in_take].
  - destruct (Re.match_here p _) as [n|] eqn:Hm.
    + intros [= <-]. split; [by apply match_here_sound|apply occurs_in_take].
    + intros [Hd Ho]%IH. split; [done|by apply occurs_in_cons].
Qed.

(** [re.findall] returns texts that the pattern matches and that occur in
    the searched text. *)
Lemma findall_sound p m : forall s skip,
  In m (Re.findall_go p skip s) ->
  ReSpec.denotes p m /\ ReSpec.occurs_in m s.
Proof.
  induction s as [|c s IH]; intros skip; cbn [Re.findall_go]; [done|].
  destruct skip as [|k].
  - destruct (Re.match_here p _) as [n|] eqn:Hm.
    + intros [<-|[Hd Ho]%IH].
      * split; [by apply match_here_sound|apply occurs_in_take].
      * split; [done|by apply occurs_in_cons].
    + intros [Hd Ho]%IH. split; [done|by apply occurs_in_cons].
  - intros [Hd Ho]%IH. split; [done|by apply occurs_in_cons].
Qed.

Lemma every_app cls a b :
  ReSpec.every cls (a +:+ b) = ReSpec.every cls a && ReSpec.every cls b.
Proof.
  induction a as [|c a IH]; [reflexivity|].
  change (String c a +:+ b) with (String c (a +:+ b)).
  cbn [ReSpec.every]. rewrite IH. by rewrite andb_assoc.
Qed.

Lemma every_weaken (cls cls' : ascii -> bool) s :
  (forall c, cls c = true -> cls' c = true) ->
  ReSpec.every cls s = true -> ReSpec.every cls' s = true.
Proof.
  intros Hw. induction s as [|c s IH]; [done|]. cbn [ReSpec.every].
  intros [Hc Hs]%andb_prop. by rewrite (Hw c Hc), IH.
Qed.

Lemma url_char_not_space c : Re.url_char c = true -> Re.not_space c = true.
Proof.
  unfold Re.url_char, Re.not_space. destruct (Re.space c); [done|done].
Qed.

End Matcher.

(** ** Links found by scanning text *)

Section Links.

(** X8.  When an event has neither a [hangoutLink] nor a video entry
    point, a link that [extract_meeting_link] returns occurs in the
    description, holds no whitespace, and reads [https://], any run of
    non-space characters, [zoom.us/] and a path, or
    [https://meet.google.com/] and a path, or
    [https://teams.microsoft.com/] and a path; the path is not empty and
    has no [<] and no quote. *)
Theorem X8_description_link_shape ev link :
  Api.hangoutLink ev = None ->
  List.find Api.is_video
    (match Api.conferenceData ev with
     | Some cd => default [] (Api.entryPoints cd)
     | None => []
     end) = None ->
  Api.extract_meeting_link ev = Some link ->
  ReSpec.occurs_in link (default EmptyString (Api.description ev)) /\
  ReSpec.every Re.not_space link = true /\
  ((exists sub path,
      link = "https://" +:+ sub +:+ "zoom.us/" +:+ path /\
      ReSpec.every Re.not_space sub = true /\
      path <> EmptyString /\ ReSpec.every Re.url_char path = true) \/
   (exists path,
      link = "https://meet.google.com/" +:+ path /\
      path <> EmptyString /\ ReSpec.every Re.url_char path = true) \/
   (exists path,
      link = "https://teams.microsoft.com/" +:+ path /\
      path <> EmptyString /\ ReSpec.every Re.url_char path = true)).
Proof.
  intros Hh Hv. unfold Api.extract_meeting_link. rewrite Hh, Hv.
  unfold Api.patterns. cbn [Api.first_match].
  destruct (Re.search Api.ZOOM _) as [m|] eqn:Hz.
  { intros [= <-]. apply search_sound in Hz as [Hd Ho].
    destruct Hd as (m1 & -> & a & m2 & -> & Ha & m3 & -> & b & m4 & -> & Hb
                    & Hb' & Hm4).
    cbn [ReSpec.denotes] in Hm4. subst m4.
    rewrite append_empty_r. split; [by rewrite append_empty_r in Ho|].
    split.
    - rewrite !every_app, Ha.
      rewrite (every_weaken _ _ b url_char_not_space Hb'). reflexivity.
    - left. by exists a, b. }
  destruct (Re.search Api.MEET _) as [m|] eqn:Hm.
  { intros [= <-]. apply search_sound in Hm as [Hd Ho].
    destruct Hd as (m1 & -> & b & m4 & -> & Hb & Hb' & Hm4).
    cbn [ReSpec.denotes] in Hm4. subst m4.
    rewrite append_empty_r. split; [by rewrite append_empty_r in Ho|].
    split.
    - rewrite !every_app.
      rewrite (every_weaken _ _ b url_char_not_space Hb'). reflexivity.
    - right. left. by exists b. }
  destruct (Re.search Api.TEAMS _) as [m|] eqn:Ht; [|done].
  intros [= <-]. apply search_sound in Ht as [Hd Ho].
  destruct Hd as (m1 & -> & b & m4 & -> & Hb & Hb' & Hm4).
  cbn [ReSpec.denotes] in Hm4. subst m4.
  rewrite append_empty_r. split; [by rewrite append_empty_r in Ho|].
  split.
  - rewrite !every_app.
    rewrite (every_weaken _ _ b url_char_not_space Hb'). reflexivity.
  - right. right. by exists b.
Qed.

(** X9.  The feed variant leaves the body as it is or adds one line
    [Join: <url>].  The url is taken from the first of description and
    location that names a provider domain; it occurs in that text, names a
    provider domain itself, starts with [https://] and goes on with at
    least one character, none of them whitespace, [<], [>], a quote or a
    backslash. *)
Theorem X9_feed_join_line body texts :
  Ical.add_join body texts = body \/
  exists before text after url rest,
    texts = before ++ text :: after /\
    (forall t, In t before -> Ical.names_provider t = false) /\
    Ical.names_provider text = true /\
    ReSpec.occurs_in url text /\
    Ical.names_provider url = true /\
    url = "https://" +:+ rest /\ rest <> EmptyString /\
    ReSpec.every Re.url_char_strict rest = true /\
    Ical.add_join body texts = body +:+ Ical.LF +:+ "Join: " +:+ url.
Proof.
  induction texts as [|text texts IH]; cbn [Ical.add_join]; [by left|].
  destruct (Ical.names_provider text) eqn:Hn.
  - destruct (List.find _ _) as [url|] eqn:Hf; [|by left].
    right. apply find_some in Hf as [Hin Hu].
    apply findall_sound in Hin as [Hd Ho].
    destruct Hd as (m1 & -> & b & m4 & -> & Hb & Hb' & Hm4).
    cbn [ReSpec.denotes] in Hm4. subst m4.
    rewrite append_empty_r in *.
    exists [], text, texts, ("https://" +:+ b), b. by repeat split.
  - destruct IH as [->|(before & t & after & url & rest & -> & Hb & H)];
      [by left|right].
    exists (text :: before), t, after, url, rest. split; [done|].
    split; [|exact H]. intros t' [<-|Hin]; [done|by apply Hb].
Qed.

End Links.

(** X8 at an event whose description carries a Zoom link between other
    words. *)
Lemma X8_witness :
  ReSpec.occurs_in "https://us02web.zoom.us/j/1"
    "Agenda and dial-in: https://us02web.zoom.us/j/1 (see you there)" /\
  ReSpec.every Re.not_space "https://us02web.zoom.us/j/1" = true.
Proof.
  destruct (X8_description_link_shape
              (Scenario.with_description
                 (Scenario.api_event "e1" "2025-01-01T14:00:00+02:00")
                 "Agenda and dial-in: https://us02web.zoom.us/j/1 (see you there)")
              "https://us02web.zoom.us/j/1")
    as (Ho & He & _); [reflexivity|reflexivity|vm_compute; reflexivity|].
  split; [exact Ho|exact He].
Defined.

(** ** Where the requests and the ledger entries of a run come from *)

Section RunOrigin.
Import Run.
Variable parse : string -> option datetime.

Lemma for_each_invariant_in {E} (body : loop -> E -> step_result)
  (Q : loop -> Prop) (events : list E) :
  (forall e st, In e events -> Q st -> Q (state_of (body st e))) ->
  forall st, Q st -> Q (state_of (for_each body st events)).
Proof.
  induction events as [|e events IH]; intros Hbody st HQ;
    cbn [for_each]; [done|].
  pose proof (Hbody e st (or_introl eq_refl) HQ) as Hst.
  destruct (body st e) as [st'|st']; [|done].
  apply IH; [|done]. intros e' st'' Hin. apply Hbody. by right.
Qed.

Lemma feed_start_loaded w n :
  synced_events
    (tick (log n (load w (emit EnsureList
                            (log "📥 Fetching calendar..." Ical.start_loop)))))
    = Audit.loaded w.
Proof. unfold load, Audit.loaded. by destruct (state_file w). Qed.

Lemma api_start_loaded w :
  synced_events (load w (emit EnsureList Api.start_loop)) = Audit.loaded w.
Proof. unfold load, Audit.loaded. by destruct (state_file w). Qed.

Lemma iterations_feed w ical_content cutoff :
  Datetime.add_us (Twice.feed_now w) (Datetime.hours Ical.SYNC_HOURS_AHEAD)
    = Some cutoff ->
  Origin.iterations w (Twice.Feed ical_content) =
  map (Pass.OfFeed (Twice.feed_now w) cutoff) (Ical.parse_ical ical_content).
Proof. intros H. unfold Origin.iterations. by rewrite H. Qed.

(** A property of the loop variables that holds when the loop starts, on
    the loaded ledger and before any request, and that every iteration of
    the run keeps, holds when the loop ends. *)
Lemma run_invariant w src (Q : loop -> Prop) :
  (forall st, synced_events st = Audit.loaded w -> calls (trace st) = [] ->
              Q st) ->
  (forall it st, In it (Origin.iterations w src) -> Q st ->
                 Q (state_of (Pass.step parse w it st))) ->
  exists st,
    Q st /\
    match how (Twice.sync_calendar parse w src) with
    | Completed =>
        effects (Twice.sync_calendar parse w src) =
          trace st ++
          [Save (synced_events st);
           Log ("✅ Sync complete. Created " +:+
                pretty (new_reminders st) +:+ " new reminders.")] /\
        file_after (Twice.sync_calendar parse w src)
          = Ledger.Stored (synced_events st)
    | _ =>
        effects (Twice.sync_calendar parse w src) = trace st /\
        file_after (Twice.sync_calendar parse w src) = state_file w
    end.
Proof.
  intros Hstart Hstep.
  destruct src as [ical_content|events]; cbn [Twice.sync_calendar].
  - rewrite feed_sync_unfold. cbv zeta.
    destruct (Datetime.add_us _ _) as [cutoff|] eqn:Hcut.
    + rewrite (iterations_feed w ical_content cutoff Hcut) in Hstep.
      match goal with
      | |- context [for_each ?b ?s ?e] =>
          pose proof (for_each_invariant_in b Q e) as Hinv;
          specialize (Hinv (λ e' st' Hin,
            Hstep (Pass.OfFeed (Twice.feed_now w) cutoff e') st'
              (in_map _ _ _ Hin)) s
            (Hstart s (feed_start_loaded w _) (feed_start_calls w _)))
      end.
      destruct (for_each _ _ _) as [st|st]; exists st; by split.
    + eexists. split; [|by split].
      apply Hstart; [apply feed_start_loaded|apply feed_start_calls].
  - cbn [Origin.iterations] in Hstep. rewrite api_sync_unfold.
    pose proof (for_each_invariant_in (Api.step parse w) Q events
      (λ e' st' Hin, Hstep (Pass.OfApi e') st' (in_map _ _ _ Hin)) _
      (Hstart _ (api_start_loaded w) (api_start_calls w))) as Hinv.
    destruct (for_each _ _ _) as [st|st]; exists st; by split.
Qed.

(** The requests of a run are those of its loop. *)
Lemma run_calls w src st :
  match how (Twice.sync_calendar parse w src) with
  | Completed =>
      effects (Twice.sync_calendar parse w src) =
        trace st ++
        [Save (synced_events st);
         Log ("✅ Sync complete. Created " +:+
              pretty (new_reminders st) +:+ " new reminders.")] /\
      file_after (Twice.sync_calendar parse w src)
        = Ledger.Stored (synced_events st)
  | _ =>
      effects (Twice.sync_calendar parse w src) = trace st /\
      file_after (Twice.sync_calendar parse w src) = state_file w
  end ->
  calls (effects (Twice.sync_calendar parse w src)) = calls (trace st).
Proof.
  destruct (how _); intros [-> _]; [|done..].
  apply trace_tail_silent.
Qed.

(** What an iteration that asks the sink hands to it, and what it records
    on a confirmation. *)
Lemma step_request w it st r result rest :
  trace (state_of (Pass.step parse w it st))
    = trace st ++ Create r result :: rest ->
  exists start_time j,
    Pass.id_of it = Some (event_id r) /\
    Pass.start_of parse it = Some start_time /\
    Datetime.sub_us start_time (Datetime.minutes (Pass.lead it))
      = Some (remind_date r) /\
    title r = "📅 " +:+ Origin.summary_of it +:+ " - " +:+
              Datetime.strftime_HM start_time /\
    body r = Origin.body_of it (Datetime.strftime_HM start_time) /\
    synced_events st !! event_id r = None /\
    synced_events (state_of (Pass.step parse w it st)) =
      if bool_decide (result = "created" \/ result = "exists")
      then <[event_id r :=
               Ledger.mk_entry (Some (Origin.summary_of it))
                 (Some (Datetime.isoformat start_time))
                 (Some (Datetime.isoformat (clock w j)))]>
             (synced_events st)
      else synced_events st.
Proof.
  destruct it as [ev|now cutoff event];
    cbn [Pass.step Pass.id_of Pass.lead Origin.summary_of Origin.body_of].
  - intros (i & s & t & n & Hi & _ & Hs & Hsub & _ & _ & Hnone & _ & -> & Hl)
      %api_step_request.
    exists s, (S (ticks st)). cbn [event_id title body remind_date].
    by repeat split.
  - intros (i & s & t & Hi & Hs & _ & _ & Hsub & _ & Hnone & _ & -> & Hl)
      %feed_step_request.
    exists s, (ticks st). cbn [event_id title body remind_date].
    by repeat split.
Qed.

(** X10.  A run over fetched calendar data never asks the sink about an
    event whose id is in the ledger that it loaded. *)
Theorem X10_loaded_ids_not_requested w src r :
  In r (calls (effects (Twice.sync_calendar parse w src))) ->
  Audit.loaded w !! event_id r = None.
Proof.
  destruct (run_invariant w src
    (λ st, (forall k v, Audit.loaded w !! k = Some v ->
                        synced_events st !! k = Some v) /\
           (forall r, In r (calls (trace st)) ->
                      Audit.loaded w !! event_id r = None)))
    as (st & [_ Hfresh] & Hrun).
  - intros st -> ->. split; [done|intros ? []].
  - intros it st _ [Hkeep Hfresh].
    destruct (step_outcome parse w it st)
      as [(Ht & Hs & _)|(r0 & result & logs & Ht & _ & Hnone & _ & Hlogs & _
                         & Hrec)].
    { rewrite Ht, Hs. by split. }
    assert (Hr0 : Audit.loaded w !! event_id r0 = None).
    { destruct (Audit.loaded w !! event_id r0) as [v|] eqn:Hv; [|done].
      apply Hkeep in Hv. congruence. }
    split.
    + intros k v Hk. destruct (Audit.confirms result).
      * destruct Hrec as [entry ->]. rewrite lookup_insert_ne;
          [by apply Hkeep|]. intros <-. congruence.
      * rewrite Hrec. by apply Hkeep.
    + intros r1. rewrite Ht, calls_app. change (Create r0 result :: logs)
        with ([Create r0 result] ++ logs). rewrite calls_app.
      destruct (logs_silent logs Hlogs) as (_ & _ & _ & ->).
      rewrite !in_app_iff. intros [?|[[<-|[]]|[]]]; [by apply Hfresh|done].
  - rewrite (run_calls w src st Hrun). apply Hfresh.
Qed.

(** X11.  Every request of a run over fetched calendar data is made for an
    event of the data: it carries the event's id, its title is the
    calendar mark, the event's summary ([Untitled Meeting] without one; in
    the feed variant after decoding) and the start's time of day, its body
    is the one built for that event, and its date is the start minus the
    lead minutes of the variant. *)
Theorem X11_request_content w src r :
  In r (calls (effects (Twice.sync_calendar parse w src))) ->
  exists it start_time,
    In it (Origin.iterations w src) /\
    Pass.id_of it = Some (event_id r) /\
    Pass.start_of parse it = Some start_time /\
    title r = "📅 " +:+ Origin.summary_of it +:+ " - " +:+
              Datetime.strftime_HM start_time /\
    body r = Origin.body_of it (Datetime.strftime_HM start_time) /\
    Datetime.sub_us start_time (Datetime.minutes (Pass.lead it))
      = Some (remind_date r).
Proof.
  destruct (run_invariant w src
    (λ st, forall r, In r (calls (trace st)) ->
       exists it start_time,
         In it (Origin.iterations w src) /\
         Pass.id_of it = Some (event_id r) /\
         Pass.start_of parse it = Some start_time /\
         title r = "📅 " +:+ Origin.summary_of it +:+ " - " +:+
                   Datetime.strftime_HM start_time /\
         body r = Origin.body_of it (Datetime.strftime_HM start_time) /\
         Datetime.sub_us start_time (Datetime.minutes (Pass.lead it))
           = Some (remind_date r)))
    as (st & Hall & Hrun).
  - intros st _ -> ? [].
  - intros it st Hit Hall r1.
    destruct (step_calls parse w it st) as [->|(r0 & result & rest & Ht & ->)];
      [apply Hall|].
    rewrite in_app_iff. intros [?|[<-|[]]]; [by apply Hall|].
    apply step_request in Ht as (s & j & Hi & Hs & Hsub & Htitle & Hbody & _).
    by exists it, s.
  - rewrite (run_calls w src st Hrun). apply Hall.
Qed.

(** X12.  An entry that a completed run over fetched calendar data saves
    and did not load describes an event of the data: it stands under the
    event's id and holds the summary used for the title, the start in ISO
    format and, as [synced_at], a reading of the clock of this run in ISO
    format. *)
Theorem X12_new_entries_describe_events w src saved k v :
  how (Twice.sync_calendar parse w src) = Completed ->
  file_after (Twice.sync_calendar parse w src) = Ledger.Stored saved ->
  saved !! k = Some v ->
  Audit.loaded w !! k = None ->
  exists it start_time j,
    In it (Origin.iterations w src) /\
    Pass.id_of it = Some k /\
    Pass.start_of parse it = Some start_time /\
    v = Ledger.mk_entry (Some (Origin.summary_of it))
          (Some (Datetime.isoformat start_time))
          (Some (Datetime.isoformat (clock w j))).
Proof.
  intros Hdone Hfile Hk Hnew.
  destruct (run_invariant w src
    (λ st, forall k v, synced_events st !! k = Some v ->
       Audit.loaded w !! k = Some v \/
       exists it start_time j,
         In it (Origin.iterations w src) /\
         Pass.id_of it = Some k /\
         Pass.start_of parse it = Some start_time /\
         v = Ledger.mk_entry (Some (Origin.summary_of it))
               (Some (Datetime.isoformat start_time))
               (Some (Datetime.isoformat (clock w j)))))
    as (st & Hall & Hrun).
  - intros st -> _ k' v' ?. by left.
  - intros it st Hit Hall k' v'.
    destruct (step_outcome parse w it st)
      as [(_ & -> & _)|(r0 & result & logs & Ht & _)]; [apply Hall|].
    apply step_request in Ht as (s & j & Hi & Hs & _ & _ & _ & _ & ->).
    destruct (bool_decide _); [|apply Hall].
    destruct (decide (event_id r0 = k')) as [<-|Hne].
    + rewrite lookup_insert_eq. intros [= <-]. right. by exists it, s, j.
    + rewrite lookup_insert_ne by done. apply Hall.
  - rewrite Hdone in Hrun. destruct Hrun as [_ Hf]. rewrite Hf in Hfile.
    injection Hfile as <-.
    destruct (Hall k v Hk) as [Hl|?]; [congruence|done].
Qed.

End RunOrigin.

(** ** The origin properties at concrete runs *)

(** X10 at the run at noon, without a state file, over a feed with one
    meeting at 14:00. *)
Lemma X10_witness :
  Audit.loaded Scenario.fresh_world !! Run.event_id Scenario.today_request
    = None.
Proof.
  apply (X10_loaded_ids_not_requested Scenario.parse_start
           Scenario.fresh_world (Twice.Feed Scenario.today_feed)
           Scenario.today_request).
  vm_compute. left. reflexivity.
Defined.

(** X11 at the request of the run at noon over a listing with one event at
    14:00. *)
Lemma X11_witness :
  exists it start_time,
    In it (Origin.iterations Scenario.fresh_world
             (Twice.Calendar [Scenario.afternoon_event])) /\
    Pass.id_of it = Some "e2" /\
    Pass.start_of Scenario.parse_start it = Some start_time /\
    Run.title Scenario.afternoon_request =
      "📅 " +:+ Origin.summary_of it +:+ " - " +:+
      Datetime.strftime_HM start_time /\
    Run.body Scenario.afternoon_request =
      Origin.body_of it (Datetime.strftime_HM start_time) /\
    Datetime.sub_us start_time (Datetime.minutes (Pass.lead it))
      = Some (Datetime.mk 2025 1 1 13 57 0 0 (Some 120)).
Proof.
  apply (X11_request_content Scenario.parse_start Scenario.fresh_world
           (Twice.Calendar [Scenario.afternoon_event])
           Scenario.afternoon_request).
  vm_compute. left. reflexivity.
Defined.

(** X12 at the entry that the run over the feed saves. *)
Lemma X12_witness :
  exists it start_time j,
    In it (Origin.iterations Scenario.fresh_world
             (Twice.Feed Scenario.today_feed)) /\
    Pass.id_of it = Some "e7" /\
    Pass.start_of Scenario.parse_start it = Some start_time /\
    Ledger.mk_entry (Some "Demo") (Some "2025-01-01T14:00:00")
      (Some "2025-01-01T12:00:00") =
    Ledger.mk_entry (Some (Origin.summary_of it))
      (Some (Datetime.isoformat start_time))
      (Some (Datetime.isoformat (Run.clock Scenario.fresh_world j))).
Proof.
  eapply (X12_new_entries_describe_events Scenario.parse_start
            Scenario.fresh_world (Twice.Feed Scenario.today_feed)
            _ "e7").
  - vm_compute. reflexivity.
  - vm_compute. reflexivity.
  - vm_compute. reflexivity.
  - vm_compute. reflexivity.
Defined.

(** ** The lines of a feed *)

Section FeedLines.

Lemma rev_app_append s : forall acc,
  String.rev_app s acc = String.rev s +:+ acc.
Proof.
  unfold String.rev. induction s as [|c s IH]; intros acc; [reflexivity|].
  cbn [String.rev_app]. rewrite IH, (IH (String c EmptyString)).
  by rewrite append_assoc_r.
Qed.

Lemma rev_cons c s :
  String.rev (String c s) = String.rev s +:+ String c EmptyString.
Proof. unfold String.rev at 1. cbn [String.rev_app]. apply rev_app_append. Qed.

(** [c in s] for a text of one character. *)
Lemma contains_char c a s :
  PyStr.contains (String c EmptyString) (String a s) =
  (if ascii_dec c a then true else false)
  || PyStr.contains (String c EmptyString) s.
Proof.
  cbn [PyStr.contains]. rewrite prefix_cons, prefix_empty. reflexivity.
Qed.

Lemma contains_app_sep c k rest :
  PyStr.contains (String c EmptyString) (k +:+ String c rest) = true.
Proof.
  induction k as [|a k IH].
  - change (EmptyString +:+ ?x) with x. rewrite contains_char.
    by destruct (ascii_dec c c).
  - change (String a k +:+ ?x) with (String a (k +:+ x)).
    rewrite contains_char, IH. apply orb_true_r.
Qed.

Lemma split_go_cons sep skip cur s : PyStr.split_go sep skip cur s <> [].
Proof.
  revert skip cur. induction s as [|a s IH]; intros skip cur; [done|].
  cbn [PyStr.split_go]. destruct skip; [|apply IH].
  destruct (String.prefix _ _); [done|apply IH].
Qed.

(** Splitting at a character: the text before its first occurrence is the
    first piece. *)
Lemma split_char_app c k rest : forall cur,
  PyStr.contains (String c EmptyString) k = false ->
  PyStr.split_go (String c EmptyString) 0 cur (k +:+ String c rest) =
  (String.rev cur +:+ k)
    :: PyStr.split_go (String c EmptyString) 0 EmptyString rest.
Proof.
  induction k as [|a k IH]; intros cur Hk.
  - change (EmptyString +:+ ?x) with x. cbn [PyStr.split_go].
    rewrite prefix_cons, prefix_empty.
    destruct (ascii_dec c c); [|done]. by rewrite append_empty_r.
  - rewrite contains_char in Hk. apply orb_false_elim in Hk as [Ha Hk].
    change (String a k +:+ ?x) with (String a (k +:+ x)).
    cbn [PyStr.split_go]. rewrite prefix_cons.
    destruct (ascii_dec c a); [done|].
    rewrite (IH _ Hk), rev_cons, append_assoc_r. reflexivity.
Qed.

Lemma split_char_none c k : forall cur,
  PyStr.contains (String c EmptyString) k = false ->
  PyStr.split_go (String c EmptyString) 0 cur k = [String.rev cur +:+ k].
Proof.
  induction k as [|a k IH]; intros cur Hk.
  - cbn [PyStr.split_go]. by rewrite append_empty_r.
  - rewrite contains_char in Hk. apply orb_false_elim in Hk as [Ha Hk].
    cbn [PyStr.split_go]. rewrite prefix_cons.
    destruct (ascii_dec c a); [done|].
    rewrite (IH _ Hk), rev_cons, append_assoc_r. reflexivity.
Qed.

(** Joining the pieces with the character gives the text back. *)
Lemma join_split_char c s : forall cur,
  PyStr.join (String c EmptyString)
    (PyStr.split_go (String c EmptyString) 0 cur s) = String.rev cur +:+ s.
Proof.
  induction s as [|a s IH]; intros cur.
  - cbn [PyStr.split_go PyStr.join]. by rewrite append_empty_r.
  - cbn [PyStr.split_go]. rewrite prefix_cons, prefix_empty.
    destruct (ascii_dec c a) as [<-|Hne].
    + cbn [String.length Nat.pred].
      pose proof (split_go_cons (String c EmptyString) 0 EmptyString s) as Hl.
      specialize (IH EmptyString).
      destruct (PyStr.split_go _ 0 EmptyString s) as [|p ps]; [done|].
      change (PyStr.join ?sep (?x :: p :: ps))
        with (x +:+ sep +:+ PyStr.join sep (p :: ps)).
      rewrite IH. reflexivity.
    + rewrite IH, rev_cons, append_assoc_r. reflexivity.
Qed.

(** X13.  A property line inside an event block is stored under its name:
    the text before the first colon, cut at the first semicolon when it has
    parameters.  The value is all the text after the first colon, further
    colons included, and replaces an earlier value of the same name. *)
Theorem X13_property_line_stored key params value events ev :
  PyStr.contains ":" key = false ->
  PyStr.contains ";" key = false ->
  PyStr.contains ":" params = false ->
  Ical.parse_line (events, Some ev) (key +:+ ";" +:+ params +:+ ":" +:+ value)
    = (events, Some (<[key := value]> ev)) /\
  (key +:+ ":" +:+ value <> "BEGIN:VEVENT" ->
   key +:+ ":" +:+ value <> "END:VEVENT" ->
   Ical.parse_line (events, Some ev) (key +:+ ":" +:+ value)
     = (events, Some (<[key := value]> ev))).
Proof.
  intros Hkc Hks Hpc. split.
  - assert (Hsemi : PyStr.contains ";"
                      (key +:+ ";" +:+ params +:+ ":" +:+ value) = true)
      by apply contains_app_sep.
    assert (Hhead : PyStr.contains ":" (key +:+ ";" +:+ params) = false).
    { clear -Hkc Hpc. induction key as [|a key IH].
      - change (EmptyString +:+ ?x) with x.
        change (";" +:+ params) with (String ";" params).
        rewrite contains_char, Hpc. reflexivity.
      - rewrite contains_char in Hkc.
        apply orb_false_elim in Hkc as [Ha Hk].
        change (String a key +:+ ?x) with (String a (key +:+ x)).
        rewrite contains_char, Ha. by apply IH. }
    unfold Ical.parse_line.
    destruct (decide (_ = "BEGIN:VEVENT")) as [E|_];
      [by rewrite E in Hsemi|].
    destruct (decide (_ = "END:VEVENT")) as [E|_];
      [by rewrite E in Hsemi|].
    replace (key +:+ ";" +:+ params +:+ ":" +:+ value)
      with ((key +:+ ";" +:+ params) +:+ String ":" value)
      by (by rewrite !append_assoc_r).
    rewrite contains_app_sep. unfold PyStr.split. cbv zeta.
    rewrite (split_char_app _ _ _ _ Hhead).
    cbn [hd tl]. change (String.rev EmptyString +:+ ?x) with x.
    change (key +:+ ";" +:+ params) with (key +:+ String ";" params).
    rewrite (contains_app_sep ";" key params).
    rewrite (split_char_app _ _ _ _ Hks). cbn [hd].
    change (String.rev EmptyString +:+ ?x) with x.
    by rewrite join_split_char.
  - intros Hb He. unfold Ical.parse_line.
    destruct (decide (_ = "BEGIN:VEVENT")); [done|].
    destruct (decide (_ = "END:VEVENT")); [done|].
    change (key +:+ ":" +:+ value) with (key +:+ String ":" value).
    rewrite contains_app_sep. unfold PyStr.split. cbv zeta.
    rewrite (split_char_app _ _ _ _ Hkc). cbn [hd tl].
    change (String.rev EmptyString +:+ ?x) with x. rewrite Hks.
    by rewrite join_split_char.
Qed.

Lemma hd_split_clean c s : forall cur,
  PyStr.contains (String c EmptyString) (String.rev cur) = false ->
  PyStr.contains (String c EmptyString)
    (hd EmptyString (PyStr.split_go (String c EmptyString) 0 cur s)) = false.
Proof.
  induction s as [|a s IH]; intros cur Hcur; [done|].
  cbn [PyStr.split_go]. rewrite prefix_cons, prefix_empty.
  destruct (ascii_dec c a) as [<-|Hne]; [done|].
  apply IH. rewrite rev_cons. clear IH.
  induction (String.rev cur) as [|b r IHr].
  - change (EmptyString +:+ ?x) with x. rewrite contains_char.
    by destruct (ascii_dec c a).
  - rewrite contains_char in Hcur.
    apply orb_false_elim in Hcur as [Hb Hr].
    change (String b r +:+ ?x) with (String b (r +:+ x)).
    rewrite contains_char, Hb. by apply IHr.
Qed.

(** A piece of a text without the character [d] has no [d] either. *)
Lemma hd_split_keeps c d s : forall cur,
  PyStr.contains (String d EmptyString) (String.rev cur +:+ s) = false ->
  PyStr.contains (String d EmptyString)
    (hd EmptyString (PyStr.split_go (String c EmptyString) 0 cur s)) = false.
Proof.
  induction s as [|a s IH]; intros cur Hcur.
  - cbn [PyStr.split_go hd]. by rewrite append_empty_r in Hcur.
  - cbn [PyStr.split_go]. rewrite prefix_cons, prefix_empty.
    destruct (ascii_dec c a) as [<-|Hne].
    + cbn [hd]. clear IH. induction (String.rev cur) as [|b r IHr]; [done|].
      change (String b r +:+ ?x) with (String b (r +:+ x)) in Hcur.
      rewrite contains_char in Hcur |- *.
      apply orb_false_elim in Hcur as [Hb Hr]. rewrite Hb. by apply IHr.
    + apply IH. by rewrite rev_cons, append_assoc_r.
Qed.

Lemma parse_line_inv st line :
  (Forall (λ ev, ev <> ∅ /\ Lines.names_clean ev) st.1 /\
   from_option Lines.names_clean True st.2) ->
  Forall (λ ev, ev <> ∅ /\ Lines.names_clean ev) (Ical.parse_line st line).1 /\
  from_option Lines.names_clean True (Ical.parse_line st line).2.
Proof.
  destruct st as [events current]. cbn [fst snd]. intros [Hev Hcur].
  unfold Ical.parse_line.
  destruct (decide (line = "BEGIN:VEVENT")).
  { split; [done|]. by intros key [v Hv]. }
  destruct (decide (line = "END:VEVENT")).
  { destruct current as [ev|]; [|by split].
    destruct (decide (ev = ∅)); [by split|]. split; [|done].
    apply Forall_app. split; [done|]. by apply Forall_singleton. }
  destruct current as [ev|]; [|by split].
  destruct (PyStr.contains ":" line) eqn:Hcolon; [|by split].
  assert (Hkey : forall key value,
            PyStr.contains ":" key = false ->
            PyStr.contains ";" key = false ->
            Lines.names_clean (<[key := value]> ev)).
  { intros key value ? ? k. destruct (decide (key = k)) as [<-|Hne];
      [done|]. rewrite lookup_insert_ne by done. apply Hcur. }
  assert (Hhd : PyStr.contains ":" (hd EmptyString (PyStr.split ":" line))
                = false) by by apply hd_split_clean.
  cbv zeta. destruct (PyStr.contains ";" _) eqn:Hsemi; (split; [done|]);
    cbn [snd from_option]; apply Hkey; try done.
  - by apply hd_split_keeps.
  - by apply hd_split_clean.
Qed.

(** X14.  No event that [parse_ical] returns is empty (a block without a
    property line is dropped), and no property name of an event holds a
    colon or a semicolon. *)
Theorem X14_parsed_events_have_properties ical_content ev :
  In ev (Ical.parse_ical ical_content) ->
  ev <> ∅ /\
  forall key, is_Some (ev !! key) ->
    PyStr.contains ":" key = false /\ PyStr.contains ";" key = false.
Proof.
  unfold Ical.parse_ical. cbv zeta.
  generalize (PyStr.split Ical.CRLF
                (PyStr.replace Ical.CRLF_TAB EmptyString
                   (PyStr.replace Ical.CRLF_SP EmptyString ical_content))).
  intros lines Hin.
  assert (Hinv : forall lines st,
            (Forall (λ ev, ev <> ∅ /\ Lines.names_clean ev) st.1 /\
             from_option Lines.names_clean True st.2) ->
            Forall (λ ev, ev <> ∅ /\ Lines.names_clean ev)
              (fold_left Ical.parse_line lines st).1).
  { clear. induction lines as [|line lines IH]; intros st Hst;
      cbn [fold_left]; [apply Hst|]. by apply IH, parse_line_inv. }
  assert (Hall : Forall (λ ev, ev <> ∅ /\ Lines.names_clean ev)
                   (fold_left Ical.parse_line lines ([], None)).1).
  { apply Hinv. cbn [fst snd from_option]. by split. }
  rewrite Forall_forall in Hall. by apply Hall, list_elem_of_In.
Qed.

End FeedLines.

(** X13 at a start line with a zone parameter and a value with colons. *)
Lemma X13_witness :
  Ical.parse_line ([], Some ∅) "DTSTART;TZID=Europe/Berlin:20250101T140000"
    = ([], Some (<["DTSTART" := "20250101T140000"]> ∅)) /\
  Ical.parse_line ([], Some ∅) "DESCRIPTION:Join: https://meet.google.com/abc"
    = ([], Some (<["DESCRIPTION" := "Join: https://meet.google.com/abc"]> ∅)).
Proof.
  split.
  - destruct (X13_property_line_stored "DTSTART" "TZID=Europe/Berlin"
                "20250101T140000" [] ∅) as [Hparams _];
      [reflexivity | reflexivity | reflexivity | exact Hparams].
  - destruct (X13_property_line_stored "DESCRIPTION" EmptyString
                "Join: https://meet.google.com/abc" [] ∅) as [_ Hplain];
      [reflexivity | reflexivity | reflexivity |].
    apply Hplain; discriminate.
Defined.

(** X14 at the event of a feed with one meeting. *)
Lemma X14_witness : hd ∅ (Ical.parse_ical Scenario.today_feed) <> ∅.
Proof.
  destruct (X14_parsed_events_have_properties Scenario.today_feed
              (hd ∅ (Ical.parse_ical Scenario.today_feed))) as [Hne _];
    [vm_compute; left; reflexivity | exact Hne].
Defined.

(** ** Reading the times of a feed *)

Section CompactTimes.

Lemma head_bind {A B} (f : A -> list B) (l : list A) a b :
  head l = Some a -> head (f a) = Some b -> head (l ≫= f) = Some b.
Proof.
  destruct l as [|x l]; [done|]. intros [= ->]. rewrite bind_cons.
  by destruct (f a).
Qed.

Lemma digit_code z : Strptime.code (Datetime.digit z) = 48 + z mod 10.
Proof.
  unfold Strptime.code, Datetime.digit.
  pose proof (Z.mod_pos_bound z 10).
  rewrite N_ascii_embedding by lia. lia.
Qed.

Lemma digit_is_digit z : Strptime.is_digit (Datetime.digit z) = true.
Proof.
  unfold Strptime.is_digit, Strptime.between. rewrite digit_code.
  pose proof (Z.mod_pos_bound z 10). apply andb_true_intro. lia.
Qed.

Lemma digit_val z : Strptime.val (Datetime.digit z) = z mod 10.
Proof. unfold Strptime.val. rewrite digit_code. lia. Qed.

Lemma re_Y_pad Y r :
  0 <= Y <= 9999 ->
  head (Strptime.re_Y (Datetime.pad 4 Y +:+ r)) = Some (Y, r).
Proof.
  intros HY. unfold Datetime.pad. cbn [Datetime.pad_go].
  change (String ?a (String ?b (String ?c (String ?d EmptyString))) +:+ r)
    with (String a (String b (String c (String d r)))).
  cbn [Strptime.re_Y]. rewrite !digit_is_digit, !digit_val. cbn [andb head].
  do 2 f_equal. Z.div_mod_to_equations. lia.
Qed.

(** The cases of a two-digit field, one for each value. *)
Local Tactic Notation "each_value" ident(n) integer(k) :=
  do k (destruct n as [|n]; [first [lia | vm_compute; reflexivity]|]); lia.

Lemma re_m_pad v r :
  1 <= v <= 12 ->
  head (Strptime.re_m (Datetime.pad 2 v +:+ r)) = Some (v, r).
Proof.
  intros Hv. rewrite <- (Z2Nat.id v) in * by lia.
  generalize dependent (Z.to_nat v). intros n Hn. each_value n 13.
Qed.

Lemma re_d_pad v r :
  1 <= v <= 31 ->
  head (Strptime.re_d (Datetime.pad 2 v +:+ r)) = Some (v, r).
Proof.
  intros Hv. rewrite <- (Z2Nat.id v) in * by lia.
  generalize dependent (Z.to_nat v). intros n Hn. each_value n 32.
Qed.

Lemma re_H_pad v r :
  0 <= v <= 23 ->
  head (Strptime.re_H (Datetime.pad 2 v +:+ r)) = Some (v, r).
Proof.
  intros Hv. rewrite <- (Z2Nat.id v) in * by lia.
  generalize dependent (Z.to_nat v). intros n Hn. each_value n 24.
Qed.

Lemma re_M_pad v r :
  0 <= v <= 59 ->
  head (Strptime.re_M (Datetime.pad 2 v +:+ r)) = Some (v, r).
Proof.
  intros Hv. rewrite <- (Z2Nat.id v) in * by lia.
  generalize dependent (Z.to_nat v). intros n Hn. each_value n 60.
Qed.

Lemma re_S_pad v r :
  0 <= v <= 59 ->
  head (Strptime.re_S (Datetime.pad 2 v +:+ r)) = Some (v, r).
Proof.
  intros Hv. rewrite <- (Z2Nat.id v) in * by lia.
  generalize dependent (Z.to_nat v). intros n Hn. each_value n 60.
Qed.

(** The expression of [strptime] matches the text of a time, whole, at its
    first attempt. *)
Lemma matches_compact t :
  Datetime.ok t = true ->
  head (Strptime.matches (Compact.compact t)) =
  Some (Datetime.year t, Datetime.month t, Datetime.day t,
        Datetime.hour t, Datetime.minute t, Datetime.second t, EmptyString).
Proof.
  intros (HY & Hm & Hd & HH & HM & HS & _)%ok_bounds.
  unfold Strptime.matches, Compact.compact.
  rewrite <- (append_empty_r (Datetime.pad 2 (Datetime.second t))).
  eapply head_bind; [apply re_Y_pad; lia|]. cbv beta iota.
  eapply head_bind; [by apply re_m_pad|]. cbv beta iota.
  eapply head_bind; [by apply re_d_pad|]. cbv beta iota.
  eapply head_bind; [reflexivity|]. cbv beta iota.
  eapply head_bind; [by apply re_H_pad|]. cbv beta iota.
  eapply head_bind; [by apply re_M_pad|]. cbv beta iota.
  eapply head_bind; [by apply re_S_pad|]. reflexivity.
Qed.

Lemma strptime_compact t :
  Datetime.ok t = true -> Datetime.tzinfo t = None ->
  Datetime.microsecond t = 0 ->
  Strptime.strptime (Compact.compact t) = Some t.
Proof.
  intros Hok Hz Hus. pose proof (matches_compact t Hok) as Hm.
  unfold Strptime.strptime.
  destruct (Strptime.matches _) as [|x l]; [done|]. injection Hm as ->.
  unfold Datetime.make. unfold Datetime.ok in Hok. rewrite Hus in Hok.
  rewrite Hok. destruct t. cbn in *. by subst.
Qed.

Lemma contains_char_app c a b :
  PyStr.contains (String c EmptyString) (a +:+ b) =
  PyStr.contains (String c EmptyString) a
  || PyStr.contains (String c EmptyString) b.
Proof.
  induction a as [|x a IH].
  - change (EmptyString +:+ b) with b. by destruct b.
  - change (String x a +:+ b) with (String x (a +:+ b)).
    rewrite !contains_char, IH. by rewrite orb_assoc.
Qed.

Lemma replace_absent c rep s :
  PyStr.contains (String c EmptyString) s = false ->
  PyStr.replace (String c EmptyString) rep s = s.
Proof.
  unfold PyStr.replace. induction s as [|a s IH]; [done|].
  rewrite contains_char. intros [Ha Hs]%orb_false_elim.
  cbn [PyStr.replace_go]. rewrite prefix_cons.
  destruct (ascii_dec c a); [done|]. by rewrite IH.
Qed.

(** A field written with [pad] holds digits only. *)
Lemma pad_go_no_letter c n : forall z acc,
  57 < Strptime.code c ->
  PyStr.contains (String c EmptyString) (Datetime.pad_go n z acc) =
  PyStr.contains (String c EmptyString) acc.
Proof.
  induction n as [|n IH]; intros z acc Hc; [reflexivity|].
  cbn [Datetime.pad_go]. rewrite IH by done. rewrite contains_char.
  destruct (ascii_dec c (Datetime.digit z)) as [->|_]; [|done].
  rewrite digit_code in Hc. pose proof (Z.mod_pos_bound z 10). lia.
Qed.

Lemma pad_no_letter c n z :
  57 < Strptime.code c ->
  PyStr.contains (String c EmptyString) (Datetime.pad n z) = false.
Proof. intros Hc. unfold Datetime.pad. by rewrite pad_go_no_letter. Qed.

Lemma length_append (a b : string) :
  String.length (a +:+ b) = (String.length a + String.length b)%nat.
Proof.
  induction a as [|x a IH]; [reflexivity|].
  change (String x a +:+ b) with (String x (a +:+ b)).
  cbn [String.length]. by rewrite IH.
Qed.

Lemma length_pad_go n : forall z acc,
  String.length (Datetime.pad_go n z acc) = (n + String.length acc)%nat.
Proof.
  induction n as [|n IH]; intros z acc; [reflexivity|].
  cbn [Datetime.pad_go]. rewrite IH. cbn [String.length]. lia.
Qed.

Lemma take_length s : PyStr.take (String.length s) s = s.
Proof.
  induction s as [|a s IH]; [reflexivity|].
  cbn [String.length]. by rewrite take_cons, IH.
Qed.

Lemma length_compact t : String.length (Compact.compact t) = 15%nat.
Proof.
  unfold Compact.compact, Datetime.pad.
  by rewrite !length_append, !length_pad_go.
Qed.

(** X15.  A date with time written as a feed writes it (digits of year,
    month and day, the letter T, digits of hour, minute and second) parses
    to that time as a naive value, and does so as well with the suffix [Z]
    behind it. *)
Theorem X15_feed_time_parsed t :
  Datetime.ok t = true -> Datetime.tzinfo t = None ->
  Datetime.microsecond t = 0 ->
  Ical.parse_ical_datetime (Compact.compact t) = Some t /\
  Ical.parse_ical_datetime (Compact.compact t +:+ "Z") = Some t.
Proof.
  intros Hok Hz Hus.
  assert (Hplain : Ical.parse_ical_datetime (Compact.compact t) = Some t).
  { unfold Ical.parse_ical_datetime. cbv zeta.
    assert (HnoZ : PyStr.contains "Z" (Compact.compact t) = false).
    { unfold Compact.compact.
      rewrite !contains_char_app, !pad_no_letter by (vm_compute; done).
      reflexivity. }
    rewrite (replace_absent _ _ _ HnoZ).
    assert (HT : PyStr.contains "T" (Compact.compact t) = true).
    { unfold Compact.compact. rewrite !contains_char_app.
      change (PyStr.contains "T" "T") with true.
      by rewrite !orb_true_r. }
    rewrite HT, <- (length_compact t), take_length.
    by apply strptime_compact. }
  split; [exact Hplain|]. by rewrite suffix_Z_ignored.
Qed.

End CompactTimes.

(** X15 at two in the afternoon of the first day of 2025. *)
Lemma X15_witness :
  Ical.parse_ical_datetime "20250101T140000"
    = Some (Datetime.mk 2025 1 1 14 0 0 0 None) /\
  Ical.parse_ical_datetime "20250101T140000Z"
    = Some (Datetime.mk 2025 1 1 14 0 0 0 None).
Proof.
  apply (X15_feed_time_parsed (Datetime.mk 2025 1 1 14 0 0 0 None));
    reflexivity.
Defined.

(** ** Quotes in the title and the body *)

Section Quotes.
Import Escaping Script.

Lemma replace_char_cons c rep a s :
  PyStr.replace (String c EmptyString) rep (String a s) =
  if ascii_dec c a then rep +:+ PyStr.replace (String c EmptyString) rep s
  else String a (PyStr.replace (String c EmptyString) rep s).
Proof.
  unfold PyStr.replace. cbn [PyStr.replace_go].
  rewrite prefix_cons, prefix_empty. by destruct (ascii_dec c a).
Qed.

(** The escaped text, character by character. *)
Lemma escape_cons a s :
  Script.escape (String a s) =
  (if bool_decide (a = QUOTE) || bool_decide (a = APOSTROPHE)
   then String BACKSLASH (String a EmptyString)
   else String a EmptyString) +:+ Script.escape s.
Proof.
  unfold Script.escape. rewrite (replace_char_cons QUOTE).
  destruct (ascii_dec QUOTE a) as [<-|Hq].
  - change (String BACKSLASH (String QUOTE EmptyString) +:+ ?x)
      with (String BACKSLASH (String QUOTE x)).
    rewrite !replace_char_cons.
    destruct (ascii_dec APOSTROPHE BACKSLASH); [done|].
    destruct (ascii_dec APOSTROPHE QUOTE); [done|]. reflexivity.
  - rewrite replace_char_cons.
    rewrite (bool_decide_eq_false_2 (a = QUOTE)) by done. cbn [orb].
    destruct (ascii_dec APOSTROPHE a) as [<-|Ha].
    + by rewrite bool_decide_eq_true_2.
    + by rewrite bool_decide_eq_false_2.
Qed.

(** X16.  In a title or body without backslashes, after the escaping of
    [create_macos_reminder] every double quote and every apostrophe has a
    backslash before it, and taking the backslashes out again gives the
    text back. *)
Theorem X16_quotes_escaped text :
  plain text = true ->
  guarded (Script.escape text) = true /\
  PyStr.replace (String BACKSLASH EmptyString) EmptyString
    (Script.escape text) = text.
Proof.
  induction text as [|a text IH]; [done|].
  cbn [plain]. intros [Ha Hp]%andb_prop.
  apply negb_true_iff, bool_decide_eq_false in Ha.
  destruct (IH Hp) as [Hg Hr]. rewrite escape_cons.
  destruct (bool_decide (a = QUOTE) || bool_decide (a = APOSTROPHE)) eqn:Hq.
  - change (String BACKSLASH (String a EmptyString) +:+ ?x)
      with (String BACKSLASH (String a x)).
    split.
    + cbn [guarded]. by rewrite bool_decide_eq_true_2.
    + rewrite !replace_char_cons.
      destruct (ascii_dec BACKSLASH BACKSLASH); [|done].
      destruct (ascii_dec BACKSLASH a) as [<-|_]; [done|].
      change (EmptyString +:+ ?x) with x. by rewrite Hr.
  - change (String a EmptyString +:+ ?x) with (String a x).
    split.
    + cbn [guarded]. rewrite (bool_decide_eq_false_2 (a = BACKSLASH)) by done.
      by rewrite Hq.
    + rewrite replace_char_cons.
      destruct (ascii_dec BACKSLASH a) as [<-|_]; [done|]. by rewrite Hr.
Qed.

End Quotes.

(** X16 at a title with an apostrophe. *)
Lemma X16_witness :
  Script.guarded (Script.escape "Ann's review") = true /\
  PyStr.replace (String Escaping.BACKSLASH EmptyString) EmptyString
    (Script.escape "Ann's review") = "Ann's review".
Proof. apply (X16_quotes_escaped "Ann's review"). reflexivity. Defined.

(** ** Dates from day numbers *)

Section Ordinals.
Import Datetime.

(** The leap years, counted in cycles of 400, 100, 4 and 1 years. *)
Lemma is_leap_counts n400 n100 n4 n1 :
  0 <= n100 <= 3 -> 0 <= n4 <= 24 -> 0 <= n1 <= 3 ->
  is_leap (n400 * 400 + 1 + n100 * 100 + n4 * 4 + n1) =
  (n1 =? 3) && (negb (n4 =? 24) || (n100 =? 3)).
Proof.
  intros H100 H4 H1. unfold is_leap.
  set (y := n400 * 400 + 1 + n100 * 100 + n4 * 4 + n1).
  assert (E4 : y mod 4 = (n1 + 1) mod 4).
  { unfold y. replace (n400 * 400 + 1 + n100 * 100 + n4 * 4 + n1)
      with (n1 + 1 + (n400 * 100 + n100 * 25 + n4) * 4) by lia.
    apply Z.mod_add. lia. }
  assert (E100 : y mod 100 = (n4 * 4 + n1 + 1) mod 100).
  { unfold y. replace (n400 * 400 + 1 + n100 * 100 + n4 * 4 + n1)
      with (n4 * 4 + n1 + 1 + (n400 * 4 + n100) * 100) by lia.
    apply Z.mod_add. lia. }
  assert (E400 : y mod 400 = (n100 * 100 + n4 * 4 + n1 + 1) mod 400).
  { unfold y. replace (n400 * 400 + 1 + n100 * 100 + n4 * 4 + n1)
      with (n100 * 100 + n4 * 4 + n1 + 1 + n400 * 400) by lia.
    apply Z.mod_add. lia. }
  assert (F4 : (y mod 4 =? 0) = (n1 =? 3)).
  { rewrite E4. destruct (Z.eqb_spec n1 3) as [->|?]; [reflexivity|].
    apply Z.eqb_neq. rewrite Z.mod_small by lia. lia. }
  assert (F100 : (y mod 100 =? 0) = (n4 =? 24) && (n1 =? 3)).
  { rewrite E100.
    destruct (Z.eqb_spec n4 24) as [->|?], (Z.eqb_spec n1 3) as [->|?];
      [reflexivity|..]; apply Z.eqb_neq; rewrite Z.mod_small by lia; lia. }
  assert (F400 : (y mod 400 =? 0) = (n100 =? 3) && (n4 =? 24) && (n1 =? 3)).
  { rewrite E400.
    destruct (Z.eqb_spec n100 3) as [->|?], (Z.eqb_spec n4 24) as [->|?],
      (Z.eqb_spec n1 3) as [->|?];
      [reflexivity|..]; apply Z.eqb_neq; rewrite Z.mod_small by lia; lia. }
  rewrite F4, F100, F400.
  by destruct (n1 =? 3), (n4 =? 24), (n100 =? 3).
Qed.

(** [_ord2ymd] gives a date that the constructor accepts. *)
Lemma ord2ymd_valid n y m d :
  1 <= n <= MAXORDINAL -> ord2ymd n = (y, m, d) ->
  1 <= y <= 9999 /\ 1 <= m <= 12 /\ 1 <= d <= days_in_month y m.
Proof.
  intros Hn. unfold ord2ymd, MAXORDINAL, DI400Y, DI100Y, DI4Y in *.
  cbv zeta.
  pose proof (Z.div_mod (n - 1) 146097 ltac:(lia)) as E400.
  pose proof (Z.mod_pos_bound (n - 1) 146097 ltac:(lia)) as B400.
  set (n400 := (n - 1) / 146097) in *. set (r400 := (n - 1) mod 146097) in *.
  pose proof (Z.div_mod r400 36524 ltac:(lia)) as E100.
  pose proof (Z.mod_pos_bound r400 36524 ltac:(lia)) as B100.
  set (n100 := r400 / 36524) in *. set (r100 := r400 mod 36524) in *.
  pose proof (Z.div_mod r100 1461 ltac:(lia)) as E4.
  pose proof (Z.mod_pos_bound r100 1461 ltac:(lia)) as B4.
  set (n4 := r100 / 1461) in *. set (r4 := r100 mod 1461) in *.
  pose proof (Z.div_mod r4 365 ltac:(lia)) as E1.
  pose proof (Z.mod_pos_bound r4 365 ltac:(lia)) as B1.
  set (n1 := r4 / 365) in *. set (r := r4 mod 365) in *.
  clearbody n400 r400 n100 r100 n4 r4 n1 r.
  assert (H400 : 0 <= n400 <= 24) by lia.
  assert (H100 : 0 <= n100 <= 4) by lia.
  assert (H4 : 0 <= n4 <= 24) by lia.
  assert (H1 : 0 <= n1 <= 4) by lia.
  assert (Hy : n400 * 400 + 1 + n100 * 100 + n4 * 4 + n1 <= 10000) by lia.
  destruct (Z.eqb_spec n1 4) as [Hn1|Hn1]; cbn [orb].
  { intros [= <- <- <-]. unfold days_in_month. cbn. lia. }
  destruct (Z.eqb_spec n100 4) as [Hn100|Hn100].
  { intros [= <- <- <-]. unfold days_in_month. cbn. lia. }
  assert (Hylt : n400 * 400 + 1 + n100 * 100 + n4 * 4 + n1 <= 9999) by lia.
  rewrite Z.shiftr_div_pow2 by lia. change (2 ^ 5) with 32.
  pose proof (Z.div_mod (r + 50) 32 ltac:(lia)) as Em.
  pose proof (Z.mod_pos_bound (r + 50) 32 ltac:(lia)) as Bm.
  set (m0 := (r + 50) / 32) in *. set (rm := (r + 50) mod 32) in *.
  clearbody m0 rm.
  pose proof (is_leap_counts n400 n100 n4 n1 ltac:(lia) ltac:(lia)
                ltac:(lia)) as Hleap.
  set (leapyear := (n1 =? 3) && (negb (n4 =? 24) || (n100 =? 3))) in *.
  clearbody leapyear.
  assert (Hm0 : m0 = 1 \/ m0 = 2 \/ m0 = 3 \/ m0 = 4 \/ m0 = 5 \/ m0 = 6 \/
                m0 = 7 \/ m0 = 8 \/ m0 = 9 \/ m0 = 10 \/ m0 = 11 \/ m0 = 12)
    by lia.
  unfold days_in_month.
  repeat (destruct Hm0 as [->|Hm0]); try subst m0;
    destruct leapyear; cbn;
    match goal with
    | |- (if ?a <? ?b then _ else _) = _ -> _ => destruct (Z.ltb_spec a b)
    end;
    intros [= <- <- <-]; rewrite Hleap;
    repeat match goal with
    | |- context [Z.pos ?p - 1] =>
        let v := eval vm_compute in (Z.pos p - 1) in
        change (Z.pos p - 1) with v
    end;
    cbn [DAYS_IN_MONTH Z.eqb Pos.eqb andb]; lia.
Qed.

End Ordinals.

(** ** The reminder time of a feed event exists *)

Section ReminderTime.
Import Datetime Daytime Run.

Lemma make_ok y m d H M S us tz t :
  make y m d H M S us tz = Some t -> ok t = true.
Proof.
  unfold make. destruct (fields_ok _ _ _ _ _ _ _) eqn:E; [|done].
  by intros [= <-].
Qed.

Lemma parsed_time_ok s t : Ical.parse_ical_datetime s = Some t -> ok t = true.
Proof.
  unfold Ical.parse_ical_datetime, Strptime.strptime. cbv zeta.
  destruct (PyStr.contains _ _); [|done].
  destruct (Strptime.matches _) as [|[[[[[[Y mo] d] H] mi] se] r] l]; [done|].
  destruct r; [|done]. apply make_ok.
Qed.

Lemma fields_ok_bounds y m d H M S us :
  fields_ok y m d H M S us = true ->
  1 <= y <= 9999 /\ 1 <= m <= 12 /\ 1 <= d <= days_in_month y m /\
  0 <= H <= 23 /\ 0 <= M <= 59 /\ 0 <= S <= 59 /\ 0 <= us <= 999999.
Proof.
  unfold fields_ok. intros E. repeat (apply andb_prop in E as [E ?]). lia.
Qed.

Lemma days_before_year_bounds y :
  1 <= y <= 9999 ->
  0 <= days_before_year y /\
  (2 <= y -> 365 <= days_before_year y) /\
  (y <= 9998 -> days_before_year y <= 3651428).
Proof.
  intros Hy. unfold days_before_year. cbv zeta.
  Z.div_mod_to_equations. lia.
Qed.

(** The day number of a date that the constructor accepts. *)
Lemma ymd2ord_bounds y m d :
  1 <= y <= 9999 -> 1 <= m <= 12 -> 1 <= d <= days_in_month y m ->
  1 <= ymd2ord y m d <= MAXORDINAL /\
  (ymd2ord y m d = 1 -> y = 1 /\ m = 1 /\ d = 1).
Proof.
  intros Hy Hm Hd. unfold ymd2ord, MAXORDINAL.
  pose proof (days_before_year_bounds y Hy) as (H0 & H2 & Hmax).
  assert (Hin : 0 <= days_before_month y m /\
                days_before_month y m + d <= 365 + (if is_leap y then 1 else 0)
                /\ (2 <= m -> 31 <= days_before_month y m)).
  { unfold days_before_month, days_in_month in *.
    assert (Hcases : m = 1 \/ m = 2 \/ m = 3 \/ m = 4 \/ m = 5 \/ m = 6 \/
                     m = 7 \/ m = 8 \/ m = 9 \/ m = 10 \/ m = 11 \/ m = 12)
      by lia.
    repeat (destruct Hcases as [->|Hcases]); try subst m;
      destruct (is_leap y); cbn in *; lia. }
  destruct Hin as (Hb0 & Hb & Hb2).
  assert (Hlast : y = 9999 -> days_before_year y = 3651694 /\ is_leap y = false).
  { intros ->. split; reflexivity. }
  split.
  - split; [lia|].
    destruct (Z.eq_dec y 9999) as [E|E].
    + destruct (Hlast E) as [-> Hl]. rewrite Hl in Hb. lia.
    + destruct (is_leap y); lia.
  - intros E1. assert (y = 1) by lia. assert (m = 1) by lia. lia.
Qed.

Lemma to_us_split t :
  to_us t = ymd2ord (year t) (month t) (day t) * US_PER_DAY + time_of_day t.
Proof. unfold to_us, time_of_day, US_PER_DAY. lia. Qed.

Lemma time_of_day_bounds t :
  ok t = true -> 0 <= time_of_day t < US_PER_DAY.
Proof.
  intros (_ & _ & _ & ? & ? & ? & ?)%ok_bounds.
  unfold time_of_day, US_PER_DAY. lia.
Qed.

(** Adding succeeds when the day number of the sum is in range. *)
Lemma add_us_in_range t delta :
  1 <= (to_us t + delta) / US_PER_DAY <= MAXORDINAL ->
  is_Some (add_us t delta).
Proof.
  intros Hdays. unfold add_us. cbv zeta.
  set (total := to_us t + delta) in *.
  replace ((0 <? total / US_PER_DAY) && (total / US_PER_DAY <=? MAXORDINAL))
    with true by (symmetry; apply andb_true_intro; lia).
  destruct (ord2ymd _) as [[y m] d] eqn:E.
  apply ord2ymd_valid in E as (Hy & Hm & Hd); [|done].
  unfold make.
  replace (fields_ok _ _ _ _ _ _ _) with true; [by eexists|].
  symmetry. unfold fields_ok.
  pose proof (Z.mod_pos_bound total US_PER_DAY ltac:(done)) as Hrest.
  set (rest := total mod US_PER_DAY) in *. clearbody rest.
  unfold US_PER_DAY in Hrest.
  repeat (apply andb_true_intro; split); try lia.
  all: apply Z.leb_le; Z.div_mod_to_equations; lia.
Qed.

(** A successful addition had the day number of the sum in range. *)
Lemma add_us_some_range t delta :
  is_Some (add_us t delta) -> 1 <= (to_us t + delta) / US_PER_DAY.
Proof.
  unfold add_us. cbv zeta.
  destruct (0 <? _) eqn:E; [|by intros [? [=]]]. lia.
Qed.

(** The order of two values whose dates are the first day there is. *)
Lemma not_before_first_day start now :
  ok start = true -> ok now = true ->
  ltb start now = false ->
  year start = 1 -> month start = 1 -> day start = 1 ->
  ymd2ord (year now) (month now) (day now) = 1 /\
  time_of_day now <= time_of_day start.
Proof.
  intros Hoks Hok Hlt Hy Hm Hd.
  pose proof (ok_bounds now Hok) as (? & ? & ? & ? & ? & ? & ?).
  pose proof (ok_bounds start Hoks) as (? & ? & ? & ? & ? & ? & ?).
  unfold ltb, compare, key in Hlt. cbn [lex] in Hlt.
  rewrite Hy, Hm, Hd in Hlt.
  destruct (Z.compare_spec 1 (year now)); try lia.
  destruct (Z.compare_spec 1 (month now)); try lia.
  destruct (Z.compare_spec 1 (day now)); try lia.
  split; [by replace (year now) with 1 by lia;
             replace (month now) with 1 by lia;
             replace (day now) with 1 by lia|].
  unfold time_of_day.
  destruct (Z.compare_spec (hour start) (hour now)); try done; [|lia].
  destruct (Z.compare_spec (minute start) (minute now)); try done; [|lia].
  destruct (Z.compare_spec (second start) (second now)); try done; [|lia].
  destruct (Z.compare_spec (microsecond start) (microsecond now));
    try done; lia.
Qed.

(** Three minutes can be taken from a start that is not before a [now]
    from which they can be taken. *)
Lemma lead_before_start start now :
  ok start = true -> ok now = true ->
  ltb start now = false ->
  is_Some (sub_us now (minutes Ical.REMINDER_MINUTES_BEFORE)) ->
  is_Some (sub_us start (minutes Ical.REMINDER_MINUTES_BEFORE)).
Proof.
  intros Hoks Hok Hlt Hnow. unfold sub_us in *.
  apply add_us_some_range in Hnow. apply add_us_in_range.
  pose proof (fields_ok_bounds _ _ _ _ _ _ _ Hoks) as (Hy & Hm & Hd & _).
  pose proof (fields_ok_bounds _ _ _ _ _ _ _ Hok) as (Hyn & Hmn & Hdn & _).
  pose proof (ymd2ord_bounds _ _ _ Hy Hm Hd) as [Hord Hfirst].
  pose proof (ymd2ord_bounds _ _ _ Hyn Hmn Hdn) as [Hordn _].
  pose proof (time_of_day_bounds start Hoks) as Htod.
  pose proof (time_of_day_bounds now Hok) as Htodn.
  rewrite to_us_split in *.
  unfold minutes, Ical.REMINDER_MINUTES_BEFORE, US_PER_DAY, MAXORDINAL in *.
  destruct (Z.eq_dec (ymd2ord (year start) (month start) (day start)) 1)
    as [E|E].
  - destruct (Hfirst E) as (Ey & Em & Ed).
    destruct (not_before_first_day start now Hoks Hok Hlt Ey Em Ed)
      as [En Hle].
    rewrite E. rewrite En in Hnow. clear -Hnow Hle Htod Htodn.
    Z.div_mod_to_equations. lia.
  - clear -E Hord Htod. Z.div_mod_to_equations. lia.
Qed.


End ReminderTime.


(** ** The requests of a run, event by event *)

Section RunOrder.
Import Run.
Variable parse : string -> option datetime.

(** The requests of a loop, in order, belong one by one to events of the
    list, in order. *)
Lemma for_each_calls_sublist {E} (body : loop -> E -> step_result)
  (P : E -> request -> Prop) :
  (forall st e,
     calls (trace (state_of (body st e))) = calls (trace st) \/
     exists r, P e r /\
       calls (trace (state_of (body st e))) = calls (trace st) ++ [r]) ->
  forall events st,
    exists asked rs,
      sublist asked events /\ Forall2 P asked rs /\
      calls (trace (state_of (for_each body st events)))
        = calls (trace st) ++ rs.
Proof.
  intros Hbody events. induction events as [|e events IH]; intros st;
    cbn [for_each state_of].
  { exists [], []. by rewrite app_nil_r. }
  pose proof (Hbody st e) as Hstep.
  destruct (body st e) as [st1|st1]; cbn [state_of] in *.
  - destruct (IH st1) as (asked & rs & Hsub & Hall & ->).
    destruct Hstep as [->|(r & HP & ->)].
    + exists asked, rs. split; [by apply sublist_cons|done].
    + exists (e :: asked), (r :: rs).
      split; [by apply sublist_skip|]. split; [by constructor|].
      by rewrite <- app_assoc.
  - destruct Hstep as [->|(r & HP & ->)].
    + exists [], []. split; [apply sublist_nil_l|]. by rewrite app_nil_r.
    + exists [e], [r]. split; [apply sublist_skip, sublist_nil_l|].
      split; [by repeat constructor|done].
Qed.

Lemma sublist_map {A B} (f : A -> B) (l1 l2 : list A) :
  sublist l1 l2 -> sublist (map f l1) (map f l2).
Proof. induction 1; cbn [map]; by constructor. Qed.

Lemma Forall2_map_l {A B C} (f : A -> B) (P : B -> C -> Prop) l k :
  Forall2 (λ a c, P (f a) c) l k -> Forall2 P (map f l) k.
Proof. induction 1; cbn [map]; by constructor. Qed.

(** An iteration makes no request, or the one request built for its
    event. *)
Lemma step_one_call w it st :
  calls (trace (state_of (Pass.step parse w it st))) = calls (trace st) \/
  exists r, Origin.built_for parse it r /\
    calls (trace (state_of (Pass.step parse w it st)))
      = calls (trace st) ++ [r].
Proof.
  destruct (step_calls parse w it st) as [?|(r & result & rest & Ht & Hc)];
    [by left|right].
  exists r. split; [|done].
  apply step_request in Ht as (s & j & Hi & Hs & Hsub & Ht & Hb & _).
  by exists s.
Qed.

(** X5.  A run over fetched calendar data asks the sink at most once for
    each event of the data, and in the order of the events: its requests,
    in order, belong one by one to a subsequence of the events, each being
    the request built for its event (the event's id, the title with its
    summary and time of day, its body, its start minus the lead). *)
Theorem X5_one_request_per_event w src :
  exists asked,
    sublist asked (Origin.iterations w src) /\
    Forall2 (Origin.built_for parse) asked
      (calls (effects (Twice.sync_calendar parse w src))).
Proof.
  destruct src as [ical_content|events]; cbn [Twice.sync_calendar].
  - rewrite feed_sync_unfold. cbv zeta.
    destruct (Datetime.add_us _ _) as [cutoff|] eqn:Hcut.
    + rewrite (iterations_feed w ical_content cutoff Hcut).
      match goal with
      | |- context [for_each ?b ?s ?evs] =>
          destruct (for_each_calls_sublist b
                      (λ e r, Origin.built_for parse
                                (Pass.OfFeed (Twice.feed_now w) cutoff e)
                                r)
                      (λ st' e', step_one_call w
                         (Pass.OfFeed (Twice.feed_now w) cutoff e') st')
                      evs s) as (asked & rs & Hsub & Hall & Hcalls)
      end.
      rewrite feed_start_calls in Hcalls. cbn [app] in Hcalls.
      exists (map (Pass.OfFeed (Twice.feed_now w) cutoff) asked).
      split; [by apply sublist_map|]. apply Forall2_map_l.
      destruct (for_each _ _ _) as [st|st];
        cbn [state_of effects Ical.finish] in *;
        rewrite ?(proj2 (proj2 (trace_tail_silent _ _ _))), Hcalls;
        exact Hall.
    + exists []. split; [apply sublist_nil_l|].
      cbn [effects Ical.finish]. rewrite feed_start_calls. constructor.
  - rewrite api_sync_unfold. cbn [Origin.iterations].
    destruct (for_each_calls_sublist (Api.step parse w)
                (λ e r, Origin.built_for parse (Pass.OfApi e) r)
                (λ st' e', step_one_call w (Pass.OfApi e') st')
                events (load w (emit EnsureList Api.start_loop)))
      as (asked & rs & Hsub & Hall & Hcalls).
    rewrite api_start_calls in Hcalls. cbn [app] in Hcalls.
    exists (map Pass.OfApi asked).
    split; [by apply sublist_map|]. apply Forall2_map_l.
    destruct (for_each _ _ _) as [st|st];
      cbn [state_of effects Api.finish] in *;
      rewrite ?(proj2 (proj2 (trace_tail_silent _ _ _))), Hcalls;
      exact Hall.
Qed.

(** A request of a loop was made in the iteration for one of its events,
    from the loop variables that the events before it left. *)
Lemma for_each_calls_at {E} (body : loop -> E -> step_result) :
  (forall st e,
     calls (trace (state_of (body st e))) = calls (trace st) \/
     exists r result rest,
       trace (state_of (body st e)) = trace st ++ Create r result :: rest /\
       calls (trace (state_of (body st e))) = calls (trace st) ++ [r]) ->
  forall events st r,
    In r (calls (trace (state_of (for_each body st events)))) ->
    In r (calls (trace st)) \/
    exists before e after st' result rest,
      events = before ++ e :: after /\
      for_each body st before = Next st' /\
      trace (state_of (body st' e)) = trace st' ++ Create r result :: rest.
Proof.
  intros Hbody events. induction events as [|e events IH]; intros st r Hr;
    cbn [for_each state_of] in Hr; [by left|].
  assert (Hhere : In r (calls (trace (state_of (body st e)))) ->
            In r (calls (trace st)) \/
            exists before e0 after st' result rest,
              e :: events = before ++ e0 :: after /\
              for_each body st before = Next st' /\
              trace (state_of (body st' e0))
                = trace st' ++ Create r result :: rest).
  { intros Hin.
    destruct (Hbody st e) as [Hc|(r0 & result & rest & Ht & Hc)];
      rewrite Hc in Hin; [by left|].
    apply in_app_iff in Hin as [?|[<-|[]]]; [by left|right].
    by exists [], e, events, st, result, rest. }
  destruct (body st e) as [st1|st1] eqn:Hst; cbn [state_of] in *;
    [|by apply Hhere].
  destruct (IH st1 r Hr)
    as [Hin|(before & e0 & after & st' & result & rest & -> & Hrun & Ht)];
    [by apply Hhere|right].
  exists (e :: before), e0, after, st', result, rest.
  split; [done|]. split; [|done]. cbn [for_each]. by rewrite Hst.
Qed.

(** X7.  Every request of a run of the authenticated-API variant was made
    in the iteration for an event of the listing that is not cancelled,
    from the loop variables that the events before it left: the event's id
    is the request's id, its start parses, the reminder date is the start
    minus the lead minutes, and it is not before the [now] of that
    iteration, which is the reading of the clock that follows the readings
    made for the earlier events, moved to the zone of the start. *)
Theorem X7_api_requests_not_past w events r :
  In r (calls (effects
          (Api.sync_calendar parse w Api.Service (Api.Items events)))) ->
  exists before ev after st start_time now,
    events = before ++ ev :: after /\
    for_each (Api.step parse w) (Origin.api_loop w) before = Next st /\
    Api.id ev = Some (event_id r) /\
    Api.status ev <> Some "cancelled" /\
    Pass.start_of parse (Pass.OfApi ev) = Some start_time /\
    Datetime.sub_us start_time (Datetime.minutes Api.REMINDER_MINUTES_BEFORE)
      = Some (remind_date r) /\
    Api.now_for w start_time (clock w (ticks st)) = Some now /\
    Datetime.ltb (remind_date r) now = false.
Proof.
  rewrite api_sync_unfold. intros Hr. unfold Origin.api_loop.
  assert (Hloop : In r (calls (trace (state_of
            (for_each (Api.step parse w)
               (load w (emit EnsureList Api.start_loop)) events))))).
  { destruct (for_each _ _ _) as [st|st];
      cbn [state_of effects Api.finish] in *;
      rewrite ?(proj2 (proj2 (trace_tail_silent _ _ _))) in Hr; exact Hr. }
  clear Hr.
  apply for_each_calls_at in Hloop.
  - destruct Hloop
      as [Hin|(before & ev & after & st & result & rest & -> & Hrun & Ht)];
      [by rewrite api_start_calls in Hin|].
    apply api_step_request in Ht
      as (i & s & t & n & Hi & Hst & Hs & Hsub & Hn & Hp & _ & _ & -> & _).
    exists before, ev, after, st, s, n. cbn [event_id remind_date].
    by repeat split.
  - intros st e. apply (step_calls parse w (Pass.OfApi e) st).
Qed.

End RunOrder.

(** X7 at the run at noon over a listing with one event at 14:00. *)
Lemma X7_witness :
  exists before ev after st start_time now,
    [Scenario.afternoon_event] = before ++ ev :: after /\
    Run.for_each (Api.step Scenario.parse_start Scenario.fresh_world)
      (Origin.api_loop Scenario.fresh_world) before = Run.Next st /\
    Api.id ev = Some "e2" /\
    Api.status ev <> Some "cancelled" /\
    Pass.start_of Scenario.parse_start (Pass.OfApi ev) = Some start_time /\
    Datetime.sub_us start_time (Datetime.minutes Api.REMINDER_MINUTES_BEFORE)
      = Some (Datetime.mk 2025 1 1 13 57 0 0 (Some 120)) /\
    Api.now_for Scenario.fresh_world start_time
      (Run.clock Scenario.fresh_world (Run.ticks st)) = Some now /\
    Datetime.ltb (Datetime.mk 2025 1 1 13 57 0 0 (Some 120)) now = false.
Proof.
  apply (X7_api_requests_not_past Scenario.parse_start Scenario.fresh_world
           [Scenario.afternoon_event] Scenario.afternoon_request).
  vm_compute. left. reflexivity.
Defined.
